(** * DashMediaBackupTool: manifest resolution and download engine

    A shallow embedding of [dash-media-backup-tool.py] and the proofs of
    the properties its specification states.

    Strings are [string]s whose characters stand for code points below
    256.  The Python runtime and library functions the tool calls
    ([str] methods, [int], [urllib.parse], [os.path], ElementTree) are
    modelled first, each in a module of its own, after CPython 3.11 on a
    POSIX system; the tool's own functions follow, under their own
    names. *)

From Stdlib Require Import String Ascii List ZArith Lia Bool Arith DecimalString.
Import ListNotations.
Open Scope string_scope.

(* ------------------------------------------------------------------ *)
(** ** Python [str] and [int] *)

Module Py.

Definition ord (c : ascii) : nat := nat_of_ascii c.

(** [str.isspace] on one code point below 256. *)
Definition between (lo hi n : nat) : bool := Nat.leb lo n && Nat.leb n hi.

Definition isspace (c : ascii) : bool :=
  let n := ord c in
  between 9 13 n || between 28 32 n || Nat.eqb n 133 || Nat.eqb n 160.

Definition isdigit (c : ascii) : bool := between 48 57 (ord c).

Definition isalpha_ascii (c : ascii) : bool :=
  between 65 90 (ord c) || between 97 122 (ord c).

Fixpoint lstrip_by (p : ascii -> bool) (s : string) : string :=
  match s with
  | String c s' => if p c then lstrip_by p s' else s
  | EmptyString => EmptyString
  end.

Fixpoint rstrip_by (p : ascii -> bool) (s : string) : string :=
  match s with
  | String c s' =>
      let r := rstrip_by p s' in
      if (r =? "") && p c then "" else String c r
  | EmptyString => EmptyString
  end.

(** [s.strip()] *)
Definition strip (s : string) : string :=
  lstrip_by isspace (rstrip_by isspace s).

(** [s.lstrip(c)] for a single character [c]. *)
Definition lstrip_char (c : ascii) (s : string) : string :=
  lstrip_by (Ascii.eqb c) s.

Definition lower_char (c : ascii) : ascii :=
  let n := ord c in
  if between 65 90 n || (between 192 222 n && negb (Nat.eqb n 215))
  then ascii_of_nat (n + 32) else c.

(** [s.lower()] *)
Fixpoint lower (s : string) : string :=
  match s with
  | String c s' => String (lower_char c) (lower s')
  | EmptyString => EmptyString
  end.

(** [s.startswith(p)] *)
Definition startswith (s p : string) : bool := prefix p s.

(** [sub in s] *)
Fixpoint contains (sub s : string) : bool :=
  prefix sub s
  || match s with
     | String _ s' => contains sub s'
     | EmptyString => false
     end.

(** [c in s] for a single character. *)
Fixpoint has_char (c : ascii) (s : string) : bool :=
  match s with
  | String a s' => Ascii.eqb a c || has_char c s'
  | EmptyString => false
  end.

(** The scan of [s.replace(old, new)] for a non-empty [old]: [skip]
    counts the characters of a match that are still to be dropped. *)
Fixpoint replace_go (old new : string) (skip : nat) (s : string) : string :=
  match s with
  | EmptyString => EmptyString
  | String c s' =>
      match skip with
      | S k => replace_go old new k s'
      | O =>
          if prefix old s
          then new ++ replace_go old new (String.length old - 1) s'
          else String c (replace_go old new 0 s')
      end
  end.

(** [s.replace(old, new)]; every call of the tool passes a non-empty
    constant for [old]. *)
Definition replace (old new s : string) : string := replace_go old new 0 s.

(** [s.split(c, 1)] when [c] occurs in [s]: the text before and after
    its first occurrence. *)
Fixpoint split1 (c : ascii) (s : string) : option (string * string) :=
  match s with
  | EmptyString => None
  | String a s' =>
      if Ascii.eqb a c then Some ("", s')
      else match split1 c s' with
           | Some (h, t) => Some (String a h, t)
           | None => None
           end
  end.

(** The same around the last occurrence ([s.rpartition(c)]). *)
Fixpoint rsplit1 (c : ascii) (s : string) : option (string * string) :=
  match s with
  | EmptyString => None
  | String a s' =>
      match rsplit1 c s' with
      | Some (h, t) => Some (String a h, t)
      | None => if Ascii.eqb a c then Some ("", s') else None
      end
  end.

(** [s.split(c)] *)
Fixpoint split (c : ascii) (s : string) : list string :=
  match s with
  | EmptyString => [""]
  | String a s' =>
      if Ascii.eqb a c then "" :: split c s'
      else match split c s' with
           | h :: t => String a h :: t
           | [] => [String a ""]
           end
  end.

(** [sep.join(l)] *)
Definition join (sep : string) (l : list string) : string := String.concat sep l.

(** [str(n)] for an [int]. *)
Definition str (n : Z) : string := NilZero.string_of_int (Z.to_int n).

Fixpoint zeros (k : nat) : string :=
  match k with
  | O => ""
  | S k' => String "0" (zeros k')
  end.

(** [format(n, "0<w>d")]: sign-aware zero padding to width [w]. *)
Definition format_0d (w : nat) (n : Z) : string :=
  let digits := str (Z.abs n) in
  let sign := if (n <? 0)%Z then "-" else "" in
  sign ++ zeros (w - String.length sign - String.length digits) ++ digits.

Definition digit_val (c : ascii) : Z := Z.of_nat (ord c - 48).

(** Decimal digits with single underscores between them. *)
Fixpoint digits_val (acc : Z) (after_digit : bool) (s : string) : option Z :=
  match s with
  | EmptyString => if after_digit then Some acc else None
  | String c s' =>
      if isdigit c then digits_val (10 * acc + digit_val c)%Z true s'
      else if Ascii.eqb c "_" && after_digit then digits_val acc false s'
      else None
  end.

(** The white space [int] skips at both ends of its argument: the ASCII
    white space and, above 127, the code points [str.isspace] accepts.
    The separators 28 to 31 are white space for [str.strip] but not for
    [int]. *)
Definition int_space (c : ascii) : bool :=
  let n := ord c in
  between 9 13 n || Nat.eqb n 32 || Nat.eqb n 133 || Nat.eqb n 160.

Fixpoint count_digits (s : string) : nat :=
  match s with
  | String c s' => (if isdigit c then 1 else 0) + count_digits s'
  | EmptyString => 0
  end.

(** [sys.get_int_max_str_digits()], at its default. *)
Definition max_str_digits : nat := 4300.

(** [int(s)]: [None] stands for [ValueError], which a string of more
    than [max_str_digits] digits raises as a malformed one does. *)
Definition int (s : string) : option Z :=
  let t := lstrip_by int_space (rstrip_by int_space s) in
  if Nat.ltb max_str_digits (count_digits t) then None
  else
    match t with
    | String "-" r => option_map Z.opp (digits_val 0 false r)
    | String "+" r => digits_val 0 false r
    | r => digits_val 0 false r
    end.

(** Truth value of a string, and [a or b] on optional strings. *)
Definition truthy (s : string) : bool := negb (s =? "").

Definition or_default (a : option string) (b : string) : string :=
  match a with
  | Some s => if truthy s then s else b
  | None => b
  end.

Definition opt_truthy (a : option string) : bool :=
  match a with
  | Some s => truthy s
  | None => false
  end.

End Py.


(* ------------------------------------------------------------------ *)
(** ** [urllib.parse]

    The components are computed as CPython 3.11 computes them.  The
    checks of [urlsplit] that raise [ValueError] for a malformed
    bracketed host in the authority are not modelled: the functions below
    are total and give the components of a URL that passes them. *)

Module Url.

Definition mem (s : string) (l : list string) : bool :=
  existsb (String.eqb s) l.

Definition uses_relative : list string :=
  [""; "ftp"; "http"; "gopher"; "nntp"; "imap"; "wais"; "file"; "https";
   "shttp"; "mms"; "prospero"; "rtsp"; "rtspu"; "sftp"; "svn"; "svn+ssh";
   "ws"; "wss"].

Definition uses_netloc : list string :=
  [""; "ftp"; "http"; "gopher"; "nntp"; "telnet"; "imap"; "wais"; "file";
   "mms"; "https"; "shttp"; "snews"; "prospero"; "rtsp"; "rtspu"; "rsync";
   "svn"; "svn+ssh"; "sftp"; "nfs"; "git"; "git+ssh"; "ws"; "wss"].

Definition uses_params : list string :=
  [""; "ftp"; "hdl"; "prospero"; "http"; "imap"; "https"; "shttp"; "rtsp";
   "rtspu"; "sip"; "sips"; "mms"; "sftp"; "tel"].

Record SplitResult := mkSplit {
  s_scheme : string; s_netloc : string; s_path : string;
  s_query : string; s_fragment : string }.

Record ParseResult := mkParse {
  scheme : string; netloc : string; path : string;
  params : string; query : string; fragment : string }.

Definition is_c0_or_space (c : ascii) : bool := Nat.leb (Py.ord c) 32.

(** Tab, line feed and carriage return, which [urlsplit] removes. *)
Definition is_unsafe (c : ascii) : bool :=
  let n := Py.ord c in Nat.eqb n 9 || Nat.eqb n 10 || Nat.eqb n 13.

Definition is_scheme_char (c : ascii) : bool :=
  Py.isalpha_ascii c || Py.isdigit c || Py.has_char c "+-.".

Fixpoint all_chars (p : ascii -> bool) (s : string) : bool :=
  match s with
  | String c s' => p c && all_chars p s'
  | EmptyString => true
  end.

Fixpoint remove_chars (p : ascii -> bool) (s : string) : string :=
  match s with
  | String c s' => if p c then remove_chars p s' else String c (remove_chars p s')
  | EmptyString => EmptyString
  end.

(** [_splitnetloc(url, 2)], on the text that follows the two slashes. *)
Fixpoint splitnetloc (s : string) : string * string :=
  match s with
  | EmptyString => ("", "")
  | String c s' =>
      if Py.has_char c "/?#" then ("", s)
      else let (n, r) := splitnetloc s' in (String c n, r)
  end.

Definition split_at_first (c : ascii) (s : string) : string * string :=
  match Py.split1 c s with
  | Some (a, b) => (a, b)
  | None => (s, "")
  end.

Definition urlsplit (url scheme : string) : SplitResult :=
  let url := Py.lstrip_by is_c0_or_space url in
  let scheme := Py.lstrip_by is_c0_or_space (Py.rstrip_by is_c0_or_space scheme) in
  let url := remove_chars is_unsafe url in
  let scheme := remove_chars is_unsafe scheme in
  let '(scheme, url) :=
    match Py.split1 ":" url with
    | Some (String c0 pre, post) =>
        if Py.isalpha_ascii c0 && all_chars is_scheme_char (String c0 pre)
        then (Py.lower (String c0 pre), post)
        else (scheme, url)
    | _ => (scheme, url)
    end in
  let '(netloc, url) :=
    match url with
    | String "/" (String "/" rest) => splitnetloc rest
    | _ => ("", url)
    end in
  let '(url, fragment) := split_at_first "#" url in
  let '(url, query) := split_at_first "?" url in
  mkSplit scheme netloc url query fragment.

Definition splitparams (url : string) : string * string :=
  match Py.rsplit1 "/" url with
  | Some (dir, last) =>
      match Py.split1 ";" last with
      | Some (a, b) => (dir ++ "/" ++ a, b)
      | None => (url, "")
      end
  | None => split_at_first ";" url
  end.

Definition urlparse_with (url scheme : string) : ParseResult :=
  let r := urlsplit url scheme in
  let '(url, params) :=
    if mem (s_scheme r) uses_params && Py.has_char ";" (s_path r)
    then splitparams (s_path r)
    else (s_path r, "") in
  mkParse (s_scheme r) (s_netloc r) url params (s_query r) (s_fragment r).

(** [urllib.parse.urlparse(url)] *)
Definition urlparse (url : string) : ParseResult := urlparse_with url "".

Definition urlunsplit (scheme netloc url query fragment : string) : string :=
  let url :=
    if Py.truthy netloc
       || (Py.truthy scheme && mem scheme uses_netloc && negb (prefix "//" url))
    then "//" ++ netloc
         ++ (if Py.truthy url && negb (prefix "/" url) then "/" ++ url else url)
    else url in
  let url := if Py.truthy scheme then scheme ++ ":" ++ url else url in
  let url := if Py.truthy query then url ++ "?" ++ query else url in
  if Py.truthy fragment then url ++ "#" ++ fragment else url.

Definition urlunparse (p : ParseResult) : string :=
  let url := if Py.truthy (params p) then path p ++ ";" ++ params p else path p in
  urlunsplit (scheme p) (netloc p) url (query p) (fragment p).

(** [segments[1:-1] = filter(None, segments[1:-1])] *)
Fixpoint drop_empty_but_last (l : list string) : list string :=
  match l with
  | [] => []
  | [y] => [y]
  | y :: t => if Py.truthy y then y :: drop_empty_but_last t
              else drop_empty_but_last t
  end.

Definition drop_empty_middle (l : list string) : list string :=
  match l with
  | [] => []
  | x :: t => x :: drop_empty_but_last t
  end.

(** The loop over the segments; the stack is kept with its top first. *)
Definition resolve_step (stack : list string) (seg : string) : list string :=
  if seg =? ".." then tl stack
  else if seg =? "." then stack
  else seg :: stack.

Definition resolve_path (segments : list string) : string :=
  let resolved := rev (fold_left resolve_step segments []) in
  let lastseg := last segments "" in
  let resolved :=
    if (lastseg =? ".") || (lastseg =? "..") then (resolved ++ [""])%list else resolved in
  let p := Py.join "/" resolved in
  if Py.truthy p then p else "/".

(** [urllib.parse.urljoin(base, url)] *)
Definition urljoin (base url : string) : string :=
  if negb (Py.truthy base) then url
  else if negb (Py.truthy url) then base
  else
    let b := urlparse base in
    let u := urlparse_with url (scheme b) in
    if negb (scheme u =? scheme b) || negb (mem (scheme u) uses_relative)
    then url
    else if mem (scheme u) uses_netloc && Py.truthy (netloc u)
    then urlunparse u
    else
      let netloc' := if mem (scheme u) uses_netloc then netloc b else netloc u in
      if negb (Py.truthy (path u)) && negb (Py.truthy (params u))
      then urlunparse (mkParse (scheme u) netloc' (path b) (params b)
                         (if Py.truthy (query u) then query u else query b)
                         (fragment u))
      else
        let base_parts := Py.split "/" (path b) in
        let base_parts :=
          if last base_parts "" =? "" then base_parts else removelast base_parts in
        let segments :=
          if prefix "/" (path u) then Py.split "/" (path u)
          else drop_empty_middle (base_parts ++ Py.split "/" (path u))%list in
        urlunparse (mkParse (scheme u) netloc' (resolve_path segments)
                      (params u) (query u) (fragment u)).

(** The [hostname] property of a parse result; [None] as in Python. *)
Definition hostname (p : ParseResult) : option string :=
  let hostinfo :=
    match Py.rsplit1 "@" (netloc p) with
    | Some (_, h) => h
    | None => netloc p
    end in
  let host :=
    match Py.split1 "[" hostinfo with
    | Some (_, bracketed) => fst (split_at_first "]" bracketed)
    | None => fst (split_at_first ":" hostinfo)
    end in
  if negb (Py.truthy host) then None
  else match Py.split1 "%" host with
       | Some (h, zone) => Some (Py.lower h ++ "%" ++ zone)
       | None => Some (Py.lower host)
       end.

Definition hex_digit (n : nat) : ascii :=
  if Nat.ltb n 10 then ascii_of_nat (48 + n) else ascii_of_nat (55 + n).

Definition percent (n : nat) : string :=
  String "%" (String (hex_digit (n / 16)) (String (hex_digit (n mod 16)) "")).

Definition always_safe (c : ascii) : bool :=
  Py.isalpha_ascii c || Py.isdigit c || Py.has_char c "_.-~".

(** One character of [quote_plus]: a space becomes a plus sign, the
    unreserved characters stay, every other character is UTF-8
    encoded and percent-escaped. *)
Definition quote_plus_char (c : ascii) : string :=
  let n := Py.ord c in
  if Nat.eqb n 32 then "+"
  else if always_safe c then String c ""
  else if Nat.ltb n 128 then percent n
  else percent (192 + n / 64) ++ percent (128 + n mod 64).

(** [urllib.parse.quote_plus(s)] *)
Fixpoint quote_plus (s : string) : string :=
  match s with
  | String c s' => quote_plus_char c ++ quote_plus s'
  | EmptyString => EmptyString
  end.

End Url.

(** ** [os.path] (POSIX) *)

Module OsPath.

Fixpoint endswith_char (c : ascii) (s : string) : bool :=
  match s with
  | EmptyString => false
  | String a EmptyString => Ascii.eqb a c
  | String _ s' => endswith_char c s'
  end.

(** [os.path.join(a, b)] *)
Definition join (a b : string) : string :=
  if prefix "/" b then b
  else if negb (Py.truthy a) || endswith_char "/" a then a ++ b
  else a ++ "/" ++ b.

(** [os.path.dirname(p)] *)
Definition dirname (p : string) : string :=
  match Py.rsplit1 "/" p with
  | Some (h, _) =>
      let head := h ++ "/" in
      if Url.all_chars (Ascii.eqb "/") head then head
      else Py.rstrip_by (Ascii.eqb "/") head
  | None => ""
  end.

(** [os.path.splitext(p)[1]] *)
Definition splitext_ext (p : string) : string :=
  let base := match Py.rsplit1 "/" p with
              | Some (_, b) => b
              | None => p
              end in
  match Py.rsplit1 "." base with
  | Some (stem, e) =>
      if Url.all_chars (Ascii.eqb ".") stem then "" else String "." e
  | None => ""
  end.

End OsPath.


(* ------------------------------------------------------------------ *)
(** ** [xml.etree.ElementTree]

    The parsed manifest: an element has a qualified tag, its attributes,
    its text and its child elements in document order. *)

Module ET.

#[local] Set Warnings "-register-all".

Inductive Element : Type := mkElement {
  tag : string;
  attrib : list (string * string);
  text : option string;
  children : list Element }.

(** [elem.get(key)] *)
Definition get (e : Element) (key : string) : option string :=
  option_map snd (List.find (fun kv => fst kv =? key) (attrib e)).

(** [elem.findall(tag)]: the direct children with that tag. *)
Definition findall (e : Element) (qtag : string) : list Element :=
  filter (fun c => tag c =? qtag) (children e).

(** [elem.find(tag)]: the first of them, or [None]. *)
Definition find (e : Element) (qtag : string) : option Element :=
  List.find (fun c => tag c =? qtag) (children e).

(** The truth value of an element is that of [len(elem)]: an element
    with no child tests false (the library documents it: "elements
    with no subelements will test as False"). *)
Definition truthy (e : Element) : bool :=
  match children e with
  | [] => false
  | _ :: _ => true
  end.

(** [a or b] where both are an element or [None]. *)
Definition or_else (a b : option Element) : option Element :=
  match a with
  | Some e => if truthy e then a else b
  | None => b
  end.

End ET.

Import ET.

(* ------------------------------------------------------------------ *)
(** ** Exceptions *)

Inductive exn : Type :=
| RuntimeError (msg : string)
| ValueError
| OSError (msg : string)
| TypeError.

Inductive result (A : Type) : Type :=
| Ok (a : A)
| Raise (e : exn).

Arguments Ok {A} a.
Arguments Raise {A} e.

Definition bind {A B : Type} (m : result A) (k : A -> result B) : result B :=
  match m with
  | Ok a => k a
  | Raise e => Raise e
  end.

Notation "x <- m ;; k" := (bind m (fun x => k))
  (at level 61, m at next level, right associativity).

(** [int(s)] in the tool: a malformed number raises [ValueError]. *)
Definition int (s : string) : result Z :=
  match Py.int s with
  | Some n => Ok n
  | None => Raise ValueError
  end.

(* ------------------------------------------------------------------ *)
(** ** The tool *)

Definition MPD_NS : string := "urn:mpeg:dash:schema:mpd:2011".

(** The tag that the path ['mpd:<name>'] selects under [MPD_NS]. *)
Definition mpd (name : string) : string := "{" ++ MPD_NS ++ "}" ++ name.

Record DownloadItem : Type := mkDownloadItem {
  url : string;
  relpath : string }.

(** A [Dict[str, DownloadItem]]: the entries in insertion order, one per
    key. *)
Definition Dict : Type := list (string * DownloadItem).

(** [items[k] = v]: a key already present keeps its place and takes the
    new value, a new key goes to the end. *)
Fixpoint dict_set (items : Dict) (k : string) (v : DownloadItem) : Dict :=
  match items with
  | [] => [(k, v)]
  | (k', v') :: rest =>
      if k' =? k then (k', v) :: rest else (k', v') :: dict_set rest k v
  end.

(** [list(items.values())] *)
Definition values (items : Dict) : list DownloadItem := map snd items.

Definition keys (items : Dict) : list string := map fst items.

Definition join_url (base part : string) : string := Url.urljoin base part.

Definition _clean_baseurl_text (text : option string) : option string :=
  match text with
  | None => None
  | Some text =>
      let t := Py.strip text in
      if (t =? "") || (t =? "/") then None else Some t
  end.

(** The loop of [get_all_baseurls] over the [BaseURL] children. *)
Fixpoint clean_baseurls (bs : list Element) : list string :=
  match bs with
  | [] => []
  | b :: bs' =>
      match _clean_baseurl_text (text b) with
      | Some t => t :: clean_baseurls bs'
      | None => clean_baseurls bs'
      end
  end.

Definition get_all_baseurls (elem : Element) : list string :=
  match clean_baseurls (findall elem (mpd "BaseURL")) with
  | [] => [""]
  | urls => urls
  end.

Definition ensure_relpath_from_url (u : string) : string :=
  let p := Url.urlparse u in
  let rel := Py.lstrip_char "/" (Url.path p) in
  if Py.truthy (Url.query p)
  then OsPath.join rel (Url.quote_plus (Url.query p))
  else rel.

Definition add_item (items : Dict) (u : string) : Dict :=
  dict_set items u (mkDownloadItem u (ensure_relpath_from_url u)).

(** *** Template expansion *)

Fixpoint span_digits (s : string) : string * string :=
  match s with
  | String c s' =>
      if Py.isdigit c then let (ds, r) := span_digits s' in (String c ds, r)
      else ("", s)
  | EmptyString => ("", "")
  end.

(** A match of the pattern [\$Number(%0(\d+)d)?\$] at the start of [s]:
    the digits of group 2, if the group took part, and the length of the
    match. *)
Definition match_number_token (s : string) : option (option string * nat) :=
  if prefix "$Number" s then
    match substring 7 (String.length s - 7) s with
    | String "$" _ => Some (None, 8)
    | String "%" (String "0" r) =>
        match span_digits r with
        | (String d ds, String "d" (String "$" _)) =>
            Some (Some (String d ds), 11 + String.length (String d ds))
        | _ => None
        end
    | _ => None
    end
  else None.

(** The replacement text of one match. *)
Definition number_repl (number : Z) (width : option string) : string :=
  match width with
  | Some ds =>
      match Py.digits_val 0 false ds with
      | Some w => Py.format_0d (Z.to_nat w) number
      | None => Py.str number
      end
  | None => Py.str number
  end.

(** [re.sub] of that pattern over [s], left to right; [skip] counts the
    characters of a match that are still to be dropped. *)
Fixpoint sub_number_go (number : Z) (skip : nat) (s : string) : string :=
  match s with
  | EmptyString => EmptyString
  | String c s' =>
      match skip with
      | S k => sub_number_go number k s'
      | O =>
          match match_number_token s with
          | Some (w, len) =>
              number_repl number w ++ sub_number_go number (len - 1) s'
          | None => String c (sub_number_go number 0 s')
          end
      end
  end.

Definition sub_number (number : Z) (s : string) : string :=
  sub_number_go number 0 s.

Definition expand_media_template (pat : string) (rep : Element)
    (number time : option Z) : result string :=
  out <- (if Py.contains "$Number" pat then
            match number with
            | None => Raise (RuntimeError "Template uses $Number$ but number=None")
            | Some n => Ok (sub_number n pat)
            end
          else Ok pat) ;;
  out <- (if Py.contains "$Time$" out then
            match time with
            | None => Raise (RuntimeError "Template uses $Time$ but time=None")
            | Some t => Ok (Py.replace "$Time$" (Py.str t) out)
            end
          else Ok out) ;;
  let out :=
    if Py.contains "$RepresentationID$" out
    then Py.replace "$RepresentationID$" (Py.or_default (get rep "id") "") out
    else out in
  let out :=
    if Py.contains "$Bandwidth$" out
    then Py.replace "$Bandwidth$" (Py.or_default (get rep "bandwidth") "") out
    else out in
  Ok out.

Definition initialize_url_pattern (pat : string) (rep : Element) : string :=
  Py.replace "$Bandwidth$" (Py.or_default (get rep "bandwidth") "")
    (Py.replace "$RepresentationID$" (Py.or_default (get rep "id") "") pat).

(** *** Base URLs *)

(** [[join_url(p, b) for p in bases for b in get_all_baseurls(elem)]] *)
Definition stack_bases (bases : list string) (elem : Element) : list string :=
  flat_map (fun p => map (fun b => join_url p b) (get_all_baseurls elem)) bases.

Definition effective_base_urls_hierarchy (root : Element) (base : string)
    : list (Element * Element * string) :=
  let mpd_bases := map (fun b => join_url base b) (get_all_baseurls root) in
  flat_map (fun period =>
    let p_bases := stack_bases mpd_bases period in
    flat_map (fun adp =>
      let a_bases := stack_bases p_bases adp in
      flat_map (fun rep =>
        let r_bases := stack_bases a_bases rep in
        map (fun eff => (rep, adp, eff)) r_bases)
        (findall adp (mpd "Representation")))
      (findall period (mpd "AdaptationSet")))
    (findall root (mpd "Period")).

(** *** Filters *)

(** The parsed command line, as far as resolution reads it. *)
Record Args : Type := mkArgs {
  filter_repr_id : option (list string);
  filter_mime : option (list string) }.

(** The truth value of an option that holds a list. *)
Definition list_truthy {A : Type} (l : option (list A)) : bool :=
  match l with
  | Some (_ :: _) => true
  | _ => false
  end.

(** [x not in l] for an optional string [x] and an optional list. *)
Definition not_in (x : option string) (l : option (list string)) : bool :=
  match x, l with
  | Some s, Some l => negb (Url.mem s l)
  | _, _ => true
  end.

Definition matches_filters (rep adp : Element) (args : Args) : bool :=
  if list_truthy (filter_repr_id args)
     && not_in (get rep "id") (filter_repr_id args)
  then false
  else if list_truthy (filter_mime args) then
    let mime := Py.or_default (get rep "mimeType")
                  (Py.or_default (get adp "mimeType") "") in
    if negb (existsb (fun m => Py.startswith (Py.lower mime) (Py.lower m))
               (match filter_mime args with Some l => l | None => [] end))
    then false
    else true
  else true.

(** *** Segment templates *)

(** The inner loop of the timeline: [n] emissions from the cursor
    [current_time], which advances by [d] after each one. *)
Fixpoint emit_timed (n : nat) (media : string) (rep : Element) (base : string)
    (d : option string) (items : Dict) (current_time : Z) : result (Dict * Z) :=
  match n with
  | O => Ok (items, current_time)
  | S n' =>
      seg <- expand_media_template media rep None (Some current_time) ;;
      let items := add_item items (join_url base seg) in
      current_time <- match d with
                      | Some ds => dv <- int ds ;; Ok (current_time + dv)%Z
                      | None => Ok current_time
                      end ;;
      emit_timed n' media rep base d items current_time
  end.

(** One [S] element of the timeline: the registry and the cursor after
    it. *)
Definition timeline_entry (media : string) (rep : Element) (base : string)
    (s : Element) (items : Dict) (current_time : option Z)
    : result (Dict * option Z) :=
  r <- int (Py.or_default (get s "r") "0") ;;
  let d := get s "d" in
  let t := get s "t" in
  current_time <- match t with
                  | Some ts => int ts
                  | None => match current_time with
                            | None => Ok 0%Z
                            | Some c => Ok c
                            end
                  end ;;
  st <- emit_timed (Z.to_nat (r + 1)) media rep base d items current_time ;;
  Ok (fst st, Some (snd st)).

(** The loop over the [S] elements. *)
Fixpoint timeline_loop (media : string) (rep : Element) (base : string)
    (ss : list Element) (items : Dict) (current_time : option Z)
    : result (Dict * option Z) :=
  match ss with
  | [] => Ok (items, current_time)
  | s :: ss' =>
      st <- timeline_entry media rep base s items current_time ;;
      timeline_loop media rep base ss' (fst st) (snd st)
  end.

(** [for i in range(i, i + n)] of the number-based branch. *)
Fixpoint emit_numbered (n : nat) (media : string) (rep : Element) (base : string)
    (items : Dict) (i : Z) : result Dict :=
  match n with
  | O => Ok items
  | S n' =>
      seg <- expand_media_template media rep (Some i) None ;;
      emit_numbered n' media rep base (add_item items (join_url base seg)) (i + 1)%Z
  end.

(** [getenv] is the process environment: [os.getenv]. *)
Definition parse_segment_template (getenv : string -> option string)
    (rep adp : Element) (base : string) (items : Dict) : result Dict :=
  match or_else (find rep (mpd "SegmentTemplate")) (find adp (mpd "SegmentTemplate")) with
  | None => Ok items
  | Some st =>
      let init := get st "initialization" in
      let media := get st "media" in
      let items :=
        match init with
        | Some i => if Py.truthy i
                    then add_item items (join_url base (initialize_url_pattern i rep))
                    else items
        | None => items
        end in
      match media with
      | None => Ok items
      | Some media =>
          if negb (Py.truthy media) then Ok items
          else
            let timeline := find st (mpd "SegmentTimeline") in
            start_number <- int (Py.or_default (get st "startNumber") "1") ;;
            match timeline with
            | Some timeline =>
                st' <- timeline_loop media rep base (findall timeline (mpd "S"))
                         items None ;;
                Ok (fst st')
            | None =>
                match getenv "DASH_SEGMENT_COUNT" with
                | Some count_env =>
                    if negb (Py.truthy count_env)
                    then Raise (RuntimeError
                           "Need DASH_SEGMENT_COUNT for number-based SegmentTemplate")
                    else
                      count <- int count_env ;;
                      emit_numbered (Z.to_nat count) media rep base items start_number
                | None =>
                    Raise (RuntimeError
                      "Need DASH_SEGMENT_COUNT for number-based SegmentTemplate")
                end
            end
      end
  end.

(** *** Segment lists *)

Fixpoint segment_urls (base : string) (sus : list Element) (items : Dict) : Dict :=
  match sus with
  | [] => items
  | su :: sus' =>
      match get su "media" with
      | Some media =>
          if Py.truthy media
          then segment_urls base sus' (add_item items (join_url base media))
          else segment_urls base sus' items
      | None => segment_urls base sus' items
      end
  end.

Definition parse_segment_list (rep adp : Element) (base : string) (items : Dict)
    : Dict :=
  match or_else (find rep (mpd "SegmentList")) (find adp (mpd "SegmentList")) with
  | None => items
  | Some sl =>
      let items :=
        match find sl (mpd "Initialization") with
        | Some init =>
            match get init "sourceURL" with
            | Some src => if Py.truthy src
                          then add_item items (join_url base src)
                          else items
            | None => items
            end
        | None => items
        end in
      segment_urls base (findall sl (mpd "SegmentURL")) items
  end.

(** *** Collection *)

(** The body of the loop of [collect_items] for one triple. *)
Definition collect_one (getenv : string -> option string) (args : Args)
    (triple : Element * Element * string) (items : Dict) : result Dict :=
  let '(rep, adp, eff) := triple in
  if negb (matches_filters rep adp args) then Ok items
  else
    let items := parse_segment_list rep adp eff items in
    items <- parse_segment_template getenv rep adp eff items ;;
    let path := Url.path (Url.urlparse eff) in
    match items with
    | [] => if Py.truthy (OsPath.splitext_ext path)
            then Ok (add_item items eff)
            else Ok items
    | _ :: _ => Ok items
    end.

Fixpoint collect_loop (getenv : string -> option string) (args : Args)
    (triples : list (Element * Element * string)) (items : Dict) : result Dict :=
  match triples with
  | [] => Ok items
  | tr :: rest =>
      items <- collect_one getenv args tr items ;;
      collect_loop getenv args rest items
  end.

(** [collect_items], from the parsed manifest [root]. *)
Definition collect_items (getenv : string -> option string) (root : Element)
    (base_url : string) (args : Args) : result (list DownloadItem) :=
  items <- collect_loop getenv args (effective_base_urls_hierarchy root base_url) [] ;;
  Ok (values items).

(** *** Downloads *)

Definition opt_string_eqb (a b : option string) : bool :=
  match a, b with
  | Some x, Some y => x =? y
  | None, None => true
  | _, _ => false
  end.

Definition check_domain (u : string) (only_domain : option string) : bool :=
  if negb (Py.opt_truthy only_domain) then true
  else opt_string_eqb (Url.hostname (Url.urlparse u)) only_domain.

(** What a call of [download_one] does to the outside world. *)
Inductive event : Type :=
| Makedirs (dir : string)
| HttpGet (u : string)
| Stdout (msg : string)
| Sleep (secs : Z).

(** The triple that [download_one] returns: the URL, the success flag and
    the error text. *)
Definition DownloadResult : Type := (string * bool * option string)%type.

(** The [while] loop of [download_one].  [endpoint k] is the outcome of
    the request number [k] for this item, counted from 0: [None] when the
    body of the [try] completes (the response is written and renamed into
    place), [Some e] when it raises an exception whose text is [e].
    [attempt] counts the failed requests so far.  The result is [None]
    when [fuel] does not cover the iterations; otherwise it carries the
    value returned ([None] there is Python's, for a loop left by its
    condition) and the events in order. *)
Fixpoint attempt_loop (fuel : nat) (endpoint : nat -> option string)
    (item : DownloadItem) (retries : Z) (verbose : bool) (attempt : Z)
    : option (option DownloadResult * list event) :=
  match fuel with
  | O => None
  | S fuel' =>
      if (attempt <=? retries)%Z then
        match endpoint (Z.to_nat attempt) with
        | None => Some (Some (url item, true, None), [HttpGet (url item)])
        | Some e =>
            let attempt := (attempt + 1)%Z in
            if (attempt >? retries)%Z
            then Some (Some (url item, false, Some e), [HttpGet (url item)])
            else
              let log :=
                if verbose
                then [Stdout ("Retry " ++ Py.str attempt ++ "/" ++ Py.str retries
                             ++ ": " ++ url item ++ " (" ++ e ++ ")")]
                else [] in
              match attempt_loop fuel' endpoint item retries verbose attempt with
              | Some (r, tr) =>
                  Some (r, (HttpGet (url item) :: log
                            ++ Sleep (Z.min (2 ^ attempt) 10) :: tr)%list)
              | None => None
              end
        end
      else Some (None, [])
  end.

(** [os.makedirs(dir, exist_ok=True)].  [fs dir] is what the file
    system answers for [dir]: [None] when the directory is there on
    return, [Some msg] when the call raises an [OSError] whose text is
    [msg].  The empty path raises on every file system. *)
Definition os_makedirs (fs : string -> option string) (dir : string)
    : option string :=
  if dir =? "" then Some "[Errno 2] No such file or directory: ''" else fs dir.

(** [download_one].  The directory of the destination is made before
    the loop and outside its [try]: an [OSError] there leaves the call
    as an exception.  The result is [None] when [fuel] does not cover
    the loop; otherwise it carries the value returned or the exception
    raised, and the events in order. *)
Definition download_one (fuel : nat) (fs : string -> option string)
    (endpoint : nat -> option string)
    (item : DownloadItem) (outdir : string) (retries : Z)
    (only_domain : option string) (verbose : bool)
    : option (result (option DownloadResult) * list event) :=
  if negb (check_domain (url item) only_domain)
  then Some (Ok (Some (url item, false, Some "wrong domain")), [])
  else
    let dest := OsPath.join outdir (relpath item) in
    match os_makedirs fs (OsPath.dirname dest) with
    | Some msg => Some (Raise (OSError msg), [Makedirs (OsPath.dirname dest)])
    | None =>
        match attempt_loop fuel endpoint item retries verbose 0 with
        | Some (r, tr) => Some (Ok r, Makedirs (OsPath.dirname dest) :: tr)
        | None => None
        end
    end.

(* ------------------------------------------------------------------ *)
(** * The item registry *)

(** Registering a sequence of URLs, one [add_item] after the other. *)
Definition register (urls : list string) (items : Dict) : Dict :=
  fold_left add_item urls items.

(** The first occurrences of a list, in order. *)
Fixpoint dedup (l : list string) : list string :=
  match l with
  | [] => []
  | x :: t => x :: filter (fun y => negb (y =? x)) (dedup t)
  end.

(** Every entry is filed under its own URL and carries the relative path
    derived from it. *)
Definition entry_ok (kv : string * DownloadItem) : Prop :=
  url (snd kv) = fst kv /\ relpath (snd kv) = ensure_relpath_from_url (fst kv).

(* ------------------------------------------------------------------ *)
(** * The URLs a resolution step registers

    Each function below lists, in order, the URLs that the function of
    the tool named in its comment passes to [add_item]; the lemmas of the
    second part show that the tool's function is the registration of
    that list. *)

(** [segment_urls] *)
Fixpoint segment_url_list (base : string) (sus : list Element) : list string :=
  match sus with
  | [] => []
  | su :: sus' =>
      match get su "media" with
      | Some media =>
          if Py.truthy media
          then join_url base media :: segment_url_list base sus'
          else segment_url_list base sus'
      | None => segment_url_list base sus'
      end
  end.

(** [parse_segment_list] *)
Definition segment_list_urls (rep adp : Element) (base : string) : list string :=
  match or_else (find rep (mpd "SegmentList")) (find adp (mpd "SegmentList")) with
  | None => []
  | Some sl =>
      (match find sl (mpd "Initialization") with
       | Some init =>
           match get init "sourceURL" with
           | Some src => if Py.truthy src then [join_url base src] else []
           | None => []
           end
       | None => []
       end
       ++ segment_url_list base (findall sl (mpd "SegmentURL")))%list
  end.

(** [emit_timed] *)
Fixpoint timed_urls (n : nat) (media : string) (rep : Element) (base : string)
    (d : option string) (current_time : Z) : result (list string * Z) :=
  match n with
  | O => Ok ([], current_time)
  | S n' =>
      seg <- expand_media_template media rep None (Some current_time) ;;
      current_time <- match d with
                      | Some ds => dv <- int ds ;; Ok (current_time + dv)%Z
                      | None => Ok current_time
                      end ;;
      r <- timed_urls n' media rep base d current_time ;;
      Ok (join_url base seg :: fst r, snd r)
  end.

(** [timeline_entry] *)
Definition entry_urls (media : string) (rep : Element) (base : string)
    (s : Element) (current_time : option Z) : result (list string * option Z) :=
  r <- int (Py.or_default (get s "r") "0") ;;
  current_time <- match get s "t" with
                  | Some ts => int ts
                  | None => match current_time with
                            | None => Ok 0%Z
                            | Some c => Ok c
                            end
                  end ;;
  st <- timed_urls (Z.to_nat (r + 1)) media rep base (get s "d") current_time ;;
  Ok (fst st, Some (snd st)).

(** [timeline_loop] *)
Fixpoint timeline_urls (media : string) (rep : Element) (base : string)
    (ss : list Element) (current_time : option Z)
    : result (list string * option Z) :=
  match ss with
  | [] => Ok ([], current_time)
  | s :: ss' =>
      st <- entry_urls media rep base s current_time ;;
      r <- timeline_urls media rep base ss' (snd st) ;;
      Ok ((fst st ++ fst r)%list, snd r)
  end.

(** [emit_numbered] *)
Fixpoint numbered_urls (n : nat) (media : string) (rep : Element) (base : string)
    (i : Z) : result (list string) :=
  match n with
  | O => Ok []
  | S n' =>
      seg <- expand_media_template media rep (Some i) None ;;
      r <- numbered_urls n' media rep base (i + 1)%Z ;;
      Ok (join_url base seg :: r)
  end.

(** The initialization URL of the template [st], if it declares one. *)
Definition template_init_urls (st rep : Element) (base : string) : list string :=
  match get st "initialization" with
  | Some i => if Py.truthy i
              then [join_url base (initialize_url_pattern i rep)]
              else []
  | None => []
  end.

(** [parse_segment_template] *)
Definition segment_template_urls (getenv : string -> option string)
    (rep adp : Element) (base : string) : result (list string) :=
  match or_else (find rep (mpd "SegmentTemplate")) (find adp (mpd "SegmentTemplate")) with
  | None => Ok []
  | Some st =>
      let init_urls := template_init_urls st rep base in
      match get st "media" with
      | None => Ok init_urls
      | Some media =>
          if negb (Py.truthy media) then Ok init_urls
          else
            start_number <- int (Py.or_default (get st "startNumber") "1") ;;
            match find st (mpd "SegmentTimeline") with
            | Some timeline =>
                st' <- timeline_urls media rep base (findall timeline (mpd "S")) None ;;
                Ok (init_urls ++ fst st')%list
            | None =>
                match getenv "DASH_SEGMENT_COUNT" with
                | Some count_env =>
                    if negb (Py.truthy count_env)
                    then Raise (RuntimeError
                           "Need DASH_SEGMENT_COUNT for number-based SegmentTemplate")
                    else
                      count <- int count_env ;;
                      r <- numbered_urls (Z.to_nat count) media rep base start_number ;;
                      Ok (init_urls ++ r)%list
                | None =>
                    Raise (RuntimeError
                      "Need DASH_SEGMENT_COUNT for number-based SegmentTemplate")
                end
            end
      end
  end.

(** The last step of the loop body of [collect_items]: an empty registry
    takes the effective base itself when its path has an extension. *)
Definition direct_file (eff : string) (items : Dict) : Dict :=
  match items with
  | [] => if Py.truthy (OsPath.splitext_ext (Url.path (Url.urlparse eff)))
          then add_item items eff
          else items
  | _ :: _ => items
  end.

(* ------------------------------------------------------------------ *)
(** * Sample manifests and candidate properties *)

(** An element of the MPD namespace without text. *)
Definition node (name : string) (attrs : list (string * string))
    (kids : list Element) : Element :=
  mkElement (mpd name) attrs None kids.

(** [<BaseURL>t</BaseURL>] *)
Definition base_url_elem (t : string) : Element :=
  mkElement (mpd "BaseURL") [] (Some t) [].

(** An environment without [DASH_SEGMENT_COUNT], and one that sets it. *)
Definition no_env : string -> option string := fun _ => None.

Definition env_count (n : string) : string -> option string :=
  fun k => if k =? "DASH_SEGMENT_COUNT" then Some n else None.

Definition no_filters : Args := mkArgs None None.

(** A representation that declares a segment list and a segment template
    with a timeline. *)
Definition rep_list_and_template : Element :=
  node "Representation" [("id", "v")]
    [node "SegmentList" [] [node "SegmentURL" [("media", "a.m4s")] []];
     node "SegmentTemplate" [("media", "t-$Time$.m4s")]
       [node "SegmentTimeline" []
          [node "S" [("t", "0"); ("d", "2"); ("r", "1")] [];
           node "S" [("d", "3")] []]]].

Definition adp_list_and_template : Element :=
  node "AdaptationSet" [] [rep_list_and_template].

(** The reading of the addressing priority as an exclusive choice: with a
    segment list declared, nothing but the earlier entries, the URLs of
    the list and the effective base is in the registry afterwards. *)
Definition exclusive_addressing : Prop :=
  forall getenv args rep adp eff items items',
    matches_filters rep adp args = true ->
    find rep (mpd "SegmentList") <> None \/ find adp (mpd "SegmentList") <> None ->
    collect_one getenv args (rep, adp, eff) items = Ok items' ->
    forall u, In u (keys items') ->
      In u (keys items) \/ In u (keys (parse_segment_list rep adp eff [])) \/ u = eff.

(** Two representations that each name one static file. *)
Definition rep_file_a : Element :=
  node "Representation" [("id", "v")] [base_url_elem "a.mp4"].

Definition rep_file_b : Element :=
  node "Representation" [("id", "w")] [base_url_elem "b.mp4"].

Definition adp_two_files : Element :=
  node "AdaptationSet" [] [rep_file_a; rep_file_b].

Definition mpd_two_files : Element :=
  node "MPD" [] [node "Period" [] [adp_two_files]].

(** The reading of "no on-disk collision": two different URLs never have
    the same relative path. *)
Definition relpath_injective : Prop :=
  forall u1 u2, u1 <> u2 -> ensure_relpath_from_url u1 <> ensure_relpath_from_url u2.

(* ------------------------------------------------------------------ *)
(** * Timeline expansion as the specification words it *)

(** A timeline entry: an optional start time, an optional duration and a
    repeat count that is not negative. *)
Record TimelineEntry : Type := mkEntry {
  startTime : option Z;
  duration : option Z;
  repeatCount : nat }.

(** [n] emissions from the cursor: each one takes the cursor's value,
    and a declared duration moves the cursor after it.  The result is
    the emitted times and the cursor at the end. *)
Fixpoint spec_emit (n : nat) (d : option Z) (cursor : Z) : list Z * Z :=
  match n with
  | O => ([], cursor)
  | S n' =>
      let next := match d with
                  | Some dv => (cursor + dv)%Z
                  | None => cursor
                  end in
      let (ts, c) := spec_emit n' d next in
      (cursor :: ts, c)
  end.

(** Entry after entry: a declared start time replaces the cursor, then
    [repeatCount + 1] segments are emitted. *)
Fixpoint spec_timeline (es : list TimelineEntry) (cursor : Z) : list Z * Z :=
  match es with
  | [] => ([], cursor)
  | e :: es' =>
      let c := match startTime e with
               | Some t => t
               | None => cursor
               end in
      let (ts, c') := spec_emit (S (repeatCount e)) (duration e) c in
      let (ts', c'') := spec_timeline es' c' in
      ((ts ++ ts')%list, c'')
  end.

(** The cursor starts at the first entry's start time, or at 0. *)
Definition spec_timeline_times (es : list TimelineEntry) : list Z * Z :=
  spec_timeline es
    match es with
    | e :: _ => match startTime e with
                | Some t => t
                | None => 0%Z
                end
    | [] => 0%Z
    end.

(** An attribute that is absent, or holds the decimal text of a number. *)
Definition attr_is (a : option string) (v : option Z) : Prop :=
  match a, v with
  | Some s, Some z => int s = Ok z
  | None, None => True
  | _, _ => False
  end.

(** The [S] element [s] declares the entry [e]. *)
Definition represents (s : Element) (e : TimelineEntry) : Prop :=
  int (Py.or_default (get s "r") "0") = Ok (Z.of_nat (repeatCount e))
  /\ attr_is (get s "t") (startTime e)
  /\ attr_is (get s "d") (duration e).

(** The entries [[{t:0, d:2, r:1}, {d:3, r:0}]] and their elements. *)
Definition sample_entries : list TimelineEntry :=
  [mkEntry (Some 0%Z) (Some 2%Z) 1; mkEntry None (Some 3%Z) 0].

Definition sample_S : list Element :=
  [node "S" [("t", "0"); ("d", "2"); ("r", "1")] [];
   node "S" [("d", "3"); ("r", "0")] []].

(** A representation whose template carries that timeline. *)
Definition timeline_template : Element :=
  node "SegmentTemplate" [("media", "t-$Time$.m4s"); ("initialization", "init.mp4")]
    [node "SegmentTimeline" [] sample_S].

Definition rep_timeline : Element :=
  node "Representation" [("id", "v")] [timeline_template].

Definition adp_timeline : Element := node "AdaptationSet" [] [rep_timeline].

(** The media pattern with [$Time$] replaced by the decimal text of [t]
    and the two attributes of the representation substituted. *)
Definition time_segment (media : string) (rep : Element) (t : Z) : string :=
  Py.replace "$Bandwidth$" (Py.or_default (get rep "bandwidth") "")
    (Py.replace "$RepresentationID$" (Py.or_default (get rep "id") "")
       (Py.replace "$Time$" (Py.str t) media)).

(** The media pattern expands to [seg] at the time [t]. *)
Definition expands (media : string) (rep : Element) (t : Z) (seg : string) : Prop :=
  expand_media_template media rep None (Some t) = Ok seg.

(** The cursor [c] of the specification stands for the tool's
    [current_time], which is [None] before the first entry. *)
Definition cursor_is (current_time : option Z) (c : Z) : Prop :=
  match current_time with
  | Some c' => c' = c
  | None => c = 0%Z
  end.

(* ------------------------------------------------------------------ *)
(** * The base-URL hierarchy *)

(** The number of bases that [get_all_baseurls] returns for a level. *)
Definition level_count (elem : Element) : nat :=
  Nat.max 1 (length (clean_baseurls (findall elem (mpd "BaseURL")))).

(** The bases that the walk has below [base] after the levels, outermost
    first. *)
Definition chain_bases (base : string) (levels : list Element) : list string :=
  fold_left stack_bases levels [base].

(** ** The hierarchy as the specification words it *)

(** The override strings that a level declares: the text of each of its
    [BaseURL] children, in order, the empty string for a child without
    text. *)
Definition declared_overrides (elem : Element) : list string :=
  map (fun b => match text b with Some t => t | None => "" end)
    (findall elem (mpd "BaseURL")).

(** An override is meaningful when it is neither the empty string nor
    exactly a slash. *)
Definition meaningful (o : string) : bool := negb (o =? "") && negb (o =? "/").

(** The meaningful overrides of a level, read as they are declared, and
    read after white space is trimmed at both ends. *)
Definition stated_overrides (elem : Element) : list string :=
  filter meaningful (declared_overrides elem).

Definition trimmed_overrides (elem : Element) : list string :=
  filter meaningful (map Py.strip (declared_overrides elem)).

(** The bases of a level whose meaningful overrides are [os], below the
    base [parent] of the level above: the join of [parent] with each
    override, and [parent] itself, unchanged, when there is none. *)
Definition level_bases (os : list string) (parent : string) : list string :=
  match os with
  | [] => [parent]
  | _ :: _ => map (fun o => join_url parent o) os
  end.

(** The effective bases below [bases] after the levels whose meaningful
    overrides are [levels], outermost first: each level resolves each
    of its overrides against each base of the level above. *)
Fixpoint resolve_chain (levels : list (list string)) (bases : list string)
    : list string :=
  match levels with
  | [] => bases
  | os :: rest => resolve_chain rest (flat_map (level_bases os) bases)
  end.

(** A level's count of meaningful overrides, 1 for a level with none. *)
Definition override_count (os : list string) : nat := Nat.max 1 (length os).

(** The triples of a manifest when [overrides] gives the meaningful
    overrides of a level: every representation, in document order, with
    every effective base of its chain root, period, adaptation set,
    representation. *)
Definition walk_by (overrides : Element -> list string) (root : Element)
    (base : string) : list (Element * Element * string) :=
  flat_map (fun period =>
    flat_map (fun adp =>
      flat_map (fun rep =>
        map (fun eff => (rep, adp, eff))
          (resolve_chain (map overrides [root; period; adp; rep]) [base]))
        (findall adp (mpd "Representation")))
      (findall period (mpd "AdaptationSet")))
    (findall root (mpd "Period")).

(** C5 as it is stated: the overrides count and are joined as they are
    declared, those that are empty or exactly a slash aside. *)
Definition effective_bases_as_stated : Prop :=
  forall (root : Element) (base : string),
    effective_base_urls_hierarchy root base = walk_by stated_overrides root base
    /\ forall period adp rep,
         length (chain_bases base [root; period; adp; rep])
         = override_count (stated_overrides root)
           * override_count (stated_overrides period)
           * override_count (stated_overrides adp)
           * override_count (stated_overrides rep).

(** A period that declares a slash after a blank and a directory. *)
Definition period_padded_slash : Element :=
  node "Period" []
    [base_url_elem " /"; base_url_elem "video/";
     node "AdaptationSet" [] [node "Representation" [("id", "v")] []]].

Definition mpd_padded_slash : Element := node "MPD" [] [period_padded_slash].

(** A manifest with two mirrors at the root and a no-op override at the
    period. *)
Definition rep_plain : Element := node "Representation" [("id", "v")] [].

Definition adp_video : Element :=
  node "AdaptationSet" [] [base_url_elem "video/"; rep_plain].

Definition period_noop : Element :=
  node "Period" [] [base_url_elem " / "; adp_video].

Definition mpd_mirrors : Element :=
  node "MPD" [] [base_url_elem "http://m1/"; base_url_elem "http://m2/";
                 period_noop].

(* ------------------------------------------------------------------ *)
(** * Observing a download *)

(** The number of requests in a trace, and its delays in order. *)
Definition gets (tr : list event) : nat :=
  length (filter (fun e => match e with HttpGet _ => true | _ => false end) tr).

Definition sleeps (tr : list event) : list Z :=
  flat_map (fun e => match e with Sleep s => [s] | _ => [] end) tr.

(** The delay after the [k]-th failed attempt: it doubles from one
    attempt to the next and stops at 10. *)
Definition backoff (k : nat) : Z := Z.min (2 ^ Z.of_nat k) 10.

(** The log line after the [k]-th failed request, whose error text is
    [e]: it is written when [verbose] is set and another request
    follows. *)
Definition retry_log (item : DownloadItem) (retries : Z) (verbose : bool)
    (k : nat) (e : string) : list event :=
  if verbose
  then [Stdout ("Retry " ++ Py.str (Z.of_nat k) ++ "/" ++ Py.str retries
               ++ ": " ++ url item ++ " (" ++ e ++ ")")]
  else [].

(** What follows the [k]-th failed request when another one is due: the
    log line, the sleep and the next request.  [errs j] is the error
    text of the request number [j], counted from 0. *)
Definition retry_events (item : DownloadItem) (retries : Z) (verbose : bool)
    (errs : nat -> string) (k : nat) : list event :=
  (retry_log item retries verbose k (errs (k - 1))
   ++ [Sleep (backoff k); HttpGet (url item)])%list.

(** The events of a loop that sends [m + 1] requests: the first request,
    and after each of the first [m] failures a sleep and the next
    request.  Nothing follows the last request. *)
Definition attempts_trace (item : DownloadItem) (retries : Z) (verbose : bool)
    (errs : nat -> string) (m : nat) : list event :=
  HttpGet (url item)
  :: flat_map (retry_events item retries verbose errs) (seq 1 m).

(** The error text of the request number [j] at an endpoint, empty when
    the request succeeds. *)
Definition error_text (endpoint : nat -> option string) (j : nat) : string :=
  match endpoint j with
  | Some e => e
  | None => ""
  end.

(** A trace without its log lines. *)
Definition without_log (tr : list event) : list event :=
  filter (fun e => match e with Stdout _ => false | _ => true end) tr.

(** An endpoint that fails [n] times with the errors [errs] and then
    succeeds. *)
Definition fails_then_succeeds (n : nat) (errs : nat -> string)
    : nat -> option string :=
  fun k => if Nat.ltb k n then Some (errs k) else None.

(** A number-based template without a timeline, declared on the
    representation and on the adaptation set. *)
Definition number_template : Element :=
  node "SegmentTemplate" [("media", "seg-$Number$.m4s")] [].

Definition rep_number_template : Element :=
  node "Representation" [("id", "v")] [number_template].

Definition adp_rep_number_template : Element :=
  node "AdaptationSet" [] [rep_number_template].

Definition adp_number_template : Element :=
  node "AdaptationSet" [] [number_template; rep_plain].

From Stdlib Require Import Permutation.

(* ------------------------------------------------------------------ *)
(** * Further functions of the tool *)

(** [rep.get('mimeType') or adp.get('mimeType') or ''] *)
Definition effective_mime (rep adp : Element) : string :=
  Py.or_default (get rep "mimeType") (Py.or_default (get adp "mimeType") "").

(** The media pattern with the number tokens replaced by [i] and the two
    attributes of the representation substituted. *)
Definition number_segment (media : string) (rep : Element) (i : Z) : string :=
  Py.replace "$Bandwidth$" (Py.or_default (get rep "bandwidth") "")
    (Py.replace "$RepresentationID$" (Py.or_default (get rep "id") "")
       (sub_number i media)).

(** A decimal digit or a minus sign: the characters of [str(n)]. *)
Definition is_numeric (c : ascii) : bool := Py.isdigit c || Ascii.eqb c "-".

(** No character of [p] is a digit or a minus sign. *)
Definition non_numeric (p : string) : bool :=
  Url.all_chars (fun c => negb (is_numeric c)) p.

(** The texts of the three errors the tool raises itself. *)
Definition need_count_msg : string :=
  "Need DASH_SEGMENT_COUNT for number-based SegmentTemplate".

Definition number_none_msg : string := "Template uses $Number$ but number=None".

Definition time_none_msg : string := "Template uses $Time$ but time=None".

(** No square bracket occurs in [s].  [urljoin] and [urlparse] raise
    [ValueError] only for a URL whose authority holds a square bracket;
    the URLs made of texts without one are all within the domain on
    which the functions of [Url] give what CPython computes. *)
Definition is_bracket (c : ascii) : bool := Ascii.eqb c "[" || Ascii.eqb c "]".

Definition no_brackets (s : string) : bool :=
  Url.all_chars (fun c => negb (is_bracket c)) s.

(** The number of digits of the widest padding that a pattern asks for:
    the longest run of digits after a percent sign and a zero. *)
Fixpoint widest_padding (s : string) : nat :=
  match s with
  | EmptyString => 0
  | String c s' =>
      Nat.max
        (match c, s' with
         | "%"%char, String "0" r => String.length (fst (span_digits r))
         | _, _ => 0
         end)
        (widest_padding s')
  end.

(** A template with a number-based pattern on the adaptation set. *)
Definition padded_template : Element :=
  node "SegmentTemplate"
    [("media", "$RepresentationID$/seg-$Number%03d$.m4s"); ("startNumber", "9")] [].

Definition adp_padded : Element :=
  node "AdaptationSet" [] [padded_template; rep_plain].

(** The triples that pass the filters. *)
Definition selected (args : Args) (tr : Element * Element * string) : bool :=
  let '(rep, adp, _) := tr in matches_filters rep adp args.

(** An upper-case ASCII letter. *)
Definition is_upper (c : ascii) : bool := Py.between 65 90 (Py.ord c).

(** [s] holds an upper-case ASCII letter. *)
Definition has_upper (s : string) : bool :=
  negb (Url.all_chars (fun c => negb (is_upper c)) s).

(** *** Headers *)

(** A [Dict[str, str]], in insertion order. *)
Definition Headers : Type := list (string * string).

(** [headers[k] = v] *)
Fixpoint header_set (headers : Headers) (k v : string) : Headers :=
  match headers with
  | [] => [(k, v)]
  | (k', v') :: rest =>
      if k' =? k then (k', v) :: rest else (k', v') :: header_set rest k v
  end.

(** [headers.get(k)] *)
Definition header_get (headers : Headers) (k : string) : option string :=
  option_map snd (List.find (fun kv => fst kv =? k) headers).

(** The loop of [merge_headers]: the dictionary at the end and the
    warnings written to the standard error stream. *)
Fixpoint merge_loop (hs : list string) (headers : Headers)
    : Headers * list string :=
  match hs with
  | [] => (headers, [])
  | h :: rest =>
      if negb (Py.has_char ":" h) then
        let (r, w) := merge_loop rest headers in
        (r, ("Warning: bad header: " ++ h) :: w)
      else
        let (k, v) := Url.split_at_first ":" h in
        merge_loop rest (header_set headers (Py.strip k) (Py.strip v))
  end.

(** [merge_headers(args)], from the two fields of [args] that it reads. *)
Definition merge_headers (user_agent : string) (headers : option (list string))
    : Headers * list string :=
  let init := [("User-Agent", user_agent)] in
  match headers with
  | Some (h :: rest) => merge_loop (h :: rest) init
  | _ => (init, [])
  end.

(** The name and value that a well-formed header line sets. *)
Definition header_of (h : string) : option (string * string) :=
  if Py.has_char ":" h
  then let (k, v) := Url.split_at_first ":" h in Some (Py.strip k, Py.strip v)
  else None.

(** The value of the last line of [hs] that sets the name [k]. *)
Fixpoint last_value (k : string) (hs : list string) : option string :=
  match hs with
  | [] => None
  | h :: rest =>
      match last_value k rest with
      | Some v => Some v
      | None =>
          match header_of h with
          | Some (k', v) => if k' =? k then Some v else None
          | None => None
          end
      end
  end.

(** *** The summary of a run *)

(** A line written to the standard output or to the standard error
    stream. *)
Inductive line : Type :=
| Out (s : string)
| Err (s : string).

(** What a future holds once its call of [download_one] is over: the
    value returned or the exception raised. *)
Definition Outcome : Type := result (option DownloadResult).

(** The loop of [main] over the completed futures, in the order of
    their completion: the two counters at the end and the lines
    written.  [f.result()] raises again what the call raised, and
    Python's [None] cannot be unpacked into the three names; either
    way the loop is left with the exception. *)
Fixpoint report_loop (verbose : bool) (completed : list Outcome)
    (ok fail : nat) : result (nat * nat) * list line :=
  match completed with
  | [] => (Ok (ok, fail), [])
  | Raise e :: _ => (Raise e, [])
  | Ok None :: _ => (Raise TypeError, [])
  | Ok (Some (u, success, err)) :: rest =>
      if success then
        let (r, ls) := report_loop verbose rest (S ok) fail in
        (r, ((if verbose then [Out ("[OK] " ++ u)] else []) ++ ls)%list)
      else
        let (r, ls) := report_loop verbose rest ok (S fail) in
        (r, Err ("[FAIL] " ++ u ++ " -> "
                 ++ match err with Some e => e | None => "None" end) :: ls)
  end.

(** The calls of [download_one] that a run submits, in the order of the
    items.  [world u] is the endpoint behind the URL [u] and [dirs u]
    the file system as the call for [u] finds it.  The result is
    [None] when a call runs out of fuel. *)
Fixpoint run_downloads (fuel : nat) (dirs : string -> string -> option string)
    (world : string -> nat -> option string)
    (items : list DownloadItem) (outdir : string) (retries : Z)
    (only_domain : option string) (verbose : bool)
    : option (list Outcome) :=
  match items with
  | [] => Some []
  | it :: rest =>
      match download_one fuel (dirs (url it)) (world (url it)) it outdir retries
              only_domain verbose with
      | Some (r, _) =>
          option_map (cons r)
            (run_downloads fuel dirs world rest outdir retries only_domain verbose)
      | None => None
      end
  end.

(** [main] from the making of the output directory to the end of the
    loop over the futures, which are given in the order of their
    completion.  [ThreadPoolExecutor] refuses a number of workers that
    is not positive with a [ValueError], before any call is
    submitted.  The summary line is written when the result is [Ok]. *)
Definition download_all (fs : string -> option string) (outdir : string)
    (concurrency : Z) (verbose : bool) (completed : list Outcome)
    : result (nat * nat) * list line :=
  match os_makedirs fs outdir with
  | Some msg => (Raise (OSError msg), [])
  | None =>
      if (concurrency <=? 0)%Z then (Raise ValueError, [])
      else report_loop verbose completed 0 0
  end.

(** The outcome of a call that returns the result [r]. *)
Definition returned (r : DownloadResult) : Outcome := Ok (Some r).

(** The number of failure lines among the lines written. *)
Definition failure_lines (ls : list line) : nat :=
  length (filter (fun l => match l with Err _ => true | Out _ => false end) ls).

(** What the timeline of a template with the pattern [media] can raise. *)
Definition timeline_error (media : string) (e : exn) : Prop :=
  e = ValueError
  \/ (e = RuntimeError number_none_msg /\ Py.contains "$Number" media = true).
(* ------------------------------------------------------------------ *)
(** * The library models on sample inputs *)

Example py_checks :
  Py.strip "  a b  " = "a b" /\ Py.replace "$Time$" "7" "a$Time$b$Time$" = "a7b7"
  /\ Py.split "/" "/a//b" = [""; "a"; ""; "b"] /\ Py.str (-12) = "-12"
  /\ Py.str 0 = "0" /\ Py.format_0d 3 (-5) = "-05" /\ Py.format_0d 3 12345 = "12345"
  /\ Py.int " 1_000 " = Some 1000%Z /\ Py.int "+5" = Some 5%Z /\ Py.int "" = None
  /\ Py.int "-0" = Some 0%Z /\ Py.int "1__0" = None.
Proof. vm_compute. repeat split. Qed.

(** [int] does not skip the separators 28 to 31, and refuses more than
    4300 digits. *)
Example int_checks :
  Py.int (String (ascii_of_nat 28) "2") = None
  /\ Py.int (String (ascii_of_nat 160) "2") = Some 2%Z
  /\ Py.int (Py.zeros 4300) = Some 0%Z
  /\ Py.int (Py.zeros 4301) = None.
Proof. vm_compute. repeat split. Qed.

Example url_checks :
  Url.urljoin "http://h/a/b.mpd" "" = "http://h/a/b.mpd"
  /\ Url.urljoin "http://h/a/b.mpd" "x/" = "http://h/a/x/"
  /\ Url.urljoin "http://h/a/b.mpd" "/" = "http://h/"
  /\ Url.urljoin "http://h/a/b.mpd" "v.mp4" = "http://h/a/v.mp4"
  /\ Url.urljoin "http://h/a/b.mpd" "http://k/z?q=1#f" = "http://k/z?q=1#f"
  /\ Url.urljoin "file:///tmp/a.mpd" "seg-1.m4s" = "file:///tmp/seg-1.m4s"
  /\ Url.urljoin "http://h/a/b.mpd" "../c/./d" = "http://h/c/d"
  /\ Url.urljoin "http://h" "x" = "http://h/x"
  /\ Url.urljoin "http://h/a/;p?q" "?y" = "http://h/a/;p?y"
  /\ Url.urljoin "http://h/a/b" "//k/z" = "http://k/z"
  /\ Url.quote_plus "a=1&b=x y/" = "a%3D1%26b%3Dx+y%2F"
  /\ OsPath.splitext_ext "/a/b.c/.d" = "" /\ OsPath.splitext_ext "a." = "."
  /\ OsPath.splitext_ext "..a.b" = ".b" /\ OsPath.join "a/b" "c" = "a/b/c"
  /\ Url.hostname (Url.urlparse "HTTP://User@ExAmple.com:80/x") = Some "example.com".
Proof. vm_compute. repeat split. Qed.

(** * Lemmas on the registry *)

Section Registry.

Lemma mem_In (x : string) (l : list string) :
  Url.mem x l = true <-> In x l.
Proof.
  unfold Url.mem. rewrite existsb_exists. split.
  - intros [y [Hy He]]. apply String.eqb_eq in He. now subst.
  - intros H. exists x. split; [assumption | apply String.eqb_refl].
Qed.

Lemma mem_false (x : string) (l : list string) :
  Url.mem x l = false <-> ~ In x l.
Proof.
  rewrite <- mem_In. destruct (Url.mem x l); split; congruence.
Qed.

Lemma keys_dict_set (items : Dict) (k : string) (v : DownloadItem) :
  keys (dict_set items k v)
  = if Url.mem k (keys items) then keys items else (keys items ++ [k])%list.
Proof.
  induction items as [|[k' v'] rest IH]; simpl; [reflexivity|].
  rewrite (String.eqb_sym k k').
  destruct (k' =? k) eqn:E; simpl; [reflexivity|].
  rewrite IH. now destruct (Url.mem k (keys rest)).
Qed.

Lemma keys_add_item (items : Dict) (u : string) :
  keys (add_item items u)
  = if Url.mem u (keys items) then keys items else (keys items ++ [u])%list.
Proof. apply keys_dict_set. Qed.

Lemma In_keys_add_item (items : Dict) (u x : string) :
  In x (keys (add_item items u)) <-> In x (keys items) \/ x = u.
Proof.
  rewrite keys_add_item. destruct (Url.mem u (keys items)) eqn:E.
  - apply mem_In in E. split; [tauto|]. intros [H| ->]; assumption.
  - rewrite in_app_iff. simpl. intuition congruence.
Qed.

Lemma In_keys_register (urls : list string) (items : Dict) (x : string) :
  In x (keys (register urls items)) <-> In x (keys items) \/ In x urls.
Proof.
  revert items. induction urls as [|u t IH]; intros items; simpl.
  - tauto.
  - unfold register in *. simpl. rewrite IH, In_keys_add_item.
    intuition congruence.
Qed.

Lemma register_app (l1 l2 : list string) (items : Dict) :
  register (l1 ++ l2) items = register l2 (register l1 items).
Proof. apply fold_left_app. Qed.

Lemma dict_set_twice (items : Dict) (k : string) (v w : DownloadItem) :
  dict_set (dict_set items k v) k w = dict_set items k w.
Proof.
  induction items as [|[k' v'] rest IH]; simpl.
  - now rewrite String.eqb_refl.
  - destruct (k' =? k) eqn:E; simpl; rewrite E; [reflexivity|].
    now rewrite IH.
Qed.

Lemma add_item_idempotent (items : Dict) (u : string) :
  add_item (add_item items u) u = add_item items u.
Proof. apply dict_set_twice. Qed.

Lemma length_add_item (items : Dict) (u : string) :
  length (add_item items u)
  = if Url.mem u (keys items) then length items else S (length items).
Proof.
  unfold keys.
  rewrite <- (length_map fst (add_item items u)), <- (length_map fst items).
  fold (keys (add_item items u)). fold (keys items).
  rewrite keys_add_item. destruct (Url.mem u (keys items)); [reflexivity|].
  rewrite length_app. simpl. lia.
Qed.

Lemma filter_filter_neq (K : list string) (x : string) (l : list string) :
  filter (fun y => negb (Url.mem y (K ++ [x]))) l
  = filter (fun y => negb (Url.mem y K)) (filter (fun y => negb (y =? x)) l).
Proof.
  induction l as [|y t IH]; simpl; [reflexivity|].
  destruct (y =? x) eqn:E; simpl.
  - apply String.eqb_eq in E. subst y.
    assert (H : Url.mem x (K ++ [x]) = true)
      by (apply mem_In, in_app_iff; right; now left).
    rewrite H. simpl. exact IH.
  - assert (H : Url.mem y (K ++ [x]) = Url.mem y K).
    { apply String.eqb_neq in E.
      destruct (Url.mem y K) eqn:M.
      - apply mem_In. apply mem_In in M. apply in_app_iff. now left.
      - apply mem_false. apply mem_false in M. rewrite in_app_iff. simpl.
        intuition congruence. }
    rewrite H. destruct (Url.mem y K); simpl; now rewrite IH.
Qed.

Lemma filter_neq_absorbed (K : list string) (x : string) (l : list string) :
  In x K ->
  filter (fun y => negb (Url.mem y K)) (filter (fun y => negb (y =? x)) l)
  = filter (fun y => negb (Url.mem y K)) l.
Proof.
  intros HK. induction l as [|y t IH]; simpl; [reflexivity|].
  destruct (y =? x) eqn:E; simpl.
  - apply String.eqb_eq in E. subst y.
    apply mem_In in HK. now rewrite HK.
  - now rewrite IH.
Qed.

(** The keys after a run of registrations: the old keys, then the first
    occurrences of the URLs that were not yet present. *)
Lemma keys_register (urls : list string) (items : Dict) :
  keys (register urls items)
  = (keys items
     ++ filter (fun y => negb (Url.mem y (keys items))) (dedup urls))%list.
Proof.
  revert items. induction urls as [|u t IH]; intros items.
  - simpl. now rewrite app_nil_r.
  - unfold register in *. simpl fold_left. rewrite IH, keys_add_item.
    simpl dedup. simpl filter.
    destruct (Url.mem u (keys items)) eqn:E; simpl.
    + rewrite filter_neq_absorbed; [reflexivity | now apply mem_In].
    + rewrite <- app_assoc. simpl. now rewrite filter_filter_neq.
Qed.

Lemma entry_ok_dict_set (items : Dict) (u : string) :
  Forall entry_ok items -> Forall entry_ok (add_item items u).
Proof.
  unfold add_item. induction items as [|[k v] rest IH]; intros H; simpl.
  - constructor; [split; reflexivity | constructor].
  - inversion H as [|? ? Hk Hrest]; subst.
    destruct (k =? u) eqn:E.
    + apply String.eqb_eq in E. subst k.
      constructor; [split; reflexivity | assumption].
    + constructor; [assumption | now apply IH].
Qed.

Lemma entry_ok_register (urls : list string) (items : Dict) :
  Forall entry_ok items -> Forall entry_ok (register urls items).
Proof.
  revert items. induction urls as [|u t IH]; intros items H; simpl.
  - assumption.
  - apply IH. now apply entry_ok_dict_set.
Qed.

Lemma urls_of_values (items : Dict) :
  Forall entry_ok items -> map url (values items) = keys items.
Proof.
  induction 1 as [|[k v] rest [Hk _] _ IH]; simpl; [reflexivity|].
  simpl in Hk. now rewrite Hk, IH.
Qed.

Lemma NoDup_filter {A : Type} (p : A -> bool) (l : list A) :
  NoDup l -> NoDup (filter p l).
Proof.
  induction 1 as [|x l Hx _ IH]; simpl; [constructor|].
  destruct (p x); [constructor|]; try assumption.
  intros Hin. apply filter_In in Hin. tauto.
Qed.

Lemma In_dedup (l : list string) (x : string) : In x (dedup l) <-> In x l.
Proof.
  induction l as [|y t IH]; simpl; [tauto|].
  rewrite filter_In, IH. split.
  - intros [H|[H _]]; auto.
  - intros [H|H]; [now left|].
    destruct (String.eqb_spec x y) as [->|N]; [now left|].
    right. split; [assumption | reflexivity].
Qed.

Lemma NoDup_dedup (l : list string) : NoDup (dedup l).
Proof.
  induction l as [|x t IH]; simpl; constructor.
  - intros H. apply filter_In in H. destruct H as [_ H].
    now rewrite String.eqb_refl in H.
  - now apply NoDup_filter.
Qed.

End Registry.

(* ------------------------------------------------------------------ *)
(** * Resolution steps as registrations *)

Lemma bind_Ok {A B : Type} (a : A) (k : A -> result B) : bind (Ok a) k = k a.
Proof. reflexivity. Qed.

Section Registrations.

Variable getenv : string -> option string.
Variables rep adp : Element.
Variable base : string.

Lemma segment_urls_register (sus : list Element) (items : Dict) :
  segment_urls base sus items = register (segment_url_list base sus) items.
Proof.
  revert items. induction sus as [|su t IH]; intros items; simpl; [reflexivity|].
  destruct (get su "media") as [m|]; [|apply IH].
  destruct (Py.truthy m); simpl; apply IH.
Qed.

Lemma parse_segment_list_register (items : Dict) :
  parse_segment_list rep adp base items
  = register (segment_list_urls rep adp base) items.
Proof.
  unfold parse_segment_list, segment_list_urls.
  destruct (or_else _ _) as [sl|]; [|reflexivity].
  rewrite segment_urls_register, register_app.
  destruct (find sl (mpd "Initialization")) as [init|]; [|reflexivity].
  destruct (get init "sourceURL") as [src|]; [|reflexivity].
  now destruct (Py.truthy src).
Qed.

Lemma emit_timed_register (media : string) (d : option string) (n : nat) :
  forall (items : Dict) (c : Z),
    emit_timed n media rep base d items c
    = (r <- timed_urls n media rep base d c ;;
       Ok (register (fst r) items, snd r)).
Proof.
  induction n as [|n IH]; intros items c; simpl; [reflexivity|].
  destruct (expand_media_template media rep None (Some c)) as [seg|e]; simpl;
    [|reflexivity].
  destruct d as [ds|]; simpl.
  - destruct (int ds) as [dv|e]; simpl; [|reflexivity].
    rewrite IH. now destruct (timed_urls n media rep base (Some ds) (c + dv)).
  - rewrite IH. now destruct (timed_urls n media rep base None c).
Qed.

Lemma timeline_entry_register (media : string) (s : Element) (items : Dict)
    (cur : option Z) :
  timeline_entry media rep base s items cur
  = (r <- entry_urls media rep base s cur ;; Ok (register (fst r) items, snd r)).
Proof.
  unfold timeline_entry, entry_urls.
  destruct (int (Py.or_default (get s "r") "0")) as [r|e]; simpl; [|reflexivity].
  match goal with |- context [bind ?m _] =>
    match m with
    | match get s "t" with _ => _ end => destruct m as [c|e]; simpl; [|reflexivity]
    end
  end.
  rewrite emit_timed_register.
  now destruct (timed_urls _ media rep base (get s "d") c).
Qed.

Lemma timeline_loop_register (media : string) (ss : list Element) :
  forall (items : Dict) (cur : option Z),
    timeline_loop media rep base ss items cur
    = (r <- timeline_urls media rep base ss cur ;;
       Ok (register (fst r) items, snd r)).
Proof.
  induction ss as [|s t IH]; intros items cur; simpl; [reflexivity|].
  rewrite timeline_entry_register.
  destruct (entry_urls media rep base s cur) as [[us c]|e]; simpl; [|reflexivity].
  rewrite IH.
  destruct (timeline_urls media rep base t c) as [[us' c']|e]; simpl;
    [|reflexivity].
  now rewrite register_app.
Qed.

Lemma emit_numbered_register (media : string) (n : nat) :
  forall (items : Dict) (i : Z),
    emit_numbered n media rep base items i
    = (r <- numbered_urls n media rep base i ;; Ok (register r items)).
Proof.
  induction n as [|n IH]; intros items i; simpl; [reflexivity|].
  destruct (expand_media_template media rep (Some i) None) as [seg|e]; simpl;
    [|reflexivity].
  rewrite IH. now destruct (numbered_urls n media rep base (i + 1)).
Qed.

Lemma parse_segment_template_register (items : Dict) :
  parse_segment_template getenv rep adp base items
  = (urls <- segment_template_urls getenv rep adp base ;;
     Ok (register urls items)).
Proof.
  unfold parse_segment_template, segment_template_urls.
  destruct (or_else _ _) as [st|]; [|reflexivity].
  set (init_urls := template_init_urls st rep base).
  set (items0 := match get st "initialization" with
                 | Some i => if Py.truthy i then add_item _ _ else items
                 | None => items
                 end).
  assert (Hinit : items0 = register init_urls items).
  { subst init_urls items0. unfold template_init_urls.
    destruct (get st "initialization") as [i|]; [|reflexivity].
    now destruct (Py.truthy i). }
  rewrite Hinit. clear Hinit.
  destruct (get st "media") as [media|]; [|reflexivity].
  destruct (Py.truthy media); simpl; [|reflexivity].
  destruct (int (Py.or_default (get st "startNumber") "1")) as [sn|e]; simpl;
    [|reflexivity].
  destruct (find st (mpd "SegmentTimeline")) as [tl|].
  - rewrite timeline_loop_register.
    destruct (timeline_urls media rep base _ None) as [[us c]|e]; simpl;
      [|reflexivity].
    now rewrite register_app.
  - destruct (getenv "DASH_SEGMENT_COUNT") as [ce|]; [|reflexivity].
    destruct (Py.truthy ce); simpl; [|reflexivity].
    destruct (int ce) as [cnt|e]; simpl; [|reflexivity].
    rewrite emit_numbered_register.
    destruct (numbered_urls _ media rep base sn) as [us|e]; simpl; [|reflexivity].
    now rewrite register_app.
Qed.

(** The loop body of [collect_items] for a selected pair. *)
Lemma collect_one_register (args : Args) (items : Dict) :
  matches_filters rep adp args = true ->
  collect_one getenv args (rep, adp, base) items
  = (urls <- segment_template_urls getenv rep adp base ;;
     Ok (direct_file base
           (register (segment_list_urls rep adp base ++ urls) items))).
Proof.
  intros Hm. unfold collect_one. rewrite Hm. simpl negb. cbv iota.
  rewrite parse_segment_template_register, parse_segment_list_register.
  destruct (segment_template_urls getenv rep adp base) as [urls|e]; simpl;
    [|reflexivity].
  rewrite register_app. unfold direct_file.
  destruct (register urls _); [|reflexivity].
  now destruct (Py.truthy _).
Qed.

End Registrations.

(** Whatever [collect_items] does to the registry is a run of
    registrations. *)
Lemma collect_one_registers (getenv : string -> option string) (args : Args)
    (tr : Element * Element * string) (items items' : Dict) :
  collect_one getenv args tr items = Ok items' ->
  exists urls, items' = register urls items.
Proof.
  destruct tr as [[rep adp] eff].
  destruct (matches_filters rep adp args) eqn:Hm.
  - rewrite (collect_one_register getenv rep adp eff args items Hm).
    destruct (segment_template_urls getenv rep adp eff) as [urls|e];
      [|discriminate].
    rewrite bind_Ok. intros H. injection H as <-.
    unfold direct_file.
    destruct (register (segment_list_urls rep adp eff ++ urls) items) eqn:E.
    + destruct (Py.truthy _).
      * exists ((segment_list_urls rep adp eff ++ urls) ++ [eff])%list.
        now rewrite register_app, E.
      * exists (segment_list_urls rep adp eff ++ urls)%list. now rewrite E.
    + exists (segment_list_urls rep adp eff ++ urls)%list. now rewrite E.
  - unfold collect_one. rewrite Hm. simpl. intros H. injection H as <-.
    now exists [].
Qed.

Lemma collect_loop_registers (getenv : string -> option string) (args : Args)
    (triples : list (Element * Element * string)) :
  forall items items' : Dict,
    collect_loop getenv args triples items = Ok items' ->
    exists urls, items' = register urls items.
Proof.
  induction triples as [|tr rest IH]; intros items items'; cbn [collect_loop].
  - intros H. injection H as <-. now exists [].
  - destruct (collect_one getenv args tr items) as [items1|e] eqn:E1;
      [|discriminate].
    rewrite bind_Ok. intros H.
    destruct (collect_one_registers _ _ _ _ _ E1) as [u1 ->].
    destruct (IH _ _ H) as [u2 ->].
    exists (u1 ++ u2)%list. now rewrite register_app.
Qed.

Lemma dedup_all (l : list string) :
  map url (values (register l [])) = dedup l.
Proof.
  rewrite urls_of_values by (apply entry_ok_register; constructor).
  rewrite keys_register. simpl.
  induction (dedup l) as [|x t IH]; simpl; [reflexivity|].
  now rewrite IH.
Qed.

(** C7.  Registering URLs one after the other from the empty registry
    leaves one entry per distinct URL, in the order in which the URLs
    were first registered: the URLs of [all()] are the first occurrences
    of the registered sequence, no URL occurs twice among them, each
    registered URL occurs exactly once, and registering a URL again
    right away leaves the registry as it is.  The list that
    [collect_items] returns is such a registry: no two of its items have
    the same URL, and each carries the relative path of its URL. *)
Theorem C7_registry_dedup_insertion_order :
  (forall urls : list string,
      map url (values (register urls [])) = dedup urls
      /\ NoDup (map url (values (register urls [])))
      /\ (forall u, In u urls ->
            count_occ string_dec (map url (values (register urls []))) u = 1)
      /\ (forall u, register (urls ++ [u; u]) [] = register (urls ++ [u]) []))
  /\ (forall getenv root base_url args l,
        collect_items getenv root base_url args = Ok l ->
        NoDup (map url l)
        /\ Forall (fun it => relpath it = ensure_relpath_from_url (url it)) l).
Proof.
  split.
  - intros urls. rewrite (dedup_all urls). repeat split.
    + apply NoDup_dedup.
    + intros u Hu.
      apply NoDup_count_occ'; [apply NoDup_dedup | now apply In_dedup].
    + intros u. rewrite !register_app. simpl. apply add_item_idempotent.
  - intros getenv root base_url args l. unfold collect_items.
    destruct (collect_loop _ _ _ _) as [items|e] eqn:E; [|discriminate].
    rewrite bind_Ok. intros H. injection H as <-.
    destruct (collect_loop_registers _ _ _ _ _ E) as [urls ->].
    split.
    + rewrite (dedup_all urls). apply NoDup_dedup.
    + assert (Hok : Forall entry_ok (register urls []))
        by (apply entry_ok_register; constructor).
      unfold values. rewrite Forall_map.
      eapply Forall_impl; [|exact Hok].
      intros [k v] [Hk Hr]. simpl in *. now rewrite Hk.
Qed.

Lemma C7_registry_dedup_witness :
  In "http://h/a" ["http://h/a"; "http://h/b"; "http://h/a"]
  /\ count_occ string_dec
       (map url (values (register ["http://h/a"; "http://h/b"; "http://h/a"] [])))
       "http://h/a" = 1.
Proof.
  split; [simpl; auto|].
  apply (proj1 (proj2 (proj2
           (proj1 C7_registry_dedup_insertion_order
              ["http://h/a"; "http://h/b"; "http://h/a"])))).
  simpl; auto.
Defined.

(* ------------------------------------------------------------------ *)
(** * Addressing strategies (C1, C2) *)


(** A URL whose entry is as [add_item] leaves it stays so when another
    URL is registered. *)
Lemma dict_set_fixed_set (items : Dict) (u x : string) (vu vx : DownloadItem) :
  x <> u ->
  dict_set items u vu = items ->
  dict_set (dict_set items x vx) u vu = dict_set items x vx.
Proof.
  intros N. induction items as [|[k v] rest IH]; intros H; [discriminate H|].
  cbn [dict_set] in *.
  destruct (k =? u) eqn:Eu.
  - injection H as ->.
    destruct (k =? x) eqn:Ex; cbn [dict_set]; rewrite Eu; [|reflexivity].
    apply String.eqb_eq in Eu, Ex. congruence.
  - injection H as H.
    destruct (k =? x) eqn:Ex; cbn [dict_set]; rewrite Eu; f_equal.
    + exact H.
    + now apply IH.
Qed.

Lemma add_item_fixed_add (items : Dict) (u x : string) :
  add_item items u = items ->
  add_item (add_item items x) u = add_item items x.
Proof.
  intros H. destruct (String.eqb_spec x u) as [->|N].
  - apply add_item_idempotent.
  - now apply dict_set_fixed_set.
Qed.

Lemma register_skip (u : string) (l : list string) :
  forall items,
    add_item items u = items ->
    register (filter (fun y => negb (y =? u)) l) items = register l items.
Proof.
  induction l as [|x t IH]; intros items H; [reflexivity|].
  cbn [filter]. destruct (String.eqb_spec x u) as [->|N]; cbn [negb].
  - change (register (u :: t) items) with (register t (add_item items u)).
    rewrite H. now apply IH.
  - change (register (x :: ?l) items) with (register l (add_item items x)).
    apply IH. now apply add_item_fixed_add.
Qed.

(** Registering the first occurrences is registering the sequence. *)
Lemma register_dedup (l : list string) :
  forall items, register (dedup l) items = register l items.
Proof.
  induction l as [|x t IH]; intros items; [reflexivity|].
  cbn [dedup].
  change (register (x :: ?l) items) with (register l (add_item items x)).
  rewrite register_skip by apply add_item_idempotent. apply IH.
Qed.

Lemma keys_register_empty (l : list string) : keys (register l []) = dedup l.
Proof.
  rewrite keys_register. simpl.
  induction (dedup l) as [|x t IH]; simpl; [reflexivity|]. now rewrite IH.
Qed.



(** C2 at two representations that each name one static file: the
    second one has no segment list and no template, its effective base
    ends in [.mp4], and yet only the first file is registered, because
    the registry is no longer empty when the second pair is reached. *)
Theorem C2_second_direct_file_not_registered :
  collect_items no_env mpd_two_files "http://h/d/m.mpd" no_filters
  = Ok [mkDownloadItem "http://h/d/a.mp4" "d/a.mp4"]
  /\ In (rep_file_b, adp_two_files, "http://h/d/b.mp4")
       (effective_base_urls_hierarchy mpd_two_files "http://h/d/m.mpd")
  /\ matches_filters rep_file_b adp_two_files no_filters = true
  /\ find rep_file_b (mpd "SegmentList") = None
  /\ find adp_two_files (mpd "SegmentList") = None
  /\ find rep_file_b (mpd "SegmentTemplate") = None
  /\ find adp_two_files (mpd "SegmentTemplate") = None
  /\ OsPath.splitext_ext (Url.path (Url.urlparse "http://h/d/b.mp4")) = ".mp4".
Proof.
  repeat split; try (vm_compute; reflexivity).
  vm_compute. right. left. reflexivity.
Qed.

(** A pair that has neither a list nor a template leaves a registry
    that already holds an entry as it is, whatever its effective base. *)
Lemma direct_file_skipped_when_registry_nonempty :
  forall getenv args rep adp eff items,
    matches_filters rep adp args = true ->
    segment_list_urls rep adp eff = [] ->
    segment_template_urls getenv rep adp eff = Ok [] ->
    items <> [] ->
    collect_one getenv args (rep, adp, eff) items = Ok items.
Proof.
  intros getenv args rep adp eff items Hm Hl Ht Hne.
  rewrite (collect_one_register getenv rep adp eff args items Hm), Hl, Ht.
  simpl. destruct items; [congruence | reflexivity].
Qed.

(** With an empty registry the fallback does register the effective
    base of a pair that has neither a list nor a template. *)
Lemma direct_file_registered_when_registry_empty :
  forall getenv args rep adp eff,
    matches_filters rep adp args = true ->
    segment_list_urls rep adp eff = [] ->
    segment_template_urls getenv rep adp eff = Ok [] ->
    Py.truthy (OsPath.splitext_ext (Url.path (Url.urlparse eff))) = true ->
    collect_one getenv args (rep, adp, eff) [] = Ok (add_item [] eff).
Proof.
  intros getenv args rep adp eff Hm Hl Ht He.
  rewrite (collect_one_register getenv rep adp eff args [] Hm), Hl, Ht.
  simpl. unfold direct_file. now rewrite He.
Qed.

(* ------------------------------------------------------------------ *)
(** * Relative paths (C3) *)

Lemma has_char_app (c : ascii) (a b : string) :
  Py.has_char c (a ++ b) = Py.has_char c a || Py.has_char c b.
Proof.
  induction a as [|x a IH]; simpl; [reflexivity|].
  now rewrite IH, orb_assoc.
Qed.

Lemma quote_plus_char_no_slash (c : ascii) :
  Py.has_char "/" (Url.quote_plus_char c) = false
  /\ Url.quote_plus_char c <> "".
Proof.
  destruct c as [[] [] [] [] [] [] [] []]; vm_compute; split; congruence.
Qed.

Lemma quote_plus_no_slash (s : string) :
  Py.has_char "/" (Url.quote_plus s) = false.
Proof.
  induction s as [|c s IH]; simpl; [reflexivity|].
  rewrite has_char_app, IH.
  now rewrite (proj1 (quote_plus_char_no_slash c)).
Qed.

Lemma quote_plus_nonempty (s : string) : s <> "" -> Url.quote_plus s <> "".
Proof.
  destruct s as [|c s]; [congruence|]. intros _. simpl.
  destruct (Url.quote_plus_char c) eqn:E; [|discriminate].
  now destruct (quote_plus_char_no_slash c).
Qed.

Lemma truthy_false (s : string) : Py.truthy s = false <-> s = "".
Proof.
  unfold Py.truthy. destruct (String.eqb_spec s ""); simpl; split; congruence.
Qed.

Lemma truthy_true (s : string) : Py.truthy s = true <-> s <> "".
Proof.
  unfold Py.truthy. destruct (String.eqb_spec s ""); simpl; split; congruence.
Qed.

(** C3 read as "different URLs, different paths" does not hold: two
    URLs on different hosts that share their path have the same relative
    path. *)
Lemma C3_relpath_collision : ~ relpath_injective.
Proof.
  intros H.
  apply (H "http://a.example/v/seg.m4s" "http://b.example/v/seg.m4s").
  - discriminate.
  - vm_compute. reflexivity.
Qed.

(** C3, as the code has it.  The relative path is a function of the
    URL's path and query alone.  Without a query it is the path less its leading
    slashes; with a query, the percent-encoded query, which is not empty
    and holds no slash, is appended to that as one more path segment.
    Two URLs with the same path and query have the same relative path,
    whatever their scheme, host and fragment. *)
Theorem C3_relpath_from_path_and_query :
  forall u : string,
    let p := Url.urlparse u in
    let rel := Py.lstrip_char "/" (Url.path p) in
    let q := Url.quote_plus (Url.query p) in
    (Url.query p = "" -> ensure_relpath_from_url u = rel)
    /\ (Url.query p <> "" ->
        ensure_relpath_from_url u
        = (if (rel =? "") || OsPath.endswith_char "/" rel
           then rel ++ q else rel ++ "/" ++ q)
        /\ Py.has_char "/" q = false /\ q <> "")
    /\ (forall u',
          Url.path (Url.urlparse u') = Url.path p ->
          Url.query (Url.urlparse u') = Url.query p ->
          ensure_relpath_from_url u' = ensure_relpath_from_url u).
Proof.
  intros u p rel q. unfold ensure_relpath_from_url. fold p. fold rel.
  repeat split.
  - intros Hq. apply truthy_false in Hq. now rewrite Hq.
  - apply truthy_true in H. rewrite H. unfold OsPath.join. fold q.
    assert (Hs : prefix "/" q = false).
    { pose proof (quote_plus_no_slash (Url.query p)) as Hn. fold q in Hn.
      destruct q as [|c q']; [reflexivity|]. cbn [prefix].
      destruct (ascii_dec "/" c) as [E|E]; [|reflexivity].
      subst c. cbn in Hn. discriminate Hn. }
    rewrite Hs. unfold Py.truthy.
    now destruct (rel =? "").
  - apply quote_plus_no_slash.
  - apply quote_plus_nonempty. assumption.
  - intros u' Hp Hq. now rewrite Hp, Hq.
Qed.

Lemma C3_relpath_witness :
  Url.query (Url.urlparse "http://h/v/seg.m4s?a=1") <> ""
  /\ ensure_relpath_from_url "http://h/v/seg.m4s?a=1" = "v/seg.m4s/a%3D1"
  /\ Url.path (Url.urlparse "https://k/v/seg.m4s?a=1#x")
     = Url.path (Url.urlparse "http://h/v/seg.m4s?a=1")
  /\ Url.query (Url.urlparse "https://k/v/seg.m4s?a=1#x")
     = Url.query (Url.urlparse "http://h/v/seg.m4s?a=1")
  /\ ensure_relpath_from_url "https://k/v/seg.m4s?a=1#x"
     = ensure_relpath_from_url "http://h/v/seg.m4s?a=1".
Proof.
  assert (Hq : Url.query (Url.urlparse "http://h/v/seg.m4s?a=1") <> "")
    by (vm_compute; discriminate).
  split; [exact Hq|]. split.
  - exact (proj1 (proj1 (proj2 (C3_relpath_from_path_and_query
                                   "http://h/v/seg.m4s?a=1")) Hq)).
  - split; [vm_compute; reflexivity|]. split; [vm_compute; reflexivity|].
    apply (proj2 (proj2 (C3_relpath_from_path_and_query "http://h/v/seg.m4s?a=1")));
      vm_compute; reflexivity.
Defined.

(* ------------------------------------------------------------------ *)
(** * Timeline expansion (C4, C10) *)

Lemma replace_absent (old new s : string) :
  Py.contains old s = false -> Py.replace old new s = s.
Proof.
  unfold Py.replace. induction s as [|c s IH]; intros H; [reflexivity|].
  cbn [Py.contains] in H. apply orb_false_iff in H. destruct H as [Hp Hc].
  cbn [Py.replace_go]. rewrite Hp. now rewrite IH.
Qed.

Lemma replace_if_present (old new s : string) :
  (if Py.contains old s then Py.replace old new s else s) = Py.replace old new s.
Proof.
  destruct (Py.contains old s) eqn:E; [reflexivity|].
  symmetry. now apply replace_absent.
Qed.

Section Timeline.

Variable media : string.
Variable rep : Element.
Variable base : string.
Hypothesis no_number : Py.contains "$Number" media = false.

(** With a time and without [$Number] the expansion cannot raise. *)
Lemma expand_time (t : Z) : expands media rep t (time_segment media rep t).
Proof.
  unfold expands, expand_media_template, time_segment.
  rewrite no_number. cbn [bind].
  destruct (Py.contains "$Time$" media) eqn:E; cbn [bind];
    rewrite !replace_if_present; [reflexivity|].
  now rewrite (replace_absent "$Time$" _ media E).
Qed.

Lemma timed_urls_spec (d : option string) (dv : option Z) (n : nat) :
  attr_is d dv ->
  forall c : Z,
    timed_urls n media rep base d c
    = Ok (map (fun t => join_url base (time_segment media rep t))
            (fst (spec_emit n dv c)),
          snd (spec_emit n dv c)).
Proof.
  intros Hd. induction n as [|n IH]; intros c; [reflexivity|].
  cbn [timed_urls spec_emit]. rewrite (expand_time c), bind_Ok.
  set (next := match dv with Some v => (c + v)%Z | None => c end).
  assert (Hnext : match d with
                  | Some ds => dv' <- int ds ;; Ok (c + dv')%Z
                  | None => Ok c
                  end = Ok next).
  { subst next. destruct d as [ds|], dv as [v|]; simpl in Hd; try contradiction.
    - now rewrite Hd.
    - reflexivity. }
  rewrite Hnext, bind_Ok, IH, bind_Ok.
  now destruct (spec_emit n dv next) as [ts c'].
Qed.

Lemma spec_timeline_one (e : TimelineEntry) (c : Z) :
  spec_timeline [e] c
  = spec_emit (S (repeatCount e)) (duration e)
      match startTime e with Some t => t | None => c end.
Proof.
  unfold spec_timeline.
  destruct (spec_emit (S (repeatCount e)) (duration e) _) as [ts c'].
  now rewrite app_nil_r.
Qed.

Lemma entry_urls_spec (s : Element) (e : TimelineEntry) (cur : option Z) (c : Z) :
  represents s e ->
  cursor_is cur c ->
  entry_urls media rep base s cur
  = Ok (map (fun t => join_url base (time_segment media rep t))
          (fst (spec_timeline [e] c)),
        Some (snd (spec_timeline [e] c))).
Proof.
  intros [Hr [Ht Hd]] Hc. unfold entry_urls. rewrite Hr, bind_Ok.
  set (c0 := match startTime e with Some t => t | None => c end).
  assert (Hcur : match get s "t" with
                 | Some ts => int ts
                 | None => match cur with None => Ok 0%Z | Some c' => Ok c' end
                 end = Ok c0).
  { subst c0. destruct (get s "t") as [ts|], (startTime e) as [t|];
      simpl in Ht; try contradiction; [assumption|].
    destruct cur as [c'|]; simpl in Hc; now subst. }
  rewrite Hcur, bind_Ok.
  replace (Z.to_nat (Z.of_nat (repeatCount e) + 1)) with (S (repeatCount e)) by lia.
  rewrite spec_timeline_one. fold c0.
  now rewrite (timed_urls_spec (get s "d") (duration e) (S (repeatCount e)) Hd c0).
Qed.

Lemma spec_timeline_cons (e : TimelineEntry) (es : list TimelineEntry) (c : Z) :
  spec_timeline (e :: es) c
  = ((fst (spec_timeline [e] c) ++ fst (spec_timeline es (snd (spec_timeline [e] c))))%list,
     snd (spec_timeline es (snd (spec_timeline [e] c)))).
Proof.
  rewrite spec_timeline_one. cbn [spec_timeline].
  destruct (spec_emit (S (repeatCount e)) (duration e) _) as [ts c'].
  cbn [fst snd].
  now destruct (spec_timeline es c') as [ts' c''].
Qed.

Lemma timeline_urls_spec (ss : list Element) (es : list TimelineEntry) :
  Forall2 represents ss es ->
  forall (cur : option Z) (c : Z),
    cursor_is cur c ->
    timeline_urls media rep base ss cur
    = Ok (map (fun t => join_url base (time_segment media rep t))
            (fst (spec_timeline es c)),
          match es with
          | [] => cur
          | _ :: _ => Some (snd (spec_timeline es c))
          end).
Proof.
  induction 1 as [|s e ss es Hse _ IH]; intros cur c Hc; [reflexivity|].
  change (timeline_urls media rep base (s :: ss) cur)
    with (st <- entry_urls media rep base s cur ;;
          r <- timeline_urls media rep base ss (snd st) ;;
          Ok ((fst st ++ fst r)%list, snd r)).
  rewrite (entry_urls_spec s e cur c Hse Hc), bind_Ok. unfold snd at 1.
  rewrite (IH (Some (snd (spec_timeline [e] c))) (snd (spec_timeline [e] c)) eq_refl).
  rewrite bind_Ok, (spec_timeline_cons e es c). cbn [fst snd].
  rewrite map_app. now destruct es.
Qed.

Lemma spec_timeline_start (es : list TimelineEntry) :
  spec_timeline_times es = spec_timeline es 0.
Proof.
  unfold spec_timeline_times. destruct es as [|e es]; [reflexivity|].
  cbn [spec_timeline]. now destruct (startTime e).
Qed.

Lemma timeline_loop_spec (ss : list Element) (es : list TimelineEntry)
    (items : Dict) :
  Forall2 represents ss es ->
  timeline_loop media rep base ss items None
  = Ok (register (map (fun t => join_url base (time_segment media rep t))
                    (fst (spec_timeline_times es))) items,
        match es with
        | [] => None
        | _ :: _ => Some (snd (spec_timeline_times es))
        end).
Proof.
  intros H. rewrite spec_timeline_start, timeline_loop_register.
  now rewrite (timeline_urls_spec ss es H None 0%Z eq_refl).
Qed.

End Timeline.

(** C4.  For a template with a timeline, [parse_segment_template]
    registers the initialization URL and then, in order, the media
    pattern with [$Time$] replaced by each time the specification's
    cursor takes: the cursor starts at the first entry's start time or
    at 0, every entry emits [repeatCount + 1] segments at the cursor, a
    declared duration moves the cursor after each emission, the last one
    included, and a declared start time replaces the cursor.  The
    entries [[{t:0, d:2, r:1}, {d:3, r:0}]] give the times [[0, 2, 4]]
    and leave the cursor at 7. *)
Theorem C4_timeline_cursor :
  (forall getenv rep adp base items st media start tl es,
      or_else (find rep (mpd "SegmentTemplate")) (find adp (mpd "SegmentTemplate"))
      = Some st ->
      get st "media" = Some media ->
      media <> "" ->
      Py.contains "$Number" media = false ->
      int (Py.or_default (get st "startNumber") "1") = Ok start ->
      find st (mpd "SegmentTimeline") = Some tl ->
      Forall2 represents (findall tl (mpd "S")) es ->
      parse_segment_template getenv rep adp base items
      = Ok (register
              (template_init_urls st rep base
               ++ map (fun t => join_url base (time_segment media rep t))
                    (fst (spec_timeline_times es)))
              items))
  /\ spec_timeline_times sample_entries = ([0; 2; 4]%Z, 7%Z)
  /\ timeline_loop "seg-$Time$.m4s" rep_file_a "http://h/d/" sample_S [] None
     = Ok (register ["http://h/d/seg-0.m4s"; "http://h/d/seg-2.m4s";
                     "http://h/d/seg-4.m4s"] [], Some 7%Z).
Proof.
  split; [|split; vm_compute; reflexivity].
  intros getenv rep adp base items st media start tl es
         Hst Hm Hne Hn Hs Htl Hes.
  rewrite parse_segment_template_register. unfold segment_template_urls.
  rewrite Hst, Hm. apply truthy_true in Hne. rewrite Hne. simpl negb. cbv iota.
  rewrite Hs, bind_Ok, Htl.
  rewrite (timeline_urls_spec media rep base Hn _ es Hes None 0%Z eq_refl).
  now rewrite bind_Ok, spec_timeline_start.
Qed.

Lemma C4_timeline_cursor_witness :
  Py.contains "$Number" "t-$Time$.m4s" = false
  /\ Forall2 represents sample_S sample_entries
  /\ parse_segment_template no_env rep_timeline adp_timeline "http://h/d/m.mpd" []
     = Ok (register
             (template_init_urls timeline_template rep_timeline "http://h/d/m.mpd"
              ++ map (fun t => join_url "http://h/d/m.mpd"
                                 (time_segment "t-$Time$.m4s" rep_timeline t))
                   (fst (spec_timeline_times sample_entries)))
             []).
Proof.
  assert (Hr : Forall2 represents sample_S sample_entries).
  { repeat constructor; vm_compute; reflexivity. }
  split; [reflexivity|]. split; [exact Hr|].
  apply (proj1 C4_timeline_cursor no_env rep_timeline adp_timeline
           "http://h/d/m.mpd" [] timeline_template "t-$Time$.m4s" 1%Z
           (node "SegmentTimeline" [] sample_S) sample_entries).
  - reflexivity.
  - reflexivity.
  - discriminate.
  - reflexivity.
  - reflexivity.
  - reflexivity.
  - exact Hr.
Defined.

Lemma timed_urls_no_duration (media : string) (rep : Element) (base : string)
    (c : Z) (seg : string) (n : nat) :
  expands media rep c seg ->
  timed_urls n media rep base None c = Ok (repeat (join_url base seg) n, c).
Proof.
  intros He. induction n as [|n IH]; [reflexivity|].
  cbn [timed_urls]. unfold expands in He. rewrite He, !bind_Ok, IH.
  reflexivity.
Qed.

Lemma In_dict_set (items : Dict) (k : string) (v : DownloadItem) :
  In (k, v) (dict_set items k v).
Proof.
  induction items as [|[k' v'] rest IH]; simpl; [now left|].
  destruct (String.eqb_spec k' k) as [->|N]; [now left | now right].
Qed.

(** The loop of one entry without a duration, at a time at which the
    pattern expands: one emission or more leave the URL registered and
    the cursor where it was. *)
Lemma emit_timed_no_duration (media : string) (rep : Element) (base : string)
    (c : Z) (seg : string) (n : nat) :
  expands media rep c seg ->
  forall items,
    emit_timed (S n) media rep base None items c
    = Ok (add_item items (join_url base seg), c).
Proof.
  intros He. unfold expands in He.
  induction n as [|n IH]; intros items.
  - cbn [emit_timed]. now rewrite He, !bind_Ok.
  - change (emit_timed (S (S n)) media rep base None items c)
      with (seg' <- expand_media_template media rep None (Some c) ;;
            c' <- Ok c ;;
            emit_timed (S n) media rep base None
              (add_item items (join_url base seg')) c').
    rewrite He, !bind_Ok, IH. now rewrite add_item_idempotent.
Qed.

(** C10.  An entry without a duration leaves the cursor where it is:
    each of its [r + 1] emissions expands the pattern at one and the
    same time and registers one and the same URL.  After the entry the
    registry is the earlier one with that URL registered (the earlier
    one itself when [r + 1] is not positive): the URL is a key, filed
    with its relative path, and it is the one new key when it was not
    there before, so the registry has at most one entry more. *)
Theorem C10_no_duration_one_item :
  forall media rep base s items cur r c seg,
    get s "d" = None ->
    int (Py.or_default (get s "r") "0") = Ok r ->
    match get s "t" with
    | Some ts => int ts = Ok c
    | None => cursor_is cur c
    end ->
    expands media rep c seg ->
    (forall n items0,
        emit_timed (S n) media rep base None items0 c
        = Ok (add_item items0 (join_url base seg), c))
    /\ timeline_entry media rep base s items cur
       = Ok (if (0 <=? r)%Z then add_item items (join_url base seg) else items,
             Some c)
    /\ keys (add_item items (join_url base seg))
       = (keys items
          ++ (if Url.mem (join_url base seg) (keys items)
              then [] else [join_url base seg]))%list
    /\ In (join_url base seg,
           mkDownloadItem (join_url base seg)
             (ensure_relpath_from_url (join_url base seg)))
         (add_item items (join_url base seg))
    /\ length (add_item items (join_url base seg)) <= S (length items)
    /\ entry_urls media rep base s cur
       = Ok (repeat (join_url base seg) (Z.to_nat (r + 1)), Some c).
Proof.
  intros media rep base s items cur r c seg Hd Hr Ht He.
  assert (Hc : match get s "t" with
               | Some ts => int ts
               | None => match cur with None => Ok 0%Z | Some c' => Ok c' end
               end = Ok c).
  { destruct (get s "t") as [ts|]; [assumption|].
    destruct cur as [c'|]; simpl in Ht; now subst. }
  split; [intros n items0; now apply emit_timed_no_duration|].
  split; [|split; [|split; [|split]]].
  - unfold timeline_entry. rewrite Hr, bind_Ok, Hd, Hc, bind_Ok.
    destruct (Z.leb_spec 0 r) as [Hpos|Hneg].
    + destruct (Z.to_nat (r + 1)) as [|n] eqn:En; [lia|].
      now rewrite (emit_timed_no_duration media rep base c seg n He).
    + replace (Z.to_nat (r + 1)) with 0 by lia. reflexivity.
  - rewrite keys_add_item. destruct (Url.mem _ _); [|reflexivity].
    now rewrite app_nil_r.
  - apply In_dict_set.
  - rewrite length_add_item. destruct (Url.mem _ _); lia.
  - unfold entry_urls. rewrite Hr, bind_Ok, Hd, Hc, bind_Ok.
    now rewrite (timed_urls_no_duration media rep base c seg _ He).
Qed.

Lemma C10_no_duration_witness :
  get (node "S" [("t", "5"); ("r", "3")] []) "d" = None
  /\ int (Py.or_default (get (node "S" [("t", "5"); ("r", "3")] []) "r") "0") = Ok 3%Z
  /\ expands "seg-$Time$.m4s" rep_file_a 5 "seg-5.m4s"
  /\ timeline_entry "seg-$Time$.m4s" rep_file_a "http://h/d/"
       (node "S" [("t", "5"); ("r", "3")] []) [] None
     = Ok ([("http://h/d/seg-5.m4s",
             mkDownloadItem "http://h/d/seg-5.m4s" "d/seg-5.m4s")], Some 5%Z).
Proof.
  split; [reflexivity|]. split; [reflexivity|]. split; [reflexivity|].
  exact (proj1 (proj2
           (C10_no_duration_one_item "seg-$Time$.m4s" rep_file_a "http://h/d/"
              (node "S" [("t", "5"); ("r", "3")] []) [] None 3%Z 5%Z "seg-5.m4s"
              eq_refl eq_refl eq_refl eq_refl))).
Defined.

(* ------------------------------------------------------------------ *)
(** * The base-URL hierarchy (C5) *)

Lemma flat_map_map {A B C : Type} (f : B -> list C) (g : A -> B) (l : list A) :
  flat_map f (map g l) = flat_map (fun x => f (g x)) l.
Proof.
  induction l as [|x l IH]; simpl; [reflexivity | now rewrite IH].
Qed.

Lemma flat_map_flat_map {A B C : Type} (f : B -> list C) (g : A -> list B)
    (l : list A) :
  flat_map f (flat_map g l) = flat_map (fun x => flat_map f (g x)) l.
Proof.
  induction l as [|x l IH]; simpl; [reflexivity|].
  now rewrite flat_map_app, IH.
Qed.

Lemma urljoin_empty (b : string) : join_url b "" = b.
Proof.
  unfold join_url, Url.urljoin. destruct b; reflexivity.
Qed.

Lemma length_stack_bases (bases : list string) (elem : Element) :
  length (stack_bases bases elem) = length bases * level_count elem.
Proof.
  assert (Hl : length (get_all_baseurls elem) = level_count elem).
  { unfold get_all_baseurls, level_count.
    destruct (clean_baseurls _) as [|x l]; simpl; [reflexivity | lia]. }
  unfold stack_bases. induction bases as [|p bases IH]; simpl; [reflexivity|].
  rewrite length_app, length_map, IH, Hl. lia.
Qed.

Lemma clean_baseurls_none (bs : list Element) :
  Forall (fun b => _clean_baseurl_text (text b) = None) bs ->
  clean_baseurls bs = [].
Proof.
  induction 1 as [|b bs Hb _ IH]; simpl; [reflexivity|].
  now rewrite Hb.
Qed.

Lemma stack_bases_passthrough (bases : list string) (elem : Element) :
  clean_baseurls (findall elem (mpd "BaseURL")) = [] ->
  stack_bases bases elem = bases.
Proof.
  intros H. unfold stack_bases, get_all_baseurls. rewrite H.
  induction bases as [|p bases IH]; simpl; [reflexivity|].
  rewrite urljoin_empty. f_equal. exact IH.
Qed.

(** C5 as it is stated does not hold.  An override that is a slash after
    a blank is not exactly a slash, yet the walk takes it for one and
    drops it: the period of [mpd_padded_slash] declares two overrides
    that are neither empty nor exactly a slash, and the representation
    gets one effective base, not two. *)
Lemma C5_padded_override_dropped : ~ effective_bases_as_stated.
Proof.
  intros H.
  destruct (H mpd_padded_slash "http://h/d/m.mpd") as [_ Hn].
  specialize (Hn period_padded_slash
                (node "AdaptationSet" [] [node "Representation" [("id", "v")] []])
                (node "Representation" [("id", "v")] [])).
  vm_compute in Hn. discriminate Hn.
Qed.

(** The walk on that manifest, and the walk as C5 states it. *)
Example padded_slash_walk :
  map snd (effective_base_urls_hierarchy mpd_padded_slash "http://h/d/m.mpd")
  = ["http://h/d/video/"]
  /\ map snd (walk_by stated_overrides mpd_padded_slash "http://h/d/m.mpd")
     = ["http://h/"; "http://h/d/video/"]
  /\ map snd (walk_by trimmed_overrides mpd_padded_slash "http://h/d/m.mpd")
     = ["http://h/d/video/"].
Proof. vm_compute. repeat split. Qed.

Lemma clean_baseurls_trimmed (bs : list Element) :
  clean_baseurls bs
  = filter meaningful
      (map Py.strip
         (map (fun b => match text b with Some t => t | None => "" end) bs)).
Proof.
  induction bs as [|b bs IH]; [reflexivity|].
  cbn [clean_baseurls map filter]. rewrite IH.
  unfold _clean_baseurl_text, meaningful.
  destruct (text b) as [t|].
  - destruct (Py.strip t =? "") eqn:E1; [reflexivity|].
    destruct (Py.strip t =? "/"); reflexivity.
  - reflexivity.
Qed.

(** What [get_all_baseurls] returns: the meaningful trimmed overrides,
    or the one empty placeholder. *)
Lemma get_all_baseurls_trimmed (elem : Element) :
  get_all_baseurls elem
  = match trimmed_overrides elem with
    | [] => [""]
    | o :: os => o :: os
    end.
Proof.
  unfold get_all_baseurls, trimmed_overrides, declared_overrides.
  now rewrite clean_baseurls_trimmed.
Qed.

Lemma stack_bases_level (bases : list string) (elem : Element) :
  stack_bases bases elem = flat_map (level_bases (trimmed_overrides elem)) bases.
Proof.
  unfold stack_bases. apply flat_map_ext. intros p.
  rewrite get_all_baseurls_trimmed.
  destruct (trimmed_overrides elem) as [|o os]; [|reflexivity].
  simpl. now rewrite urljoin_empty.
Qed.

Lemma fold_stack_bases_resolve (levels : list Element) :
  forall bases,
    fold_left stack_bases levels bases
    = resolve_chain (map trimmed_overrides levels) bases.
Proof.
  induction levels as [|elem levels IH]; intros bases; [reflexivity|].
  cbn [fold_left map resolve_chain]. now rewrite IH, stack_bases_level.
Qed.

Lemma length_level_bases (os : list string) (bases : list string) :
  length (flat_map (level_bases os) bases) = length bases * override_count os.
Proof.
  assert (Hl : forall p, length (level_bases os p) = override_count os).
  { intros p. unfold level_bases, override_count.
    destruct os as [|o os]; [reflexivity|]. rewrite length_map. simpl. lia. }
  induction bases as [|p bases IH]; [reflexivity|].
  cbn [flat_map]. rewrite length_app, Hl, IH. simpl. lia.
Qed.

Lemma hierarchy_by_chain (root : Element) (base : string) :
  effective_base_urls_hierarchy root base
  = flat_map (fun period =>
      flat_map (fun adp =>
        flat_map (fun rep =>
          map (fun eff => (rep, adp, eff))
            (chain_bases base [root; period; adp; rep]))
          (findall adp (mpd "Representation")))
        (findall period (mpd "AdaptationSet")))
      (findall root (mpd "Period")).
Proof.
  unfold effective_base_urls_hierarchy, chain_bases. cbn [fold_left].
  assert (H1 : stack_bases [base] root
               = map (fun b => join_url base b) (get_all_baseurls root)).
  { unfold stack_bases. simpl. apply app_nil_r. }
  now rewrite H1.
Qed.

(** C5, as the code has it.  The overrides of a level are the texts of
    its [BaseURL] children with the white space trimmed at both ends,
    those that are then empty or a lone slash left out.  The triples of
    the walk are, representation by representation in document order,
    the effective bases of the chain root, period, adaptation set,
    representation: at each level every override is joined to every
    base of the level above, and a level without an override hands each
    base on unchanged.  Their number is the product of the four levels'
    counts of such overrides, a level without one counting 1. *)
Theorem C5_effective_bases :
  forall (root : Element) (base : string),
    effective_base_urls_hierarchy root base = walk_by trimmed_overrides root base
    /\ (forall period adp rep,
          chain_bases base [root; period; adp; rep]
          = resolve_chain (map trimmed_overrides [root; period; adp; rep]) [base]
          /\ length (chain_bases base [root; period; adp; rep])
             = override_count (trimmed_overrides root)
               * override_count (trimmed_overrides period)
               * override_count (trimmed_overrides adp)
               * override_count (trimmed_overrides rep))
    /\ (forall elem bases,
          (forall o, In o (declared_overrides elem) ->
                     Py.strip o = "" \/ Py.strip o = "/") ->
          trimmed_overrides elem = [] /\ stack_bases bases elem = bases)
    /\ (forall elem o os p,
          trimmed_overrides elem = o :: os ->
          stack_bases [p] elem = map (fun x => join_url p x) (o :: os)).
Proof.
  intros root base.
  assert (Hc : forall period adp rep,
             chain_bases base [root; period; adp; rep]
             = resolve_chain (map trimmed_overrides [root; period; adp; rep]) [base]).
  { intros period adp rep. apply fold_stack_bases_resolve. }
  split; [|split; [|split]].
  - rewrite hierarchy_by_chain. unfold walk_by.
    apply flat_map_ext. intros period.
    apply flat_map_ext. intros adp.
    apply flat_map_ext. intros rep. now rewrite Hc.
  - intros period adp rep. split; [apply Hc|].
    rewrite Hc. cbn [map resolve_chain].
    rewrite !length_level_bases. simpl. lia.
  - intros elem bases H.
    assert (Ht : trimmed_overrides elem = []).
    { unfold trimmed_overrides.
      induction (declared_overrides elem) as [|o os IH]; [reflexivity|].
      cbn [map filter]. unfold meaningful at 1.
      destruct (H o (or_introl eq_refl)) as [-> | ->]; simpl;
        apply IH; intros o' Ho'; apply H; now right. }
    split; [exact Ht|].
    rewrite stack_bases_level, Ht.
    induction bases as [|p bases IH]; [reflexivity|].
    simpl. f_equal. exact IH.
  - intros elem o os p Ht. rewrite stack_bases_level, Ht.
    simpl. now rewrite app_nil_r.
Qed.

Lemma C5_effective_bases_witness :
  (forall o, In o (declared_overrides period_noop) ->
             Py.strip o = "" \/ Py.strip o = "/")
  /\ stack_bases ["http://m1/"; "http://m2/"] period_noop
     = ["http://m1/"; "http://m2/"]
  /\ trimmed_overrides mpd_mirrors = ["http://m1/"; "http://m2/"]
  /\ stack_bases ["http://h/d/m.mpd"] mpd_mirrors = ["http://m1/"; "http://m2/"].
Proof.
  assert (H : forall o, In o (declared_overrides period_noop) ->
                        Py.strip o = "" \/ Py.strip o = "/").
  { intros o [<-|[]]. now right. }
  split; [exact H|]. split.
  - exact (proj2 (proj1 (proj2 (proj2
             (C5_effective_bases mpd_mirrors "http://h/d/m.mpd")))
             period_noop ["http://m1/"; "http://m2/"] H)).
  - split; [reflexivity|].
    exact (proj2 (proj2 (proj2
             (C5_effective_bases mpd_mirrors "http://h/d/m.mpd")))
             mpd_mirrors "http://m1/" ["http://m2/"] "http://h/d/m.mpd" eq_refl).
Defined.

(* ------------------------------------------------------------------ *)
(** * The download engine (C6, C9) *)

(** C9.  With a domain configured, an item whose host is another one is
    reported failed with the reason "wrong domain", and the call does
    nothing else: no directory is made, no request is sent.  Without a
    configured domain the gate accepts every URL. *)
Theorem C9_domain_gate :
  (forall fuel fs endpoint item outdir retries d verbose,
      d <> "" ->
      Url.hostname (Url.urlparse (url item)) <> Some d ->
      download_one fuel fs endpoint item outdir retries (Some d) verbose
      = Some (Ok (Some (url item, false, Some "wrong domain")), []))
  /\ (forall u, check_domain u None = true).
Proof.
  split; [|reflexivity].
  intros fuel fs endpoint item outdir retries d verbose Hd Hh.
  unfold download_one, check_domain. simpl Py.opt_truthy.
  apply truthy_true in Hd. rewrite Hd. simpl negb.
  destruct (Url.hostname (Url.urlparse (url item))) as [h|]; simpl.
  - destruct (String.eqb_spec h d) as [->|N]; [congruence | reflexivity].
  - reflexivity.
Qed.

Lemma C9_domain_gate_witness :
  "cdn.example" <> ""
  /\ Url.hostname (Url.urlparse "http://other.example/v/seg.m4s") <> Some "cdn.example"
  /\ download_one 0 (fun _ => None) (fun _ => None)
       (mkDownloadItem "http://other.example/v/seg.m4s" "v/seg.m4s") "out" 3
       (Some "cdn.example") false
     = Some (Ok (Some ("http://other.example/v/seg.m4s", false, Some "wrong domain")),
             []).
Proof.
  assert (H1 : "cdn.example" <> "") by discriminate.
  assert (H2 : Url.hostname (Url.urlparse "http://other.example/v/seg.m4s")
               <> Some "cdn.example") by (vm_compute; discriminate).
  split; [exact H1|]. split; [exact H2|].
  exact (proj1 C9_domain_gate 0 (fun _ => None) (fun _ => None)
           (mkDownloadItem "http://other.example/v/seg.m4s" "v/seg.m4s") "out" 3%Z
           "cdn.example" false H1 H2).
Defined.

Lemma flat_map_ext_In {A B : Type} (f g : A -> list B) (l : list A) :
  (forall x, In x l -> f x = g x) -> flat_map f l = flat_map g l.
Proof.
  induction l as [|x l IH]; intros H; simpl; [reflexivity|].
  rewrite (H x) by now left. f_equal. apply IH. intros y Hy. apply H. now right.
Qed.

Lemma backoff_doubles :
  backoff 1 = 2%Z /\ (forall k, backoff (S k) = Z.min (2 * backoff k) 10).
Proof.
  split; [reflexivity|]. intros k. unfold backoff.
  rewrite Nat2Z.inj_succ, Z.pow_succ_r by lia.
  assert (0 < 2 ^ Z.of_nat k)%Z by (apply Z.pow_pos_nonneg; lia).
  lia.
Qed.

Section Attempts.

Variable endpoint : nat -> option string.
Variable item : DownloadItem.
Variable retries : Z.
Variable verbose : bool.

(** One failed attempt that is followed by another one. *)
Lemma attempt_loop_retry (fuel a : nat) (e : string) :
  endpoint a = Some e ->
  (Z.of_nat a + 1 <= retries)%Z ->
  attempt_loop (S fuel) endpoint item retries verbose (Z.of_nat a)
  = match attempt_loop fuel endpoint item retries verbose (Z.of_nat (S a)) with
    | Some (r, tr) =>
        Some (r, (HttpGet (url item)
                  :: retry_log item retries verbose (S a) e
                  ++ Sleep (backoff (S a)) :: tr)%list)
    | None => None
    end.
Proof.
  intros He Hr. cbn [attempt_loop].
  assert (H1 : (Z.of_nat a <=? retries)%Z = true) by (apply Z.leb_le; lia).
  assert (H2 : (Z.of_nat a + 1 >? retries)%Z = false).
  { rewrite Z.gtb_ltb. apply Z.ltb_ge. lia. }
  rewrite H1, Nat2Z.id, He, H2.
  replace (Z.of_nat a + 1)%Z with (Z.of_nat (S a)) by lia.
  reflexivity.
Qed.

(** The loop from the attempt number [a] on, whatever the endpoint
    does: [m] failed requests, each followed by a sleep and the next
    request, and then the request that decides. *)
Lemma attempt_loop_trace (fuel : nat) :
  forall a : nat,
    (Z.of_nat a <= retries)%Z ->
    Z.to_nat retries - a < fuel ->
    exists m,
      a + m <= Z.to_nat retries
      /\ (forall k, a <= k < a + m -> endpoint k <> None)
      /\ (endpoint (a + m) <> None -> a + m = Z.to_nat retries)
      /\ attempt_loop fuel endpoint item retries verbose (Z.of_nat a)
         = Some (Some (url item,
                       match endpoint (a + m) with None => true | Some _ => false end,
                       endpoint (a + m)),
                 HttpGet (url item)
                 :: flat_map (retry_events item retries verbose (error_text endpoint))
                      (seq (S a) m)).
Proof.
  induction fuel as [|fuel IH]; intros a Ha Hfuel; [lia|].
  destruct (endpoint a) as [e|] eqn:Ea.
  - destruct (Z.eq_dec (Z.of_nat a) retries) as [Elast|Nlast].
    + exists 0. rewrite Nat.add_0_r, Ea. repeat split; try lia.
      cbn [attempt_loop].
      assert (H1 : (Z.of_nat a <=? retries)%Z = true) by (apply Z.leb_le; lia).
      assert (H2 : (Z.of_nat a + 1 >? retries)%Z = true).
      { rewrite Z.gtb_ltb. apply Z.ltb_lt. lia. }
      now rewrite H1, Nat2Z.id, Ea, H2.
    + destruct (IH (S a)) as [m [Hm [Hf [Hl E]]]]; [lia | lia |].
      exists (S m). replace (a + S m) with (S a + m) by lia.
      repeat split; try lia; try assumption.
      * intros k Hk. destruct (Nat.eq_dec k a) as [->|N]; [congruence|].
        apply Hf. lia.
      * rewrite (attempt_loop_retry fuel a e Ea) by lia. rewrite E.
        cbn [seq flat_map]. unfold retry_events at 2.
        replace (S a - 1) with a by lia.
        unfold error_text at 2. rewrite Ea.
        now rewrite <- app_assoc.
  - exists 0. rewrite Nat.add_0_r, Ea. repeat split; try lia; try congruence.
    cbn [attempt_loop].
    assert (H1 : (Z.of_nat a <=? retries)%Z = true) by (apply Z.leb_le; lia).
    now rewrite H1, Nat2Z.id, Ea.
Qed.

(** The requests and the sleeps of a trace of [m + 1] requests. *)
Lemma without_log_retries (errs : nat -> string) (l : list nat) :
  without_log (flat_map (retry_events item retries verbose errs) l)
  = flat_map (fun k => [Sleep (backoff k); HttpGet (url item)]) l.
Proof.
  unfold without_log. induction l as [|k l IH]; [reflexivity|].
  cbn [flat_map]. rewrite filter_app, IH. f_equal.
  unfold retry_events, retry_log. now destruct verbose.
Qed.

Lemma without_log_attempts (errs : nat -> string) (m : nat) :
  without_log (attempts_trace item retries verbose errs m)
  = HttpGet (url item)
    :: flat_map (fun k => [Sleep (backoff k); HttpGet (url item)]) (seq 1 m).
Proof.
  unfold attempts_trace.
  change (without_log (?x :: ?l)) with (x :: without_log l).
  now rewrite without_log_retries.
Qed.

Lemma gets_sleeps_retries (errs : nat -> string) (l : list nat) :
  gets (flat_map (retry_events item retries verbose errs) l) = length l
  /\ sleeps (flat_map (retry_events item retries verbose errs) l) = map backoff l.
Proof.
  unfold gets, sleeps. induction l as [|k l [IHg IHs]]; [now split|].
  cbn [flat_map]. rewrite filter_app, length_app, flat_map_app, IHg, IHs.
  unfold retry_events, retry_log. destruct verbose; now split.
Qed.

Lemma gets_sleeps_attempts (errs : nat -> string) (m : nat) :
  gets (attempts_trace item retries verbose errs m) = S m
  /\ sleeps (attempts_trace item retries verbose errs m) = map backoff (seq 1 m).
Proof.
  destruct (gets_sleeps_retries errs (seq 1 m)) as [G S].
  unfold attempts_trace, gets, sleeps in *. simpl.
  rewrite G, S, length_seq. now split.
Qed.

End Attempts.

(** An [OSError] of [os.makedirs] leaves the call: nothing is requested
    and no result is returned for the item. *)
Lemma download_one_makedirs_raises
    (fuel : nat) (fs : string -> option string) (endpoint : nat -> option string)
    (item : DownloadItem) (outdir : string) (retries : Z)
    (only_domain : option string) (verbose : bool) (msg : string) :
  check_domain (url item) only_domain = true ->
  os_makedirs fs (OsPath.dirname (OsPath.join outdir (relpath item))) = Some msg ->
  download_one fuel fs endpoint item outdir retries only_domain verbose
  = Some (Raise (OSError msg),
          [Makedirs (OsPath.dirname (OsPath.join outdir (relpath item)))]).
Proof.
  intros Hd Hm. unfold download_one. rewrite Hd. simpl negb. cbv iota zeta.
  now rewrite Hm.
Qed.

(** The call on an item that passes the gate and whose directory can be
    made, whatever the endpoint does. *)
Lemma download_one_trace
    (fuel : nat) (fs : string -> option string) (endpoint : nat -> option string)
    (item : DownloadItem) (outdir : string) (retries : Z)
    (only_domain : option string) (verbose : bool) :
  (0 <= retries)%Z ->
  check_domain (url item) only_domain = true ->
  os_makedirs fs (OsPath.dirname (OsPath.join outdir (relpath item))) = None ->
  Z.to_nat retries < fuel ->
  exists m,
    m <= Z.to_nat retries
    /\ (forall k, k < m -> endpoint k <> None)
    /\ (endpoint m <> None -> m = Z.to_nat retries)
    /\ download_one fuel fs endpoint item outdir retries only_domain verbose
       = Some (Ok (Some (url item,
                         match endpoint m with None => true | Some _ => false end,
                         endpoint m)),
               Makedirs (OsPath.dirname (OsPath.join outdir (relpath item)))
               :: attempts_trace item retries verbose (error_text endpoint) m).
Proof.
  intros Hr Hd Hm Hfuel.
  destruct (attempt_loop_trace endpoint item retries verbose fuel 0)
    as [m [Hle [Hf [Hl E]]]]; [lia | lia |].
  exists m. simpl in Hle, Hl, E. repeat split; try assumption.
  - intros k Hk. apply Hf. lia.
  - unfold download_one. rewrite Hd. simpl negb. cbv iota zeta.
    rewrite Hm. change (Z.of_nat 0) with 0%Z in E. now rewrite E.
Qed.

(** With negative retries the loop is never entered: the call makes no
    request and returns Python's [None]. *)
Lemma negative_retries_no_attempt
    (fuel : nat) (fs : string -> option string) (endpoint : nat -> option string)
    (item : DownloadItem) (outdir : string) (retries : Z) (verbose : bool) :
  (retries < 0)%Z ->
  os_makedirs fs (OsPath.dirname (OsPath.join outdir (relpath item))) = None ->
  download_one (S fuel) fs endpoint item outdir retries None verbose
  = Some (Ok None, [Makedirs (OsPath.dirname (OsPath.join outdir (relpath item)))]).
Proof.
  intros H Hm. unfold download_one. simpl check_domain. cbn [negb]. cbv zeta.
  rewrite Hm. cbn [attempt_loop].
  assert (E : (0 <=? retries)%Z = false) by (apply Z.leb_gt; lia).
  now rewrite E.
Qed.

(** C6.  An endpoint fails [N] times and then succeeds (or, when [N]
    exceeds the retries, fails at every attempt that is made), and the
    directory of the destination can be made.  With [retries >= N] the
    item is reported successful after exactly [N + 1] requests; with
    [retries < N] it is reported failed after exactly [retries + 1]
    requests, with the text of the last error.  The call does this and
    nothing else, in this order: it makes the directory, sends the first
    request, and after the [k]-th failure that is not the last it
    sleeps [min(2^k, 10)] seconds and sends the next request.  So there
    are at most [retries + 1] requests, a sleep lies between two
    requests and none follows the last one, and the delay doubles from
    one attempt to the next up to the ceiling of 10 seconds. *)
Theorem C6_retry_attempts :
  forall fuel fs endpoint item outdir retries only_domain verbose N errs,
    (0 <= retries)%Z ->
    check_domain (url item) only_domain = true ->
    os_makedirs fs (OsPath.dirname (OsPath.join outdir (relpath item))) = None ->
    (forall k, k < N -> endpoint k = Some (errs k)) ->
    ((Z.of_nat N <= retries)%Z -> endpoint N = None) ->
    Z.to_nat retries < fuel ->
    download_one fuel fs endpoint item outdir retries only_domain verbose
    = Some (Ok (Some (if (Z.of_nat N <=? retries)%Z
                      then (url item, true, None)
                      else (url item, false, Some (errs (Z.to_nat retries))))),
            Makedirs (OsPath.dirname (OsPath.join outdir (relpath item)))
            :: attempts_trace item retries verbose errs
                 (Nat.min N (Z.to_nat retries)))
    /\ without_log (attempts_trace item retries verbose errs
                      (Nat.min N (Z.to_nat retries)))
       = HttpGet (url item)
         :: flat_map (fun k => [Sleep (backoff k); HttpGet (url item)])
              (seq 1 (Nat.min N (Z.to_nat retries)))
    /\ gets (attempts_trace item retries verbose errs (Nat.min N (Z.to_nat retries)))
       = S (Nat.min N (Z.to_nat retries))
    /\ S (Nat.min N (Z.to_nat retries)) <= Z.to_nat retries + 1
    /\ backoff 1 = 2%Z
    /\ (forall k, backoff (S k) = Z.min (2 * backoff k) 10).
Proof.
  intros fuel fs endpoint item outdir retries only_domain verbose N errs
         Hr Hd Hmk Hf Hs Hfuel.
  split; [|split; [apply without_log_attempts|split;
    [apply gets_sleeps_attempts|split; [lia|apply backoff_doubles]]]].
  destruct (download_one_trace fuel fs endpoint item outdir retries only_domain
              verbose Hr Hd Hmk Hfuel) as [m [Hle [Hne [Hl E]]]].
  assert (Hm : m = Nat.min N (Z.to_nat retries)).
  { destruct (Z.leb_spec (Z.of_nat N) retries) as [Hle'|Hgt].
    - assert (m <= N).
      { destruct (Nat.le_gt_cases m N) as [|Hlt]; [assumption|].
        exfalso. apply (Hne N Hlt). now apply Hs. }
      destruct (Nat.eq_dec m N) as [->|Hn]; [lia|].
      assert (Hend : endpoint m <> None) by (rewrite Hf by lia; discriminate).
      apply Hl in Hend. lia.
    - assert (Hend : endpoint m <> None) by (rewrite Hf by lia; discriminate).
      apply Hl in Hend. lia. }
  rewrite E. f_equal. f_equal.
  - f_equal. f_equal.
    destruct (Z.leb_spec (Z.of_nat N) retries) as [Hle'|Hgt].
    + replace m with N by lia. now rewrite Hs.
    + replace m with (Z.to_nat retries) by lia. now rewrite Hf by lia.
  - f_equal. unfold attempts_trace. f_equal. rewrite <- Hm.
    apply flat_map_ext_In. intros k Hk. apply in_seq in Hk.
    unfold retry_events, error_text. rewrite Hf by lia. reflexivity.
Qed.

Lemma C6_retry_attempts_witness :
  (0 <= 3)%Z
  /\ check_domain "http://h/v/seg.m4s" None = true
  /\ os_makedirs (fun _ => None)
       (OsPath.dirname (OsPath.join "out" "v/seg.m4s")) = None
  /\ download_one 4 (fun _ => None) (fails_then_succeeds 2 (fun _ => "HTTP 503"))
       (mkDownloadItem "http://h/v/seg.m4s" "v/seg.m4s") "out" 3 None false
     = Some (Ok (Some ("http://h/v/seg.m4s", true, None)),
             [Makedirs "out/v"; HttpGet "http://h/v/seg.m4s"; Sleep 2;
              HttpGet "http://h/v/seg.m4s"; Sleep 4; HttpGet "http://h/v/seg.m4s"]).
Proof.
  split; [lia|]. split; [reflexivity|]. split; [reflexivity|].
  refine (proj1 (C6_retry_attempts 4 (fun _ => None)
                   (fails_then_succeeds 2 (fun _ => "HTTP 503"))
                   (mkDownloadItem "http://h/v/seg.m4s" "v/seg.m4s") "out" 3%Z
                   None false 2 (fun _ => "HTTP 503") _ eq_refl eq_refl _ _ _)).
  - lia.
  - intros k Hk. unfold fails_then_succeeds.
    destruct (Nat.ltb_spec k 2); [reflexivity | lia].
  - intros _. reflexivity.
  - simpl. lia.
Defined.

(* ------------------------------------------------------------------ *)
(** * Template errors (C8) *)

(** A pattern that uses [$Number$] while no number is supplied raises,
    whatever the time. *)
Lemma expand_number_missing (pat : string) (rep : Element) (time : option Z) :
  Py.contains "$Number" pat = true ->
  expand_media_template pat rep None time
  = Raise (RuntimeError "Template uses $Number$ but number=None").
Proof.
  intros H. unfold expand_media_template. now rewrite H.
Qed.

(** A pattern that still holds [$Time$] after the number substitution
    raises when no time is supplied. *)
Lemma expand_time_missing (pat : string) (rep : Element) (n : Z) :
  Py.contains "$Time$" (if Py.contains "$Number" pat then sub_number n pat else pat)
  = true ->
  expand_media_template pat rep (Some n) None
  = Raise (RuntimeError "Template uses $Time$ but time=None").
Proof.
  intros H. unfold expand_media_template.
  destruct (Py.contains "$Number" pat); simpl; now rewrite H.
Qed.

(** Once the lookup has found a template with a media pattern and no
    timeline, a missing or empty [DASH_SEGMENT_COUNT] is fatal. *)
Lemma template_without_count_raises
    (getenv : string -> option string) (rep adp : Element) (base : string)
    (items : Dict) (st : Element) (media : string) (start : Z) :
  or_else (find rep (mpd "SegmentTemplate")) (find adp (mpd "SegmentTemplate"))
  = Some st ->
  get st "media" = Some media ->
  media <> "" ->
  int (Py.or_default (get st "startNumber") "1") = Ok start ->
  find st (mpd "SegmentTimeline") = None ->
  Py.opt_truthy (getenv "DASH_SEGMENT_COUNT") = false ->
  parse_segment_template getenv rep adp base items
  = Raise (RuntimeError "Need DASH_SEGMENT_COUNT for number-based SegmentTemplate").
Proof.
  intros Hst Hm Hne Hs Htl Henv. unfold parse_segment_template.
  rewrite Hst, Hm. apply truthy_true in Hne. rewrite Hne. simpl negb. cbv iota.
  rewrite Hs, bind_Ok, Htl.
  destruct (getenv "DASH_SEGMENT_COUNT") as [ce|]; [|reflexivity].
  simpl in Henv. now rewrite Henv.
Qed.

(** A template without child elements on the representation is passed
    over by the lookup; when the adaptation set declares none, the call
    leaves the registry as it is and raises nothing, whatever the
    pattern and the environment. *)
Lemma childless_template_ignored
    (getenv : string -> option string) (rep adp : Element) (base : string)
    (items : Dict) (st : Element) :
  find rep (mpd "SegmentTemplate") = Some st ->
  children st = [] ->
  find adp (mpd "SegmentTemplate") = None ->
  parse_segment_template getenv rep adp base items = Ok items.
Proof.
  intros Hr Hc Ha. unfold parse_segment_template, or_else, truthy.
  now rewrite Hr, Hc, Ha.
Qed.

(** C8 at a number-based template without a timeline that the
    representation itself declares, with no segment count in the
    environment.  The template element has no child, so it tests false
    and the lookup falls through to the adaptation set, which has none:
    nothing is registered and nothing is raised.  The same template
    declared on the adaptation set does raise. *)
Theorem C8_representation_template_skipped :
  find rep_number_template (mpd "SegmentTemplate") = Some number_template
  /\ find number_template (mpd "SegmentTimeline") = None
  /\ no_env "DASH_SEGMENT_COUNT" = None
  /\ parse_segment_template no_env rep_number_template adp_rep_number_template
       "http://h/d/" [] = Ok []
  /\ collect_one no_env no_filters
       (rep_number_template, adp_rep_number_template, "http://h/d/") [] = Ok []
  /\ parse_segment_template no_env rep_plain adp_number_template "http://h/d/" []
     = Raise (RuntimeError "Need DASH_SEGMENT_COUNT for number-based SegmentTemplate").
Proof.
  repeat split; vm_compute; reflexivity.
Qed.

(* ------------------------------------------------------------------ *)
(** * The tool on sample inputs *)

(** Zero-padded numbering: [seg-$Number%03d$.m4s] with [startNumber=1]
    and a count of 3. *)
Example zero_padded_numbering :
  emit_numbered 3 "seg-$Number%03d$.m4s" rep_plain "http://h/d/" [] 1
  = Ok (register ["http://h/d/seg-001.m4s"; "http://h/d/seg-002.m4s";
                  "http://h/d/seg-003.m4s"] []).
Proof. vm_compute. reflexivity. Qed.

(** A template on the adaptation set with the count in the environment. *)
Example numbered_template_with_count :
  option_map (map url)
    (match parse_segment_template (env_count "2") rep_plain adp_number_template
             "http://h/d/" [] with
     | Ok items => Some (values items)
     | Raise _ => None
     end)
  = Some ["http://h/d/seg-1.m4s"; "http://h/d/seg-2.m4s"].
Proof. vm_compute. reflexivity. Qed.

(** Five failures against three retries: four requests, the delays 2, 4
    and 8, and the last error. *)
Example retries_exhausted :
  download_one 4 (fun _ => None)
    (fails_then_succeeds 5 (fun k => "HTTP 50" ++ Py.str (Z.of_nat k)))
    (mkDownloadItem "http://h/v/seg.m4s" "v/seg.m4s") "out" 3 None false
  = Some (Ok (Some ("http://h/v/seg.m4s", false, Some "HTTP 503")),
          [Makedirs "out/v"; HttpGet "http://h/v/seg.m4s"; Sleep 2;
           HttpGet "http://h/v/seg.m4s"; Sleep 4;
           HttpGet "http://h/v/seg.m4s"; Sleep 8;
           HttpGet "http://h/v/seg.m4s"]).
Proof. vm_compute. reflexivity. Qed.

(** A file sits where the directory of the destination should be: the
    call raises before any request, whatever the retries. *)
Example directory_is_a_file :
  download_one 4 (fun d => if d =? "out/v/seg.m4s" then Some "File exists" else None)
    (fun _ => None)
    (mkDownloadItem "http://h/v/seg.m4s?x=1" "v/seg.m4s/x%3D1") "out" 3 None false
  = Some (Raise (OSError "File exists"), [Makedirs "out/v/seg.m4s"]).
Proof. vm_compute. reflexivity. Qed.

(** A representation without its own MIME type is matched on the one of
    its adaptation set. *)
Example mime_inherited :
  matches_filters rep_plain (node "AdaptationSet" [("mimeType", "Video/MP4")] [])
    (mkArgs None (Some ["video/"])) = true.
Proof. reflexivity. Qed.

(* ------------------------------------------------------------------ *)
(** * The filter matcher *)

(** X1.  A pair is selected exactly when it passes both filters.  A
    filter that is absent or empty passes everything.  The identifier
    filter passes a representation whose [id] is present and listed;
    the MIME filter passes when the representation's own MIME type, or
    failing that the adaptation set's, starts with one of the listed
    prefixes, letter case aside. *)
Theorem X1_matches_filters_iff :
  forall rep adp args,
    matches_filters rep adp args = true
    <-> (forall ids, filter_repr_id args = Some ids -> ids <> [] ->
           exists i, get rep "id" = Some i /\ In i ids)
        /\ (forall ms, filter_mime args = Some ms -> ms <> [] ->
              exists m, In m ms
                        /\ prefix (Py.lower m) (Py.lower (effective_mime rep adp))
                           = true).
Proof.
  intros rep adp [ids ms]. unfold matches_filters, effective_mime. simpl.
  assert (Hid : (list_truthy ids && not_in (get rep "id") ids = false)
                <-> (forall l, ids = Some l -> l <> [] ->
                       exists i, get rep "id" = Some i /\ In i l)).
  { destruct ids as [[|x l]|]; simpl.
    - split; [|reflexivity]. intros _ l' E. injection E as <-. congruence.
    - destruct (get rep "id") as [i|]; cbn [not_in andb].
      + destruct (Url.mem i (x :: l)) eqn:M; cbn [negb].
        * apply mem_In in M. split; [|reflexivity].
          intros _ l' E _. injection E as <-. now exists i.
        * apply mem_false in M. split; [discriminate|]. intros H.
          destruct (H (x :: l) eq_refl) as [i' [E Hin]]; [discriminate|].
          injection E as ->. contradiction.
      + split; [discriminate|]. intros H.
        destruct (H (x :: l) eq_refl) as [i' [E _]]; [discriminate|discriminate].
    - split; [|reflexivity]. intros _ l' E. discriminate. }
  assert (Hm : (if list_truthy ms
                then if negb (existsb
                                (fun m => Py.startswith
                                   (Py.lower (Py.or_default (get rep "mimeType")
                                      (Py.or_default (get adp "mimeType") "")))
                                   (Py.lower m))
                                match ms with Some l => l | None => [] end)
                     then false else true
                else true) = true
               <-> (forall l, ms = Some l -> l <> [] ->
                      exists m, In m l
                        /\ prefix (Py.lower m)
                             (Py.lower (Py.or_default (get rep "mimeType")
                                (Py.or_default (get adp "mimeType") ""))) = true)).
  { destruct ms as [[|x l]|]; simpl list_truthy; cbv iota.
    - split; [|reflexivity]. intros _ l' E. injection E as <-. congruence.
    - destruct (existsb _ (x :: l)) eqn:E; simpl negb; cbv iota.
      + split; [|reflexivity]. intros _ l' El _. injection El as <-.
        apply existsb_exists in E. destruct E as [m [Hin Hp]]. now exists m.
      + split; [discriminate|]. intros H.
        destruct (H (x :: l) eq_refl) as [m [Hin Hp]]; [discriminate|].
        assert (existsb (fun m0 => Py.startswith
                   (Py.lower (Py.or_default (get rep "mimeType")
                      (Py.or_default (get adp "mimeType") ""))) (Py.lower m0))
                  (x :: l) = true)
          by (apply existsb_exists; now exists m).
        congruence.
    - split; [|reflexivity]. intros _ l' E. discriminate. }
  destruct (list_truthy ids && not_in (get rep "id") ids) eqn:E.
  - split; [discriminate|]. intros [H _]. apply Hid in H. congruence.
  - rewrite Hm. split.
    + intros H. split; [now apply Hid | exact H].
    + intros [_ H]. exact H.
Qed.

Lemma X1_matches_filters_witness :
  matches_filters rep_plain (node "AdaptationSet" [("mimeType", "Video/MP4")] [])
    (mkArgs (Some ["v"; "w"]) (Some ["audio/"; "video/"])) = true
  /\ exists i, get rep_plain "id" = Some i /\ In i ["v"; "w"].
Proof.
  assert (H : matches_filters rep_plain
                (node "AdaptationSet" [("mimeType", "Video/MP4")] [])
                (mkArgs (Some ["v"; "w"]) (Some ["audio/"; "video/"])) = true)
    by reflexivity.
  split; [exact H|].
  apply (proj1 (proj1 (X1_matches_filters_iff _ _ _) H) ["v"; "w"] eq_refl).
  discriminate.
Defined.

(** X2.  The MIME filter does not see the letter case of the prefixes it
    is given: two lists of prefixes that agree after lower-casing select
    the same pairs. *)
Theorem X2_mime_filter_case_insensitive :
  forall rep adp ids ms ms',
    map Py.lower ms = map Py.lower ms' ->
    matches_filters rep adp (mkArgs ids (Some ms))
    = matches_filters rep adp (mkArgs ids (Some ms')).
Proof.
  intros rep adp ids ms ms' H. unfold matches_filters.
  cbn [filter_repr_id filter_mime].
  assert (Ht : list_truthy (Some ms) = list_truthy (Some ms')).
  { destruct ms, ms'; simpl in *; congruence. }
  assert (He : forall f : string -> bool,
             existsb (fun m => f (Py.lower m)) ms
             = existsb (fun m => f (Py.lower m)) ms').
  { intros f. transitivity (existsb f (map Py.lower ms)).
    - clear. induction ms as [|m l IH]; simpl; [reflexivity | now rewrite IH].
    - rewrite H. clear. induction ms' as [|m l IH]; simpl;
        [reflexivity | now rewrite IH]. }
  rewrite Ht.
  now rewrite (He (fun m => Py.startswith
                     (Py.lower (Py.or_default (get rep "mimeType")
                        (Py.or_default (get adp "mimeType") ""))) m)).
Qed.

Lemma X2_mime_filter_witness :
  map Py.lower ["VIDEO/"] = map Py.lower ["video/"]
  /\ matches_filters rep_plain adp_video (mkArgs None (Some ["VIDEO/"]))
     = matches_filters rep_plain adp_video (mkArgs None (Some ["video/"])).
Proof.
  split; [reflexivity|].
  apply X2_mime_filter_case_insensitive. reflexivity.
Defined.

(* ------------------------------------------------------------------ *)
(** * The hierarchy walk *)

Lemma level_count_pos (elem : Element) : 1 <= level_count elem.
Proof. unfold level_count. lia. Qed.

Lemma chain_bases_nonempty (base : string) (root period adp rep : Element) :
  chain_bases base [root; period; adp; rep] <> [].
Proof.
  intros H. apply (f_equal (@length string)) in H.
  unfold chain_bases in H. cbn [fold_left] in H.
  rewrite !length_stack_bases in H. simpl in H.
  pose proof (level_count_pos root). pose proof (level_count_pos period).
  pose proof (level_count_pos adp). pose proof (level_count_pos rep).
  nia.
Qed.

(** X3.  The walk yields a triple for a representation, an adaptation
    set and a base exactly when the representation is a
    [Representation] child of that adaptation set, itself an
    [AdaptationSet] child of some [Period] child of the root, and the
    base is one of the bases of that chain.  No representation in such a
    position is lost: each has at least one triple. *)
Theorem X3_hierarchy_triples :
  forall root base rep adp,
    (forall eff,
        In (rep, adp, eff) (effective_base_urls_hierarchy root base)
        <-> exists period,
              In period (findall root (mpd "Period"))
              /\ In adp (findall period (mpd "AdaptationSet"))
              /\ In rep (findall adp (mpd "Representation"))
              /\ In eff (chain_bases base [root; period; adp; rep]))
    /\ (forall period,
          In period (findall root (mpd "Period")) ->
          In adp (findall period (mpd "AdaptationSet")) ->
          In rep (findall adp (mpd "Representation")) ->
          exists eff, In (rep, adp, eff) (effective_base_urls_hierarchy root base)).
Proof.
  intros root base rep adp.
  assert (Hiff : forall eff,
             In (rep, adp, eff) (effective_base_urls_hierarchy root base)
             <-> exists period,
                   In period (findall root (mpd "Period"))
                   /\ In adp (findall period (mpd "AdaptationSet"))
                   /\ In rep (findall adp (mpd "Representation"))
                   /\ In eff (chain_bases base [root; period; adp; rep])).
  { intros eff. rewrite hierarchy_by_chain, in_flat_map. split.
    - intros [period [Hp H]]. apply in_flat_map in H.
      destruct H as [adp' [Ha H]]. apply in_flat_map in H.
      destruct H as [rep' [Hr H]]. apply in_map_iff in H.
      destruct H as [eff' [E He]]. injection E as -> -> ->.
      exists period. now repeat split.
    - intros [period [Hp [Ha [Hr He]]]]. exists period. split; [assumption|].
      apply in_flat_map. exists adp. split; [assumption|].
      apply in_flat_map. exists rep. split; [assumption|].
      apply in_map_iff. now exists eff. }
  split; [exact Hiff|].
  intros period Hp Ha Hr.
  destruct (chain_bases base [root; period; adp; rep]) as [|eff l] eqn:E.
  - now apply chain_bases_nonempty in E.
  - exists eff. apply Hiff. exists period. rewrite E. repeat split; auto.
    now left.
Qed.

Lemma X3_hierarchy_triples_witness :
  In period_noop (findall mpd_mirrors (mpd "Period"))
  /\ In adp_video (findall period_noop (mpd "AdaptationSet"))
  /\ In rep_plain (findall adp_video (mpd "Representation"))
  /\ exists eff,
       In (rep_plain, adp_video, eff)
         (effective_base_urls_hierarchy mpd_mirrors "http://h/d/m.mpd").
Proof.
  assert (H1 : In period_noop (findall mpd_mirrors (mpd "Period")))
    by (vm_compute; auto).
  assert (H2 : In adp_video (findall period_noop (mpd "AdaptationSet")))
    by (vm_compute; auto).
  assert (H3 : In rep_plain (findall adp_video (mpd "Representation")))
    by (vm_compute; auto).
  split; [exact H1|]. split; [exact H2|]. split; [exact H3|].
  exact (proj2 (X3_hierarchy_triples mpd_mirrors "http://h/d/m.mpd"
                  rep_plain adp_video) period_noop H1 H2 H3).
Defined.

(* ------------------------------------------------------------------ *)
(** * Segment lists *)

Lemma In_segment_url_list (base : string) (sus : list Element) (u : string) :
  In u (segment_url_list base sus)
  <-> exists su media,
        In su sus /\ get su "media" = Some media /\ media <> ""
        /\ u = join_url base media.
Proof.
  induction sus as [|su t IH]; simpl.
  - split; [intros [] | intros [su [m [[] _]]]].
  - destruct (get su "media") as [m|] eqn:Em.
    + destruct (Py.truthy m) eqn:Et.
      * simpl. rewrite IH. split.
        -- intros [<-|[su' [m' [Hin H]]]].
           ++ exists su, m. apply truthy_true in Et. now repeat split; auto.
           ++ exists su', m'. split; [now right | exact H].
        -- intros [su' [m' [[<-|Hin] [Hg [Hne Hu]]]]].
           ++ left. rewrite Em in Hg. injection Hg as ->. now symmetry.
           ++ right. exists su', m'. now repeat split.
      * rewrite IH. split.
        -- intros [su' [m' [Hin H]]]. exists su', m'. split; [now right|exact H].
        -- intros [su' [m' [[<-|Hin] [Hg [Hne Hu]]]]].
           ++ rewrite Em in Hg. injection Hg as ->.
              apply truthy_true in Hne. congruence.
           ++ exists su', m'. now repeat split.
    + rewrite IH. split.
      * intros [su' [m' [Hin H]]]. exists su', m'. split; [now right|exact H].
      * intros [su' [m' [[<-|Hin] [Hg [Hne Hu]]]]]; [congruence|].
        exists su', m'. now repeat split.
Qed.

(** X4.  After [parse_segment_list] the registry holds the URLs it held
    before and, for the segment list that the lookup resolves, the
    initialization's [sourceURL] and the [media] of every [SegmentURL],
    each joined to the base; attributes that are missing or empty add
    nothing, and nothing else is added. *)
Theorem X4_segment_list_urls :
  forall rep adp base items u,
    In u (keys (parse_segment_list rep adp base items))
    <-> In u (keys items)
        \/ exists sl,
             or_else (find rep (mpd "SegmentList")) (find adp (mpd "SegmentList"))
             = Some sl
             /\ ((exists init src,
                    find sl (mpd "Initialization") = Some init
                    /\ get init "sourceURL" = Some src /\ src <> ""
                    /\ u = join_url base src)
                 \/ (exists su media,
                       In su (findall sl (mpd "SegmentURL"))
                       /\ get su "media" = Some media /\ media <> ""
                       /\ u = join_url base media)).
Proof.
  intros rep adp base items u.
  rewrite parse_segment_list_register, In_keys_register.
  unfold segment_list_urls.
  destruct (or_else _ _) as [sl|].
  - rewrite in_app_iff, In_segment_url_list. split.
    + intros [H|[H|H]]; [now left| |].
      * right. exists sl. split; [reflexivity|]. left.
        destruct (find sl (mpd "Initialization")) as [init|]; [|contradiction].
        destruct (get init "sourceURL") as [src|] eqn:Es; [|contradiction].
        destruct (Py.truthy src) eqn:Et; [|contradiction].
        destruct H as [<-|[]]. exists init, src.
        apply truthy_true in Et. now repeat split.
      * right. exists sl. split; [reflexivity|]. now right.
    + intros [H|[sl' [E [[init [src [Hf [Hg [Hne Hu]]]]]|H]]]]; [now left| |].
      * injection E as <-. right. left. rewrite Hf, Hg.
        apply truthy_true in Hne. rewrite Hne. now left.
      * injection E as <-. right. now right.
  - simpl. split; [intros [H|[]]; now left|].
    intros [H|[sl [E _]]]; [now left | discriminate].
Qed.

Lemma X4_segment_list_witness :
  In "http://h/d/a.m4s"
    (keys (parse_segment_list rep_list_and_template adp_list_and_template
             "http://h/d/m.mpd" [])).
Proof.
  apply (proj2 (X4_segment_list_urls rep_list_and_template adp_list_and_template
                  "http://h/d/m.mpd" [] "http://h/d/a.m4s")).
  right. eexists. split; [reflexivity|]. right.
  exists (node "SegmentURL" [("media", "a.m4s")] []), "a.m4s".
  repeat split; [vm_compute; auto | discriminate].
Defined.

(* ------------------------------------------------------------------ *)
(** * Number substitution *)

Lemma all_chars_app (p : ascii -> bool) (a b : string) :
  Url.all_chars p (a ++ b) = Url.all_chars p a && Url.all_chars p b.
Proof.
  induction a as [|c a IH]; simpl; [reflexivity|].
  now rewrite IH, andb_assoc.
Qed.

Lemma uint_numeric (d : Decimal.uint) :
  Url.all_chars is_numeric (NilEmpty.string_of_uint d) = true.
Proof. induction d; simpl; auto. Qed.

Lemma str_numeric (n : Z) :
  Url.all_chars is_numeric (Py.str n) = true /\ Py.str n <> "".
Proof.
  unfold Py.str.
  assert (H : forall d, Url.all_chars is_numeric (NilZero.string_of_uint d) = true
                        /\ NilZero.string_of_uint d <> "").
  { intros d. split.
    - destruct d; try apply (uint_numeric (_ d)); reflexivity.
    - destruct d; discriminate. }
  destruct (Z.to_int n) as [d|d]; simpl.
  - apply H.
  - split; [apply H | discriminate].
Qed.

Lemma zeros_numeric (k : nat) : Url.all_chars is_numeric (Py.zeros k) = true.
Proof. induction k; simpl; auto. Qed.

Lemma format_numeric (w : nat) (n : Z) :
  Url.all_chars is_numeric (Py.format_0d w n) = true /\ Py.format_0d w n <> "".
Proof.
  unfold Py.format_0d. destruct (str_numeric (Z.abs n)) as [Hd Hne]. split.
  - rewrite !all_chars_app, zeros_numeric, Hd. now destruct (n <? 0)%Z.
  - destruct (n <? 0)%Z; simpl; [discriminate|].
    destruct (Py.zeros _); simpl; [assumption | discriminate].
Qed.

Lemma number_repl_numeric (n : Z) (w : option string) :
  exists d r, number_repl n w = String d r
              /\ is_numeric d = true /\ Url.all_chars is_numeric r = true.
Proof.
  assert (H : Url.all_chars is_numeric (number_repl n w) = true
              /\ number_repl n w <> "").
  { unfold number_repl. destruct w as [ds|]; [|apply str_numeric].
    destruct (Py.digits_val 0 false ds); [apply format_numeric | apply str_numeric]. }
  destruct H as [Ha Hne]. destruct (number_repl n w) as [|d r]; [congruence|].
  simpl in Ha. apply andb_prop in Ha. exists d, r. tauto.
Qed.

Lemma prefix_cons (a c : ascii) (p s : string) :
  prefix (String a p) (String c s) = true <-> a = c /\ prefix p s = true.
Proof.
  cbn [prefix]. destruct (ascii_dec a c) as [E|E]; split; intuition congruence.
Qed.

Lemma prefix_empty (s : string) : prefix "" s = true.
Proof. now destruct s. Qed.

Lemma contains_cons (p : string) (c : ascii) (s : string) :
  Py.contains p (String c s) = prefix p (String c s) || Py.contains p s.
Proof. reflexivity. Qed.

Section Substitution.

Variable number : Z.
Variable p : string.
Variable a : ascii.
Variable p' : string.
Hypothesis p_cons : p = String a p'.
Hypothesis p_non_numeric : non_numeric p = true.

Lemma prefix_through_substitution :
  forall q : string,
    non_numeric q = true ->
    forall s, prefix q (sub_number_go number 0 s) = true -> prefix q s = true.
Proof.
  induction q as [|b q IH]; intros Hq s H; [apply prefix_empty|].
  unfold non_numeric in Hq. simpl in Hq. apply andb_prop in Hq.
  destruct Hq as [Hb Hq].
  destruct s as [|c s]; [discriminate H|].
  cbn [sub_number_go] in H.
  destruct (match_number_token (String c s)) as [[w len]|].
  - destruct (number_repl_numeric number w) as [d [r [E [Hd _]]]].
    rewrite E in H. simpl append in H. apply prefix_cons in H.
    destruct H as [-> _]. rewrite Hd in Hb. discriminate.
  - apply prefix_cons in H. destruct H as [-> H].
    apply prefix_cons. split; [reflexivity|]. now apply IH.
Qed.

Lemma contains_past_numeric (r X : string) :
  Url.all_chars is_numeric r = true ->
  Py.contains p (r ++ X) = Py.contains p X.
Proof.
  intros Hr. induction r as [|d r IH]; [reflexivity|].
  simpl in Hr. apply andb_prop in Hr. destruct Hr as [Hd Hr].
  simpl append. rewrite contains_cons, (IH Hr).
  assert (E : prefix p (String d (r ++ X)) = false).
  { rewrite p_cons. destruct (prefix _ _) eqn:P; [|reflexivity].
    apply prefix_cons in P. destruct P as [-> _].
    unfold non_numeric in p_non_numeric. rewrite p_cons in p_non_numeric.
    simpl in p_non_numeric. rewrite Hd in p_non_numeric. discriminate. }
  now rewrite E.
Qed.

Lemma contains_through_substitution :
  forall (s : string) (k : nat),
    Py.contains p (sub_number_go number k s) = true -> Py.contains p s = true.
Proof.
  induction s as [|c s IH]; intros k H.
  - simpl in H. rewrite p_cons in H. discriminate H.
  - rewrite contains_cons. apply orb_true_iff.
    cbn [sub_number_go] in H. destruct k as [|k].
    + destruct (match_number_token (String c s)) as [[w len]|] eqn:M.
      * destruct (number_repl_numeric number w) as [d [r [E [Hd Hr]]]].
        rewrite contains_past_numeric in H
          by (rewrite E; simpl; now rewrite Hd, Hr).
        right. now apply (IH (len - 1)).
      * rewrite contains_cons in H. apply orb_true_iff in H.
        destruct H as [H|H]; [|right; now apply (IH 0)].
        left. apply (prefix_through_substitution p p_non_numeric).
        cbn [sub_number_go]. now rewrite M.
    + right. now apply (IH k).
Qed.

End Substitution.

(** The substitution of the number does not bring [$Time$] into a
    pattern that did not hold it. *)
Lemma no_time_after_number (n : Z) (s : string) :
  Py.contains "$Time$" s = false -> Py.contains "$Time$" (sub_number n s) = false.
Proof.
  intros H. destruct (Py.contains "$Time$" (sub_number n s)) eqn:E; [|reflexivity].
  unfold sub_number in E.
  apply (contains_through_substitution n "$Time$" "$" "Time$" eq_refl eq_refl) in E.
  congruence.
Qed.

Lemma match_number_token_prefix (s : string) (r : option string * nat) :
  match_number_token s = Some r -> prefix "$Number" s = true.
Proof.
  unfold match_number_token. now destruct (prefix "$Number" s).
Qed.

Lemma sub_number_absent (n : Z) (s : string) :
  Py.contains "$Number" s = false -> sub_number n s = s.
Proof.
  unfold sub_number. induction s as [|c s IH]; intros H; [reflexivity|].
  rewrite contains_cons in H. apply orb_false_iff in H. destruct H as [Hp Hc].
  cbn [sub_number_go].
  destruct (match_number_token (String c s)) as [r|] eqn:M.
  - apply match_number_token_prefix in M. congruence.
  - now rewrite IH.
Qed.

Section Numbered.

Variable media : string.
Variable rep : Element.
Variable base : string.
Hypothesis no_time : Py.contains "$Time$" media = false.

(** With a number and without [$Time$] the expansion cannot raise. *)
Lemma expand_number (i : Z) :
  expand_media_template media rep (Some i) None
  = Ok (number_segment media rep i).
Proof.
  unfold expand_media_template, number_segment.
  assert (E : (if Py.contains "$Number" media
               then Ok (sub_number i media) else Ok media)
              = Ok (sub_number i media)).
  { destruct (Py.contains "$Number" media) eqn:E; [reflexivity|].
    now rewrite sub_number_absent. }
  rewrite E, bind_Ok, (no_time_after_number i media no_time), bind_Ok.
  now rewrite !replace_if_present.
Qed.

Lemma numbered_urls_spec (n : nat) :
  forall i : Z,
    numbered_urls n media rep base i
    = Ok (map (fun k => join_url base (number_segment media rep (i + Z.of_nat k)))
            (seq 0 n)).
Proof.
  induction n as [|n IH]; intros i; [reflexivity|].
  cbn [numbered_urls]. rewrite expand_number, bind_Ok, IH, bind_Ok.
  cbn [seq map]. rewrite Z.add_0_r. do 2 f_equal.
  rewrite <- seq_shift, map_map. apply map_ext. intros k.
  replace (i + 1 + Z.of_nat k)%Z with (i + Z.of_nat (S k))%Z by lia.
  reflexivity.
Qed.

End Numbered.

(** Substitution brings no square bracket into a text that has none. *)
Lemma all_chars_replace_go (q : ascii -> bool) (old new : string) (s : string) :
  Url.all_chars q new = true ->
  Url.all_chars q s = true ->
  forall skip, Url.all_chars q (Py.replace_go old new skip s) = true.
Proof.
  intros Hn. induction s as [|c s IH]; intros Hs skip; [reflexivity|].
  simpl in Hs. apply andb_prop in Hs. destruct Hs as [Hc Hs].
  cbn [Py.replace_go]. destruct skip as [|k]; [|now apply IH].
  destruct (prefix old (String c s)).
  - rewrite all_chars_app, Hn. now apply IH.
  - simpl. rewrite Hc. now apply IH.
Qed.

Lemma all_chars_weaken (p q : ascii -> bool) (s : string) :
  (forall c, p c = true -> q c = true) ->
  Url.all_chars p s = true -> Url.all_chars q s = true.
Proof.
  intros Hpq. induction s as [|c s IH]; intros H; [reflexivity|].
  simpl in *. apply andb_prop in H. destruct H as [Hc Hs].
  now rewrite (Hpq c Hc), IH.
Qed.

Lemma numeric_not_bracket (c : ascii) :
  is_numeric c = true -> negb (is_bracket c) = true.
Proof.
  destruct c as [[] [] [] [] [] [] [] []]; intros H; try reflexivity;
    discriminate H.
Qed.

Lemma no_brackets_sub_number_go (n : Z) (s : string) :
  no_brackets s = true ->
  forall skip, no_brackets (sub_number_go n skip s) = true.
Proof.
  unfold no_brackets. induction s as [|c s IH]; intros Hs skip; [reflexivity|].
  simpl in Hs. apply andb_prop in Hs. destruct Hs as [Hc Hs].
  cbn [sub_number_go]. destruct skip as [|k]; [|now apply IH].
  destruct (match_number_token (String c s)) as [[w len]|].
  - rewrite all_chars_app, IH by assumption.
    destruct (number_repl_numeric n w) as [d [r [E [Hd Hr]]]].
    rewrite E. simpl.
    rewrite (numeric_not_bracket d Hd).
    now rewrite (all_chars_weaken _ _ r numeric_not_bracket Hr).
  - simpl. rewrite Hc. now apply IH.
Qed.

Lemma no_brackets_number_segment (media : string) (rep : Element) (i : Z) :
  no_brackets media = true ->
  no_brackets (Py.or_default (get rep "id") "") = true ->
  no_brackets (Py.or_default (get rep "bandwidth") "") = true ->
  no_brackets (number_segment media rep i) = true.
Proof.
  intros Hm Hi Hb. unfold number_segment, Py.replace, no_brackets.
  apply all_chars_replace_go; [exact Hb|].
  apply all_chars_replace_go; [exact Hi|].
  now apply no_brackets_sub_number_go.
Qed.

Lemma no_brackets_initialize (pat : string) (rep : Element) :
  no_brackets pat = true ->
  no_brackets (Py.or_default (get rep "id") "") = true ->
  no_brackets (Py.or_default (get rep "bandwidth") "") = true ->
  no_brackets (initialize_url_pattern pat rep) = true.
Proof.
  intros Hp Hi Hb. unfold initialize_url_pattern, Py.replace, no_brackets.
  apply all_chars_replace_go; [exact Hb|].
  now apply all_chars_replace_go.
Qed.



(* ------------------------------------------------------------------ *)
(** * The errors of template resolution *)

Lemma int_raises (s : string) (e : exn) : int s = Raise e -> e = ValueError.
Proof.
  unfold int. destruct (Py.int s); [discriminate|]. now intros [= <-].
Qed.

Lemma expand_timed_raises (pat : string) (rep : Element) (t : Z) (e : exn) :
  expand_media_template pat rep None (Some t) = Raise e ->
  e = RuntimeError number_none_msg /\ Py.contains "$Number" pat = true.
Proof.
  unfold expand_media_template.
  destruct (Py.contains "$Number" pat); cbn [bind].
  - intros [= <-]. now split.
  - destruct (Py.contains "$Time$" pat); cbn [bind]; discriminate.
Qed.

Lemma expand_numbered_raises (pat : string) (rep : Element) (i : Z) (e : exn) :
  expand_media_template pat rep (Some i) None = Raise e ->
  e = RuntimeError time_none_msg.
Proof.
  unfold expand_media_template.
  destruct (Py.contains "$Number" pat); cbn [bind];
    match goal with |- context [Py.contains "$Time$" ?o] =>
      destruct (Py.contains "$Time$" o) end; cbn [bind];
    try discriminate; now intros [= <-].
Qed.

Section TemplateErrors.

Variable media : string.
Variable rep : Element.
Variable base : string.

Lemma timed_urls_raises (d : option string) (n : nat) :
  forall (c : Z) (e : exn),
    timed_urls n media rep base d c = Raise e -> timeline_error media e.
Proof.
  induction n as [|n IH]; intros c e; cbn [timed_urls]; [discriminate|].
  destruct (expand_media_template media rep None (Some c)) as [seg|e1] eqn:E1;
    cbn [bind].
  - destruct d as [ds|]; cbn [bind].
    + destruct (int ds) as [dv|e2] eqn:E2; cbn [bind].
      * destruct (timed_urls n media rep base (Some ds) (c + dv)) eqn:E3;
          cbn [bind]; [discriminate|].
        intros [= <-]. now apply (IH _ _ E3).
      * intros [= <-]. left. now apply (int_raises ds).
    + destruct (timed_urls n media rep base None c) eqn:E3;
        cbn [bind]; [discriminate|].
      intros [= <-]. now apply (IH _ _ E3).
  - intros [= <-]. right. now apply (expand_timed_raises media rep c).
Qed.

Lemma entry_urls_raises (s : Element) (cur : option Z) (e : exn) :
  entry_urls media rep base s cur = Raise e -> timeline_error media e.
Proof.
  unfold entry_urls.
  destruct (int (Py.or_default (get s "r") "0")) as [r|e1] eqn:E1; cbn [bind].
  - match goal with |- context [bind ?m _] =>
      match m with
      | match get s "t" with _ => _ end => destruct m as [c|e2] eqn:E2
      end
    end; cbn [bind].
    + destruct (timed_urls _ media rep base (get s "d") c) eqn:E3;
        cbn [bind]; [discriminate|].
      intros [= <-]. now apply (timed_urls_raises _ _ _ _ E3).
    + intros [= <-]. left.
      destruct (get s "t") as [ts|]; [now apply (int_raises ts)|].
      destruct cur; discriminate.
  - intros [= <-]. left. now apply (int_raises _ _ E1).
Qed.

Lemma timeline_urls_raises (ss : list Element) :
  forall (cur : option Z) (e : exn),
    timeline_urls media rep base ss cur = Raise e -> timeline_error media e.
Proof.
  induction ss as [|s ss IH]; intros cur e; cbn [timeline_urls]; [discriminate|].
  destruct (entry_urls media rep base s cur) as [st|e1] eqn:E1; cbn [bind].
  - destruct (timeline_urls media rep base ss (snd st)) eqn:E2;
      cbn [bind]; [discriminate|].
    intros [= <-]. now apply (IH _ _ E2).
  - intros [= <-]. now apply (entry_urls_raises _ _ _ E1).
Qed.

Lemma numbered_urls_raises (n : nat) :
  forall (i : Z) (e : exn),
    numbered_urls n media rep base i = Raise e -> e = RuntimeError time_none_msg.
Proof.
  induction n as [|n IH]; intros i e; cbn [numbered_urls]; [discriminate|].
  destruct (expand_media_template media rep (Some i) None) as [seg|e1] eqn:E1;
    cbn [bind].
  - destruct (numbered_urls n media rep base (i + 1)) eqn:E2;
      cbn [bind]; [discriminate|].
    intros [= <-]. now apply (IH _ _ E2).
  - intros [= <-]. now apply (expand_numbered_raises media rep i).
Qed.

End TemplateErrors.



(** X7.  A repeat count below zero emits nothing: the entry leaves the
    registry as it is, whatever the pattern and the duration attribute,
    and only sets the cursor. *)
Theorem X7_negative_repeat_emits_nothing :
  forall media rep base s items cur r c,
    int (Py.or_default (get s "r") "0") = Ok r ->
    (r < 0)%Z ->
    match get s "t" with
    | Some ts => int ts = Ok c
    | None => cursor_is cur c
    end ->
    timeline_entry media rep base s items cur = Ok (items, Some c).
Proof.
  intros media rep base s items cur r c Hr Hneg Ht.
  unfold timeline_entry. rewrite Hr, bind_Ok.
  assert (Hc : match get s "t" with
               | Some ts => int ts
               | None => match cur with None => Ok 0%Z | Some c' => Ok c' end
               end = Ok c).
  { destruct (get s "t") as [ts|]; [assumption|].
    destruct cur as [c'|]; simpl in Ht; now subst. }
  rewrite Hc, bind_Ok.
  replace (Z.to_nat (r + 1)) with 0 by lia. reflexivity.
Qed.

Lemma X7_negative_repeat_witness :
  int (Py.or_default (get (node "S" [("t", "5"); ("d", "x"); ("r", "-1")] []) "r") "0")
  = Ok (-1)%Z
  /\ (-1 < 0)%Z
  /\ timeline_entry "seg-$Number$.m4s" rep_plain "http://h/d/"
       (node "S" [("t", "5"); ("d", "x"); ("r", "-1")] []) [] None
     = Ok ([], Some 5%Z).
Proof.
  split; [reflexivity|]. split; [lia|].
  apply (X7_negative_repeat_emits_nothing "seg-$Number$.m4s" rep_plain "http://h/d/"
           (node "S" [("t", "5"); ("d", "x"); ("r", "-1")] []) [] None (-1)%Z 5%Z).
  - reflexivity.
  - lia.
  - reflexivity.
Defined.

(* ------------------------------------------------------------------ *)
(** * The collection loop *)

Lemma collect_loop_app (getenv : string -> option string) (args : Args)
    (t1 t2 : list (Element * Element * string)) :
  forall items,
    collect_loop getenv args (t1 ++ t2) items
    = (mid <- collect_loop getenv args t1 items ;;
       collect_loop getenv args t2 mid).
Proof.
  induction t1 as [|tr t1 IH]; intros items; [reflexivity|].
  simpl app. cbn [collect_loop].
  destruct (collect_one getenv args tr items) as [items1|e]; cbn [bind];
    [apply IH | reflexivity].
Qed.

Lemma add_item_appends (items : Dict) (u : string) :
  Forall entry_ok items -> exists tail, add_item items u = (items ++ tail)%list.
Proof.
  unfold add_item. induction 1 as [|[k v] rest [Hk Hr] _ [tail IH]]; simpl.
  - now exists [(u, mkDownloadItem u (ensure_relpath_from_url u))].
  - destruct (String.eqb_spec k u) as [->|N].
    + exists []. rewrite app_nil_r. destruct v as [vu vr]. simpl in *.
      now subst.
    + exists tail. now rewrite IH.
Qed.

Lemma register_appends (urls : list string) :
  forall items,
    Forall entry_ok items ->
    exists tail, register urls items = (items ++ tail)%list.
Proof.
  induction urls as [|u urls IH]; intros items H.
  - exists []. now rewrite app_nil_r.
  - destruct (add_item_appends items u H) as [t1 E1].
    destruct (IH (add_item items u) (entry_ok_dict_set items u H)) as [t2 E2].
    exists (t1 ++ t2)%list.
    change (register (u :: urls) items) with (register urls (add_item items u)).
    now rewrite E2, E1, app_assoc.
Qed.

(** X8.  The registry only grows at its end.  Whatever the loop of
    [collect_items] registers for further pairs comes after the items of
    the pairs before them: the list for a prefix of the pairs is a
    prefix of the list for all of them, entry by entry. *)
Theorem X8_collection_appends :
  forall getenv args t1 t2 final,
    collect_loop getenv args (t1 ++ t2) [] = Ok final ->
    exists mid tail,
      collect_loop getenv args t1 [] = Ok mid
      /\ final = (mid ++ tail)%list.
Proof.
  intros getenv args t1 t2 final. rewrite collect_loop_app.
  destruct (collect_loop getenv args t1 []) as [mid|e] eqn:E1; [|discriminate].
  rewrite bind_Ok. intros E2. exists mid.
  destruct (collect_loop_registers _ _ _ _ _ E1) as [u1 ->].
  destruct (collect_loop_registers _ _ _ _ _ E2) as [u2 ->].
  destruct (register_appends u2 (register u1 []))
    as [tail Ht]; [apply entry_ok_register; constructor|].
  exists tail. now split.
Qed.

Lemma X8_collection_appends_witness :
  collect_loop no_env no_filters
    ([(rep_list_and_template, adp_list_and_template, "http://h/d/m.mpd")]
     ++ [(rep_file_b, adp_two_files, "http://h/d/b.mp4")]) []
  = Ok (register ["http://h/d/a.m4s"; "http://h/d/t-0.m4s";
                  "http://h/d/t-2.m4s"; "http://h/d/t-4.m4s"] [])
  /\ exists mid tail,
       collect_loop no_env no_filters
         [(rep_list_and_template, adp_list_and_template, "http://h/d/m.mpd")] []
       = Ok mid
       /\ register ["http://h/d/a.m4s"; "http://h/d/t-0.m4s";
                    "http://h/d/t-2.m4s"; "http://h/d/t-4.m4s"] []
          = (mid ++ tail)%list.
Proof.
  assert (H : collect_loop no_env no_filters
                ([(rep_list_and_template, adp_list_and_template, "http://h/d/m.mpd")]
                 ++ [(rep_file_b, adp_two_files, "http://h/d/b.mp4")]) []
              = Ok (register ["http://h/d/a.m4s"; "http://h/d/t-0.m4s";
                              "http://h/d/t-2.m4s"; "http://h/d/t-4.m4s"] []))
    by (vm_compute; reflexivity).
  split; [exact H|].
  exact (X8_collection_appends _ _ _ _ _ H).
Defined.

Lemma matches_no_filters (rep adp : Element) :
  matches_filters rep adp no_filters = true.
Proof. reflexivity. Qed.

(** X9.  Filtering is the same as leaving the unselected pairs out: the
    loop over all pairs under the filters gives what the loop without
    filters gives over the selected pairs alone, errors included.  In
    particular, when no pair is selected the result is the starting
    registry and nothing is raised. *)
Theorem X9_filters_drop_pairs :
  forall getenv args triples items,
    collect_loop getenv args triples items
    = collect_loop getenv no_filters (filter (selected args) triples) items
    /\ (filter (selected args) triples = [] ->
        collect_loop getenv args triples items = Ok items).
Proof.
  intros getenv args triples.
  assert (H : forall items,
             collect_loop getenv args triples items
             = collect_loop getenv no_filters (filter (selected args) triples) items).
  { induction triples as [|[[rep adp] eff] rest IH]; intros items; [reflexivity|].
    cbn [collect_loop filter selected].
    destruct (matches_filters rep adp args) eqn:Hm.
    - cbn [collect_loop].
      assert (E : collect_one getenv args (rep, adp, eff) items
                  = collect_one getenv no_filters (rep, adp, eff) items).
      { unfold collect_one. now rewrite Hm, matches_no_filters. }
      rewrite E.
      destruct (collect_one getenv no_filters (rep, adp, eff) items);
        cbn [bind]; [apply IH | reflexivity].
    - unfold collect_one at 1. rewrite Hm. simpl negb. cbv iota.
      rewrite bind_Ok. apply IH. }
  intros items. split; [apply H|].
  intros E. now rewrite H, E.
Qed.

Lemma X9_filters_drop_pairs_witness :
  filter (selected (mkArgs (Some ["none"]) None))
    [(rep_number_template, adp_number_template, "http://h/d/")] = []
  /\ collect_loop no_env (mkArgs (Some ["none"]) None)
       [(rep_number_template, adp_number_template, "http://h/d/")] [] = Ok [].
Proof.
  assert (H : filter (selected (mkArgs (Some ["none"]) None))
                [(rep_number_template, adp_number_template, "http://h/d/")] = [])
    by reflexivity.
  split; [exact H|].
  exact (proj2 (X9_filters_drop_pairs no_env (mkArgs (Some ["none"]) None)
                  [(rep_number_template, adp_number_template, "http://h/d/")] [])
           H).
Defined.

(* ------------------------------------------------------------------ *)
(** * Destination paths *)

Lemma lstrip_no_leading_slash (s : string) :
  prefix "/" (Py.lstrip_char "/" s) = false.
Proof.
  unfold Py.lstrip_char. induction s as [|c s IH]; [reflexivity|].
  cbn [Py.lstrip_by]. destruct (Ascii.eqb_spec "/" c) as [E|N]; [exact IH|].
  cbn [prefix]. destruct (ascii_dec "/" c); [contradiction | reflexivity].
Qed.

Lemma prefix_slash_app (a b : string) :
  a <> "" -> prefix "/" (a ++ b) = prefix "/" a.
Proof.
  destruct a as [|c a]; [congruence|]. intros _. simpl append.
  cbn [prefix]. destruct (ascii_dec "/" c); [|reflexivity].
  now rewrite !prefix_empty.
Qed.

Lemma no_slash_no_prefix (q : string) :
  Py.has_char "/" q = false -> prefix "/" q = false.
Proof.
  destruct q as [|c q]; [reflexivity|]. cbn [Py.has_char prefix].
  intros H. apply orb_false_iff in H. destruct H as [H _].
  destruct (ascii_dec "/" c) as [<-|N]; [discriminate H | reflexivity].
Qed.

(** X10.  The relative path of a URL never starts with a slash, so
    joining it to the output directory never discards the directory:
    the destination is the output directory, a slash unless the
    directory is empty or ends with one, and the relative path. *)
Theorem X10_destination_under_outdir :
  forall outdir u,
    prefix "/" (ensure_relpath_from_url u) = false
    /\ OsPath.join outdir (ensure_relpath_from_url u)
       = outdir
         ++ (if negb (Py.truthy outdir) || OsPath.endswith_char "/" outdir
             then "" else "/")
         ++ ensure_relpath_from_url u.
Proof.
  intros outdir u.
  assert (H : prefix "/" (ensure_relpath_from_url u) = false).
  { unfold ensure_relpath_from_url.
    set (rel := Py.lstrip_char "/" (Url.path (Url.urlparse u))).
    pose proof (lstrip_no_leading_slash (Url.path (Url.urlparse u))) as Hrel.
    fold rel in Hrel.
    destruct (Py.truthy (Url.query (Url.urlparse u))); [|exact Hrel].
    pose proof (no_slash_no_prefix _ (quote_plus_no_slash (Url.query (Url.urlparse u))))
      as Hq.
    unfold OsPath.join. rewrite Hq.
    destruct rel as [|c r] eqn:E; [exact Hq|].
    destruct (negb _ || _); rewrite prefix_slash_app; (exact Hrel || discriminate). }
  split; [exact H|].
  unfold OsPath.join. rewrite H.
  now destruct (negb (Py.truthy outdir) || OsPath.endswith_char "/" outdir).
Qed.

(* ------------------------------------------------------------------ *)
(** * Patterns without number and time *)

Lemma no_dollar_no_token (a : ascii) (p s : string) :
  a = "$"%char -> Py.has_char "$" s = false -> Py.contains (String a p) s = false.
Proof.
  intros ->. induction s as [|c s IH]; intros H; [reflexivity|].
  cbn [Py.has_char] in H. apply orb_false_iff in H. destruct H as [Hc Hs].
  rewrite contains_cons, (IH Hs), orb_false_r.
  cbn [prefix]. destruct (ascii_dec "$" c) as [<-|N]; [discriminate Hc|reflexivity].
Qed.

(** X11.  On a pattern that holds neither [$Number] nor [$Time$] the
    media expansion never raises and is the initialization expansion,
    whatever number and time are passed; a pattern without any dollar
    sign comes back as it is from both. *)
Theorem X11_expansion_without_number_and_time :
  forall pat rep number time,
    (Py.contains "$Number" pat = false ->
     Py.contains "$Time$" pat = false ->
     expand_media_template pat rep number time
     = Ok (initialize_url_pattern pat rep))
    /\ (Py.has_char "$" pat = false ->
        expand_media_template pat rep number time = Ok pat
        /\ initialize_url_pattern pat rep = pat).
Proof.
  intros pat rep number time.
  assert (H : Py.contains "$Number" pat = false ->
              Py.contains "$Time$" pat = false ->
              expand_media_template pat rep number time
              = Ok (initialize_url_pattern pat rep)).
  { intros Hn Ht. unfold expand_media_template, initialize_url_pattern.
    rewrite Hn, bind_Ok, Ht, bind_Ok. now rewrite !replace_if_present. }
  split; [exact H|].
  intros Hd.
  assert (Hi : initialize_url_pattern pat rep = pat).
  { unfold initialize_url_pattern.
    rewrite (replace_absent "$RepresentationID$" _ pat)
      by (now apply no_dollar_no_token).
    apply replace_absent. now apply no_dollar_no_token. }
  split; [|exact Hi].
  rewrite H by (now apply no_dollar_no_token). now rewrite Hi.
Qed.

Lemma X11_expansion_witness :
  Py.contains "$Number" "$RepresentationID$/init.mp4" = false
  /\ Py.contains "$Time$" "$RepresentationID$/init.mp4" = false
  /\ expand_media_template "$RepresentationID$/init.mp4" rep_plain None None
     = Ok "v/init.mp4".
Proof.
  split; [reflexivity|]. split; [reflexivity|].
  exact (proj1 (X11_expansion_without_number_and_time
                  "$RepresentationID$/init.mp4" rep_plain None None)
           eq_refl eq_refl).
Defined.

(* ------------------------------------------------------------------ *)
(** * The download loop on any endpoint *)

Lemma backoff_bounds (k : nat) : (2 <= backoff (S k) <= 10)%Z.
Proof.
  unfold backoff. rewrite Nat2Z.inj_succ, Z.pow_succ_r by lia.
  assert (0 < 2 ^ Z.of_nat k)%Z by (apply Z.pow_pos_nonneg; lia).
  lia.
Qed.

(** X12.  Whatever the endpoint does, a call with [retries >= 0] on an
    item that passes the domain gate first makes the directory of the
    destination.  When that raises, the exception leaves the call and
    nothing is requested.  Otherwise the call returns a result for the
    item's URL after [m + 1] requests, [m] being at most [retries]:
    the first request, and after each of the [m] failed ones a sleep
    of [min(2^k, 10)] seconds, between 2 and 10, and the next request;
    nothing follows the last request.  Every request but the last has
    failed, and the result is the outcome of the last one: success, or
    its error text, the latter only once the retries are used up. *)
Theorem X12_download_any_endpoint :
  forall fuel fs endpoint item outdir retries only_domain verbose,
    (0 <= retries)%Z ->
    check_domain (url item) only_domain = true ->
    Z.to_nat retries < fuel ->
    match os_makedirs fs (OsPath.dirname (OsPath.join outdir (relpath item))) with
    | Some msg =>
        download_one fuel fs endpoint item outdir retries only_domain verbose
        = Some (Raise (OSError msg),
                [Makedirs (OsPath.dirname (OsPath.join outdir (relpath item)))])
    | None =>
        exists m,
          m <= Z.to_nat retries
          /\ (forall k, k < m -> endpoint k <> None)
          /\ (endpoint m <> None -> m = Z.to_nat retries)
          /\ download_one fuel fs endpoint item outdir retries only_domain verbose
             = Some (Ok (Some (url item,
                               match endpoint m with
                               | None => true
                               | Some _ => false
                               end,
                               endpoint m)),
                     Makedirs (OsPath.dirname (OsPath.join outdir (relpath item)))
                     :: attempts_trace item retries verbose (error_text endpoint) m)
          /\ without_log (attempts_trace item retries verbose (error_text endpoint) m)
             = HttpGet (url item)
               :: flat_map (fun k => [Sleep (backoff k); HttpGet (url item)])
                    (seq 1 m)
          /\ Forall (fun k => (2 <= backoff k <= 10)%Z) (seq 1 m)
    end.
Proof.
  intros fuel fs endpoint item outdir retries only_domain verbose Hr Hd Hfuel.
  destruct (os_makedirs fs _) as [msg|] eqn:Hm.
  - now apply download_one_makedirs_raises.
  - destruct (download_one_trace fuel fs endpoint item outdir retries only_domain
                verbose Hr Hd Hm Hfuel) as [m [Hle [Hne [Hl E]]]].
    exists m. repeat split; try assumption.
    + apply without_log_attempts.
    + apply Forall_forall. intros k Hk. apply in_seq in Hk.
      destruct k as [|k]; [lia|]. apply backoff_bounds.
Qed.

Lemma X12_download_any_endpoint_witness :
  (0 <= 2)%Z
  /\ check_domain "http://h/v/seg.m4s" (Some "h") = true
  /\ download_one 3 (fun _ => None) (fun _ => Some "timeout")
       (mkDownloadItem "http://h/v/seg.m4s" "v/seg.m4s") "out" 2 (Some "h") true
     = Some (Ok (Some ("http://h/v/seg.m4s", false, Some "timeout")),
             [Makedirs "out/v"; HttpGet "http://h/v/seg.m4s";
              Stdout "Retry 1/2: http://h/v/seg.m4s (timeout)"; Sleep 2;
              HttpGet "http://h/v/seg.m4s";
              Stdout "Retry 2/2: http://h/v/seg.m4s (timeout)"; Sleep 4;
              HttpGet "http://h/v/seg.m4s"]).
Proof.
  split; [lia|]. split; [reflexivity|].
  destruct (X12_download_any_endpoint 3 (fun _ => None) (fun _ => Some "timeout")
              (mkDownloadItem "http://h/v/seg.m4s" "v/seg.m4s") "out" 2%Z
              (Some "h") true) as [m [Hle [_ [Hl [E _]]]]].
  - lia.
  - reflexivity.
  - simpl. lia.
  - assert (Hm : m = 2) by (apply Hl; discriminate).
    rewrite E, Hm. reflexivity.
Defined.

Lemma attempt_loop_verbose (endpoint : nat -> option string) (item : DownloadItem)
    (retries : Z) (fuel : nat) :
  forall attempt : Z,
    attempt_loop fuel endpoint item retries false attempt
    = option_map (fun rt => (fst rt, without_log (snd rt)))
        (attempt_loop fuel endpoint item retries true attempt).
Proof.
  induction fuel as [|fuel IH]; intros attempt; [reflexivity|].
  cbn [attempt_loop].
  destruct (attempt <=? retries)%Z; [|reflexivity].
  destruct (endpoint (Z.to_nat attempt)) as [e|]; [|reflexivity].
  destruct (attempt + 1 >? retries)%Z; [reflexivity|].
  rewrite IH.
  destruct (attempt_loop fuel endpoint item retries true (attempt + 1))
    as [[r tr]|]; reflexivity.
Qed.

(** X13.  The [verbose] flag only adds log lines: the call without it
    returns the same value and leaves the same trace as the call with
    it, its [Retry] lines taken out. *)
Theorem X13_verbose_only_logs :
  forall fuel fs endpoint item outdir retries only_domain,
    download_one fuel fs endpoint item outdir retries only_domain false
    = option_map (fun rt => (fst rt, without_log (snd rt)))
        (download_one fuel fs endpoint item outdir retries only_domain true).
Proof.
  intros fuel fs endpoint item outdir retries only_domain.
  unfold download_one.
  destruct (negb (check_domain (url item) only_domain)); [reflexivity|].
  cbv zeta. destruct (os_makedirs fs _); [reflexivity|].
  rewrite attempt_loop_verbose.
  destruct (attempt_loop fuel endpoint item retries true 0) as [[r tr]|];
    reflexivity.
Qed.

(* ------------------------------------------------------------------ *)
(** * The domain gate and letter case *)

Lemma lower_char_not_upper (c : ascii) : is_upper (Py.lower_char c) = false.
Proof.
  destruct c as [[] [] [] [] [] [] [] []]; reflexivity.
Qed.

Lemma lower_not_upper (s : string) : has_upper (Py.lower s) = false.
Proof.
  unfold has_upper. apply negb_false_iff.
  induction s as [|c s IH]; simpl; [reflexivity|].
  now rewrite lower_char_not_upper, IH.
Qed.

Lemma hostname_shape (p : Url.ParseResult) (x : string) :
  Url.hostname p = Some x ->
  has_upper x = false \/ Py.has_char "%" x = true.
Proof.
  unfold Url.hostname.
  match goal with |- context [negb (Py.truthy ?h)] => generalize h end.
  intros host. destruct (negb (Py.truthy host)); [discriminate|].
  destruct (Py.split1 "%" host) as [[h zone]|].
  - intros [= <-]. right. rewrite has_char_app. simpl. apply orb_true_r.
  - intros [= <-]. left. apply lower_not_upper.
Qed.

(** X14.  The gate compares the configured domain with the lower-cased
    host of the URL.  A configured domain that holds an upper-case
    letter (and no percent sign) therefore matches no URL at all: every
    item is reported failed with "wrong domain" and nothing is
    requested. *)
Theorem X14_upper_case_domain_rejects_all :
  forall fuel fs endpoint item outdir retries d verbose,
    has_upper d = true ->
    Py.has_char "%" d = false ->
    check_domain (url item) (Some d) = false
    /\ download_one fuel fs endpoint item outdir retries (Some d) verbose
       = Some (Ok (Some (url item, false, Some "wrong domain")), []).
Proof.
  intros fuel fs endpoint item outdir retries d verbose Hu Hp.
  assert (Hc : check_domain (url item) (Some d) = false).
  { unfold check_domain. simpl Py.opt_truthy.
    assert (Hd : Py.truthy d = true)
      by (apply truthy_true; intros ->; discriminate Hu).
    rewrite Hd. simpl negb. cbv iota.
    destruct (Url.hostname (Url.urlparse (url item))) as [x|] eqn:E; [|reflexivity].
    simpl. destruct (String.eqb_spec x d) as [->|N]; [|reflexivity].
    destruct (hostname_shape _ _ E); congruence. }
  split; [exact Hc|].
  unfold download_one. now rewrite Hc.
Qed.

Lemma X14_upper_case_domain_witness :
  has_upper "CDN.example" = true
  /\ Py.has_char "%" "CDN.example" = false
  /\ check_domain "http://CDN.example/v/seg.m4s" (Some "CDN.example") = false.
Proof.
  split; [reflexivity|]. split; [reflexivity|].
  exact (proj1 (X14_upper_case_domain_rejects_all 0 (fun _ => None) (fun _ => None)
                  (mkDownloadItem "http://CDN.example/v/seg.m4s" "v/seg.m4s")
                  "out" 3%Z "CDN.example" false eq_refl eq_refl)).
Defined.

(* ------------------------------------------------------------------ *)
(** * Headers *)

Lemma header_get_set (headers : Headers) (k v k' : string) :
  header_get (header_set headers k v) k'
  = if k =? k' then Some v else header_get headers k'.
Proof.
  unfold header_get. induction headers as [|[k0 v0] rest IH]; simpl.
  - now destruct (k =? k').
  - destruct (String.eqb_spec k0 k) as [->|N]; simpl.
    + now destruct (k =? k').
    + destruct (String.eqb_spec k0 k') as [->|N'].
      * apply String.eqb_neq in N. rewrite String.eqb_sym in N. now rewrite N.
      * exact IH.
Qed.

Lemma merge_loop_get (hs : list string) (k : string) :
  forall headers,
    header_get (fst (merge_loop hs headers)) k
    = match last_value k hs with
      | Some v => Some v
      | None => header_get headers k
      end.
Proof.
  induction hs as [|h rest IH]; intros headers; [reflexivity|].
  cbn [merge_loop last_value]. unfold header_of.
  destruct (Py.has_char ":" h); simpl negb; cbv iota.
  - destruct (Url.split_at_first ":" h) as [k1 v1].
    rewrite IH, header_get_set.
    destruct (last_value k rest); [reflexivity|].
    now destruct (Py.strip k1 =? k).
  - specialize (IH headers).
    destruct (merge_loop rest headers) as [r w]. simpl fst in *.
    rewrite IH. now destruct (last_value k rest).
Qed.

(** X15.  The value that [merge_headers] leaves under a name is the
    value of the last well-formed line that sets the name, the part
    after the first colon with the white space around name and value
    removed; without such a line it is the configured agent for
    [User-Agent] and nothing for any other name.  Lines without a colon
    set nothing. *)
Theorem X15_merge_headers_last_wins :
  forall user_agent headers k,
    header_get (fst (merge_headers user_agent headers)) k
    = match last_value k (match headers with Some hs => hs | None => [] end) with
      | Some v => Some v
      | None => if "User-Agent" =? k then Some user_agent else None
      end.
Proof.
  intros user_agent headers k. unfold merge_headers. cbv zeta.
  assert (H0 : header_get [("User-Agent", user_agent)] k
               = if "User-Agent" =? k then Some user_agent else None).
  { unfold header_get. cbn [List.find fst].
    now destruct ("User-Agent" =? k). }
  destruct headers as [[|h rest]|]; try exact H0.
  rewrite merge_loop_get, H0. reflexivity.
Qed.

Lemma header_set_keys (headers : Headers) (k v : string) :
  map fst (header_set headers k v)
  = if Url.mem k (map fst headers) then map fst headers
    else (map fst headers ++ [k])%list.
Proof.
  induction headers as [|[k' v'] rest IH]; simpl; [reflexivity|].
  rewrite (String.eqb_sym k k').
  destruct (k' =? k) eqn:E; simpl; [reflexivity|].
  rewrite IH. now destruct (Url.mem k (map fst rest)).
Qed.

Lemma header_set_NoDup (headers : Headers) (k v : string) :
  NoDup (map fst headers) -> NoDup (map fst (header_set headers k v)).
Proof.
  intros H. rewrite header_set_keys.
  destruct (Url.mem k (map fst headers)) eqn:E; [assumption|].
  apply mem_false in E. apply NoDup_app; [assumption | repeat constructor; auto |].
  intros x Hx [<-|[]]. contradiction.
Qed.

Lemma merge_loop_facts (hs : list string) :
  forall headers,
    NoDup (map fst headers) ->
    NoDup (map fst (fst (merge_loop hs headers)))
    /\ snd (merge_loop hs headers)
       = map (fun h => "Warning: bad header: " ++ h)
           (filter (fun h => negb (Py.has_char ":" h)) hs)
    /\ fst (merge_loop hs headers)
       = fst (merge_loop (filter (Py.has_char ":") hs) headers)
    /\ hd_error (map fst (fst (merge_loop hs headers)))
       = match headers with
         | [] => hd_error (map fst (fst (merge_loop hs headers)))
         | kv :: _ => Some (fst kv)
         end.
Proof.
  induction hs as [|h rest IH]; intros headers Hn.
  - simpl. repeat split; try assumption. now destruct headers.
  - cbn [merge_loop filter].
    destruct (Py.has_char ":" h) eqn:Ec; simpl negb; cbv iota.
    + cbn [merge_loop]. rewrite Ec. simpl negb. cbv iota.
      destruct (Url.split_at_first ":" h) as [k1 v1].
      destruct (IH (header_set headers (Py.strip k1) (Py.strip v1))
                  (header_set_NoDup _ _ _ Hn)) as [H1 [H2 [H3 H4]]].
      repeat split; try assumption.
      destruct headers as [|[k0 v0] hrest]; [reflexivity|].
      rewrite H4. simpl. now destruct (k0 =? Py.strip k1).
    + destruct (IH headers Hn) as [H1 [H2 [H3 H4]]].
      destruct (merge_loop rest headers) as [r w]. simpl fst in *. simpl snd in *.
      repeat split; try assumption. now rewrite H2.
Qed.

(** X16.  [merge_headers] warns once for every line without a colon, in
    the order of the lines, and such lines change nothing else: the
    dictionary is the one the remaining lines give.  No name occurs
    twice in it, and [User-Agent] stays its first name. *)
Theorem X16_merge_headers_malformed_lines :
  forall user_agent hs,
    snd (merge_headers user_agent (Some hs))
    = map (fun h => "Warning: bad header: " ++ h)
        (filter (fun h => negb (Py.has_char ":" h)) hs)
    /\ fst (merge_headers user_agent (Some hs))
       = fst (merge_headers user_agent (Some (filter (Py.has_char ":") hs)))
    /\ NoDup (map fst (fst (merge_headers user_agent (Some hs))))
    /\ hd_error (map fst (fst (merge_headers user_agent (Some hs))))
       = Some "User-Agent".
Proof.
  intros user_agent hs.
  assert (Hn : NoDup (map fst [("User-Agent", user_agent)]))
    by (repeat constructor; auto).
  destruct (merge_loop_facts hs [("User-Agent", user_agent)] Hn)
    as [H1 [H2 [H3 H4]]].
  assert (E : forall l, merge_headers user_agent (Some l)
                        = merge_loop l [("User-Agent", user_agent)]).
  { intros l. now destruct l. }
  rewrite !E. repeat split; assumption.
Qed.

(* ------------------------------------------------------------------ *)
(** * The summary of a run *)

Lemma report_loop_counts (verbose : bool) (results : list DownloadResult) :
  forall ok fail,
    exists ls,
      report_loop verbose (map returned results) ok fail
      = (Ok (ok + length (filter (fun r => snd (fst r)) results),
             fail + length (filter (fun r => negb (snd (fst r))) results)),
         ls)
      /\ failure_lines ls
         = length (filter (fun r => negb (snd (fst r))) results).
Proof.
  induction results as [|[[u success] err] rest IH]; intros ok fail.
  - exists []. simpl. now rewrite !Nat.add_0_r.
  - cbn [map returned report_loop]. destruct success.
    + destruct (IH (S ok) fail) as [ls [E Hl]]. rewrite E.
      exists ((if verbose then [Out ("[OK] " ++ u)] else []) ++ ls)%list. split.
      * cbn [filter fst snd negb length]. f_equal. f_equal. f_equal; lia.
      * unfold failure_lines in *. rewrite filter_app, length_app.
        cbn [filter fst snd negb]. destruct verbose; simpl; lia.
    + destruct (IH ok (S fail)) as [ls [E Hl]]. rewrite E.
      exists (Err ("[FAIL] " ++ u ++ " -> "
                   ++ match err with Some e => e | None => "None" end) :: ls). split.
      * cbn [filter fst snd negb length]. f_equal. f_equal. f_equal; lia.
      * unfold failure_lines in *. cbn [filter fst snd negb length]. lia.
Qed.

(** A future that holds no result ends the loop with an exception,
    wherever it stands among the completed ones. *)
Lemma report_loop_raises (verbose : bool) (completed : list Outcome) (o : Outcome) :
  In o completed ->
  (forall r, o <> returned r) ->
  forall ok fail,
    exists e ls, report_loop verbose completed ok fail = (Raise e, ls).
Proof.
  intros Hin Ho. induction completed as [|c rest IH]; [destruct Hin|].
  intros ok fail. cbn [report_loop].
  destruct c as [[[[u success] err]|]|e].
  - destruct Hin as [<-|Hin]; [now destruct (Ho (u, success, err))|].
    destruct success.
    + destruct (IH Hin (S ok) fail) as [e [ls E]]. rewrite E. now eexists _, _.
    + destruct (IH Hin ok (S fail)) as [e [ls E]]. rewrite E. now eexists _, _.
  - now eexists _, _.
  - now eexists _, _.
Qed.

Lemma filter_length_complement {A : Type} (p : A -> bool) (l : list A) :
  length (filter p l) + length (filter (fun x => negb (p x)) l) = length l.
Proof.
  induction l as [|x l IH]; simpl; [reflexivity|].
  destruct (p x); simpl; lia.
Qed.

Lemma Permutation_filter_length {A : Type} (p : A -> bool) (l l' : list A) :
  Permutation l l' -> length (filter p l) = length (filter p l').
Proof.
  induction 1 as [|x l l' _ IH|x y l|l l' l'' _ IH1 _ IH2]; simpl.
  - reflexivity.
  - destruct (p x); simpl; now rewrite IH.
  - destruct (p x), (p y); reflexivity.
  - now rewrite IH1.
Qed.

(** With [retries >= 0] every call of a run ends: each item has its
    outcome, the [OSError] of [os.makedirs] when the item passes the
    gate and its directory cannot be made, and a result for its own URL
    otherwise. *)
Lemma run_downloads_each (fuel : nat) (dirs : string -> string -> option string)
    (world : string -> nat -> option string)
    (outdir : string) (retries : Z) (only_domain : option string)
    (verbose : bool) (items : list DownloadItem) :
  (0 <= retries)%Z ->
  Z.to_nat retries < fuel ->
  exists outcomes,
    run_downloads fuel dirs world items outdir retries only_domain verbose
    = Some outcomes
    /\ Forall2 (fun it o =>
                  if check_domain (url it) only_domain then
                    match os_makedirs (dirs (url it))
                            (OsPath.dirname (OsPath.join outdir (relpath it))) with
                    | Some msg => o = Raise (OSError msg)
                    | None => exists success err, o = returned (url it, success, err)
                    end
                  else exists success err, o = returned (url it, success, err))
         items outcomes.
Proof.
  intros Hr Hfuel. induction items as [|it rest [outcomes [E Hall]]].
  - exists []. split; [reflexivity | constructor].
  - cbn [run_downloads].
    destruct (check_domain (url it) only_domain) eqn:Hd.
    + destruct (os_makedirs (dirs (url it))
                  (OsPath.dirname (OsPath.join outdir (relpath it))))
        as [msg|] eqn:Hm.
      * rewrite (download_one_makedirs_raises fuel _ _ it outdir retries
                   only_domain verbose msg Hd Hm), E.
        eexists. split; [reflexivity|]. constructor; [|exact Hall].
        now rewrite Hd, Hm.
      * destruct (download_one_trace fuel (dirs (url it)) (world (url it)) it
                    outdir retries only_domain verbose Hr Hd Hm Hfuel)
          as [m [_ [_ [_ Ed]]]].
        rewrite Ed, E. eexists. split; [reflexivity|].
        constructor; [|exact Hall]. rewrite Hd, Hm. now eexists _, _.
    + unfold download_one at 1. rewrite Hd. simpl negb. cbv iota. rewrite E.
      eexists. split; [reflexivity|]. constructor; [|exact Hall].
      rewrite Hd. now eexists _, _.
Qed.

(** A pool of no workers is refused before anything is downloaded, and a
    call that returned [None] ends the loop at its turn. *)
Example no_workers :
  download_all (fun _ => None) "out" 0 true [returned ("http://h/a", true, None)]
  = (Raise ValueError, []).
Proof. reflexivity. Qed.

Example nothing_to_unpack :
  download_all (fun _ => None) "out" 8 true
    [returned ("http://h/a", true, None); Ok None;
     returned ("http://h/b", false, Some "HTTP 404")]
  = (Raise TypeError, [Out "[OK] http://h/a"]).
Proof. reflexivity. Qed.

(** X17.  With [retries >= 0] every call of a run ends with an outcome,
    one per item.  When the output directory and the directory of
    every item that passes the gate can be made and the number of
    workers is positive, each outcome is a result for the item's own
    URL and the loop of [main] accounts for each of them once, whatever
    the order in which the downloads complete: the two counters add up
    to the number of items and one failure line is written per failed
    item.  When the number of workers is not positive the executor
    refuses it; and when [os.makedirs] raises for an item, the loop is
    left with an exception in every order of completion, so that no
    summary is written. *)
Theorem X17_summary_accounts_for_every_item :
  forall fuel fs dirs world items outdir concurrency retries only_domain verbose,
    (0 <= retries)%Z ->
    Z.to_nat retries < fuel ->
    exists outcomes,
      run_downloads fuel dirs world items outdir retries only_domain verbose
      = Some outcomes
      /\ length outcomes = length items
      /\ forall completed,
           Permutation outcomes completed ->
           (os_makedirs fs outdir = None ->
            (0 < concurrency)%Z ->
            (forall it, In it items ->
               check_domain (url it) only_domain = true ->
               os_makedirs (dirs (url it))
                 (OsPath.dirname (OsPath.join outdir (relpath it))) = None) ->
            exists results ok fail ls,
              outcomes = map returned results
              /\ map (fun r => fst (fst r)) results = map url items
              /\ download_all fs outdir concurrency verbose completed
                 = (Ok (ok, fail), ls)
              /\ ok + fail = length items
              /\ ok = length (filter (fun r => snd (fst r)) results)
              /\ failure_lines ls = fail)
           /\ (os_makedirs fs outdir = None ->
               (concurrency <= 0)%Z ->
               download_all fs outdir concurrency verbose completed
               = (Raise ValueError, []))
           /\ ((exists it msg,
                  In it items
                  /\ check_domain (url it) only_domain = true
                  /\ os_makedirs (dirs (url it))
                       (OsPath.dirname (OsPath.join outdir (relpath it)))
                     = Some msg) ->
               exists e ls,
                 download_all fs outdir concurrency verbose completed
                 = (Raise e, ls)).
Proof.
  intros fuel fs dirs world items outdir concurrency retries only_domain verbose
         Hr Hfuel.
  destruct (run_downloads_each fuel dirs world outdir retries only_domain verbose
              items Hr Hfuel) as [outcomes [E Hall]].
  exists outcomes. split; [exact E|].
  split; [symmetry; exact (Forall2_length Hall)|].
  intros completed Hp. split; [|split].
  - intros Hout Hc Hdirs.
    assert (Hres : exists results,
               outcomes = map returned results
               /\ map (fun r => fst (fst r)) results = map url items).
    { clear E Hp. induction Hall as [|it o rest os Ho _ IH].
      - now exists [].
      - destruct IH as [results [-> Hu]].
        { intros it' Hin. apply Hdirs. now right. }
        assert (Hr' : exists success err, o = returned (url it, success, err)).
        { destruct (check_domain (url it) only_domain) eqn:Hd; [|exact Ho].
          now rewrite (Hdirs it (or_introl eq_refl) Hd) in Ho. }
        destruct Hr' as [success [err ->]].
        exists ((url it, success, err) :: results). simpl. now rewrite Hu. }
    destruct Hres as [results [-> Hu]].
    destruct (Permutation_map_inv _ _ (Permutation_sym Hp)) as [done [-> Hpd]].
    destruct (report_loop_counts verbose done 0 0) as [ls [El Hl]].
    exists results, (length (filter (fun r => snd (fst r)) done)),
      (length (filter (fun r => negb (snd (fst r))) done)), ls.
    split; [reflexivity|]. split; [exact Hu|].
    unfold download_all. rewrite Hout.
    assert (Hz : (concurrency <=? 0)%Z = false) by (apply Z.leb_gt; lia).
    rewrite Hz. split; [exact El|].
    pose proof (filter_length_complement (fun r : DownloadResult => snd (fst r))
                  done) as Hcmp.
    assert (Hlen : length done = length items).
    { rewrite <- (Permutation_length Hpd), <- (length_map url items), <- Hu.
      now rewrite length_map. }
    cbv beta in Hcmp. unfold DownloadResult in *.
    split; [lia|]. split; [|exact Hl].
    symmetry. now apply Permutation_filter_length.
  - intros Hout Hc. unfold download_all. rewrite Hout.
    assert (Hz : (concurrency <=? 0)%Z = true) by (apply Z.leb_le; lia).
    now rewrite Hz.
  - intros [it [msg [Hin [Hd Hm]]]].
    unfold download_all.
    destruct (os_makedirs fs outdir); [now eexists _, _|].
    destruct (concurrency <=? 0)%Z; [now eexists _, _|].
    assert (Ho : In (Raise (OSError msg)) outcomes).
    { clear E Hp. induction Hall as [|it' o rest os Ho _ IH]; [destruct Hin|].
      destruct Hin as [->|Hin]; [|right; now apply IH].
      left. now rewrite Hd, Hm in Ho. }
    apply (report_loop_raises verbose completed (Raise (OSError msg))).
    + now apply (Permutation_in _ Hp).
    + intros r. discriminate.
Qed.

Lemma X17_summary_witness :
  (0 <= 1)%Z
  /\ Z.to_nat 1 < 2
  /\ exists ok fail ls,
       download_all (fun _ => None) "out" 8 false
         [returned ("http://h/b", false, Some "HTTP 503");
          returned ("http://h/a", true, None)]
       = (Ok (ok, fail), ls)
       /\ ok + fail = 2
       /\ failure_lines ls = fail.
Proof.
  split; [lia|]. split; [simpl; lia|].
  destruct (X17_summary_accounts_for_every_item 2 (fun _ => None) (fun _ _ => None)
              (fun u => fails_then_succeeds (if u =? "http://h/a" then 1 else 5)
                          (fun _ => "HTTP 503"))
              [mkDownloadItem "http://h/a" "a"; mkDownloadItem "http://h/b" "b"]
              "out" 8%Z 1%Z None false) as [outcomes [E [_ H]]].
  - lia.
  - simpl. lia.
  - vm_compute in E. injection E as <-.
    destruct (H [returned ("http://h/b", false, Some "HTTP 503");
                 returned ("http://h/a", true, None)] (perm_swap _ _ _))
      as [Hok _].
    destruct Hok as [results [ok [fail [ls [_ [_ [Ed [Hs [_ Hf]]]]]]]]].
    + reflexivity.
    + lia.
    + intros it [<-|[<-|[]]] _; reflexivity.
    + exists ok, fail, ls. repeat split; assumption.
Defined.

(* ------------------------------------------------------------------ *)
(** * The number tokens, piece by piece *)

Lemma sub_number_go_plain (n : Z) (pre X : string) :
  Py.has_char "$" pre = false ->
  sub_number_go n 0 (pre ++ X) = pre ++ sub_number_go n 0 X.
Proof.
  induction pre as [|c pre IH]; intros H; [reflexivity|].
  cbn [Py.has_char] in H. apply orb_false_iff in H. destruct H as [Hc Hp].
  simpl append. cbn [sub_number_go].
  assert (M : match_number_token (String c (pre ++ X)) = None).
  { unfold match_number_token. cbn [prefix].
    destruct (ascii_dec "$" c) as [<-|N]; [discriminate Hc | reflexivity]. }
  now rewrite M, (IH Hp).
Qed.

Lemma sub_number_go_skip (n : Z) (a X : string) :
  sub_number_go n (String.length a) (a ++ X) = sub_number_go n 0 X.
Proof.
  induction a as [|c a IH]; simpl.
  - now destruct X.
  - exact IH.
Qed.

Lemma substring_all (s : string) : substring 0 (String.length s) s = s.
Proof. induction s as [|c s IH]; simpl; [reflexivity | now rewrite IH]. Qed.

Lemma span_digits_app (ds X : string) :
  Url.all_chars Py.isdigit ds = true ->
  span_digits (ds ++ String "d" X) = (ds, String "d" X).
Proof.
  induction ds as [|c ds IH]; intros H; [reflexivity|].
  simpl in H. apply andb_prop in H. destruct H as [Hc Hd].
  simpl append. cbn [span_digits]. now rewrite Hc, (IH Hd).
Qed.

Lemma length_append (a b : string) :
  String.length (a ++ b) = String.length a + String.length b.
Proof. induction a as [|c a IH]; simpl; [reflexivity | now rewrite IH]. Qed.

Lemma sub_number_plain_token (n : Z) (post : string) :
  sub_number_go n 0 ("$Number$" ++ post) = Py.str n ++ sub_number_go n 0 post.
Proof.
  change ("$Number$" ++ post) with (String "$" ("Number$" ++ post)).
  cbn [sub_number_go].
  assert (M : match_number_token (String "$" ("Number$" ++ post)) = Some (None, 8)).
  { unfold match_number_token. cbn. reflexivity. }
  rewrite M. cbn [number_repl].
  now rewrite <- (sub_number_go_skip n "Number$" post).
Qed.

Lemma sub_number_padded_token (n : Z) (ds post : string) (w : Z) :
  Url.all_chars Py.isdigit ds = true ->
  ds <> "" ->
  Py.digits_val 0 false ds = Some w ->
  sub_number_go n 0 ("$Number%0" ++ ds ++ "d$" ++ post)
  = Py.format_0d (Z.to_nat w) n ++ sub_number_go n 0 post.
Proof.
  intros Hd Hne Hw.
  change ("$Number%0" ++ ds ++ "d$" ++ post)
    with (String "$" ("Number%0" ++ ds ++ "d$" ++ post)).
  cbn [sub_number_go].
  assert (M : match_number_token (String "$" ("Number%0" ++ ds ++ "d$" ++ post))
              = Some (Some ds, 11 + String.length ds)).
  { unfold match_number_token.
    change (String "$" ("Number%0" ++ ds ++ "d$" ++ post))
      with ("$Number" ++ ("%0" ++ ds ++ "d$" ++ post)).
    assert (P : prefix "$Number" ("$Number" ++ ("%0" ++ ds ++ "d$" ++ post)) = true)
      by (cbn; reflexivity).
    rewrite P.
    assert (S7 : substring 7
                   (String.length ("$Number" ++ ("%0" ++ ds ++ "d$" ++ post)) - 7)
                   ("$Number" ++ ("%0" ++ ds ++ "d$" ++ post))
                 = "%0" ++ ds ++ "d$" ++ post).
    { rewrite length_append.
      replace (String.length "$Number" + String.length ("%0" ++ ds ++ "d$" ++ post) - 7)
        with (String.length ("%0" ++ ds ++ "d$" ++ post)) by (simpl; lia).
      change (substring 7 ?m ("$Number" ++ ?r)) with (substring 0 m r).
      apply substring_all. }
    rewrite S7.
    change ("%0" ++ ds ++ "d$" ++ post)
      with (String "%" (String "0" (ds ++ String "d" (String "$" post)))).
    cbv iota beta. rewrite (span_digits_app ds _ Hd).
    destruct ds as [|d ds']; [congruence | reflexivity]. }
  rewrite M. cbn [number_repl]. rewrite Hw. f_equal.
  replace (11 + String.length ds - 1)
    with (String.length ("Number%0" ++ ds ++ "d$"))
    by (rewrite !length_append; simpl; lia).
  replace ("Number%0" ++ ds ++ "d$" ++ post)
    with (("Number%0" ++ ds ++ "d$") ++ post).
  - apply sub_number_go_skip.
  - simpl. f_equal. f_equal. f_equal. f_equal. f_equal. f_equal. f_equal. f_equal.
    clear. induction ds as [|c ds IH]; simpl; [reflexivity | now rewrite IH].
Qed.

Lemma str_negative (p : positive) :
  Py.str (Zneg p) = String "-" (Py.str (Zpos p)).
Proof. reflexivity. Qed.

Lemma length_zeros (k : nat) : String.length (Py.zeros k) = k.
Proof. induction k; simpl; auto. Qed.

Lemma format_0d_length (w : nat) (n : Z) :
  String.length (Py.format_0d w n) = Nat.max w (String.length (Py.str n))
  /\ (w <= String.length (Py.str n) -> Py.format_0d w n = Py.str n).
Proof.
  unfold Py.format_0d. destruct n as [|p|p]; cbn [Z.abs Z.ltb Z.compare].
  - rewrite !length_append, length_zeros. simpl String.length. split; [lia|].
    intros H. replace (w - 0 - 1) with 0 by lia. reflexivity.
  - rewrite !length_append, length_zeros. simpl String.length. split; [lia|].
    intros H. replace (w - 0 - String.length (Py.str (Z.pos p))) with 0 by lia.
    reflexivity.
  - rewrite str_negative, !length_append, length_zeros. simpl String.length.
    split; [lia|].
    intros H.
    replace (w - 1 - String.length (Py.str (Z.pos p))) with 0 by lia.
    reflexivity.
Qed.

(** X18.  The number substitution works token by token.  Text without
    a dollar sign is copied; [$Number$] becomes the decimal text of the
    number; [$Number%0<w>d$] becomes that text padded with zeros after
    the sign to [w] characters, never cut: its length is the larger of
    [w] and the length of the plain text, and it is the plain text when
    that is already [w] long. *)
Theorem X18_number_tokens :
  forall (n : Z) (pre post : string),
    Py.has_char "$" pre = false ->
    sub_number n (pre ++ "$Number$" ++ post) = pre ++ Py.str n ++ sub_number n post
    /\ (forall ds w,
          Url.all_chars Py.isdigit ds = true ->
          ds <> "" ->
          Py.digits_val 0 false ds = Some w ->
          sub_number n (pre ++ "$Number%0" ++ ds ++ "d$" ++ post)
          = pre ++ Py.format_0d (Z.to_nat w) n ++ sub_number n post
          /\ String.length (Py.format_0d (Z.to_nat w) n)
             = Nat.max (Z.to_nat w) (String.length (Py.str n))
          /\ (Z.to_nat w <= String.length (Py.str n) ->
              Py.format_0d (Z.to_nat w) n = Py.str n)).
Proof.
  intros n pre post Hpre. unfold sub_number. split.
  - now rewrite (sub_number_go_plain n pre _ Hpre), sub_number_plain_token.
  - intros ds w Hd Hne Hw.
    rewrite (sub_number_go_plain n pre _ Hpre),
      (sub_number_padded_token n ds post w Hd Hne Hw).
    split; [reflexivity|]. apply format_0d_length.
Qed.

Lemma X18_number_tokens_witness :
  Py.has_char "$" "seg-" = false
  /\ sub_number 7 ("seg-" ++ "$Number%0" ++ "3" ++ "d$" ++ ".m4s") = "seg-007.m4s"
  /\ sub_number (-7) ("seg-" ++ "$Number$" ++ ".m4s") = "seg--7.m4s".
Proof.
  split; [reflexivity|]. split.
  - exact (proj1 (proj2 (X18_number_tokens 7 "seg-" ".m4s" eq_refl) "3" 3%Z
                    eq_refl ltac:(discriminate) eq_refl)).
  - exact (proj1 (X18_number_tokens (-7) "seg-" ".m4s" eq_refl)).
Defined.

(* ------------------------------------------------------------------ *)
(** * Negative retries *)

(** X19.  With a negative retry count the loop of [download_one] is
    never entered: for an item that passes the domain gate the
    directory is made, no request is sent and nothing sleeps, and the
    call returns Python's [None] instead of a result (or leaves with
    the [OSError] of [os.makedirs]).  The run has nothing to unpack for
    the item: in every order of completion the loop of [main] is left
    with an exception. *)
Theorem X19_negative_retries_return_none :
  forall fuel dirs world item rest outdir retries only_domain verbose,
    (retries < 0)%Z ->
    check_domain (url item) only_domain = true ->
    (exists o tr,
        download_one (S fuel) (dirs (url item)) (world (url item)) item outdir
          retries only_domain verbose = Some (o, tr)
        /\ gets tr = 0 /\ sleeps tr = []
        /\ (forall r, o <> returned r)
        /\ (os_makedirs (dirs (url item))
              (OsPath.dirname (OsPath.join outdir (relpath item))) = None ->
            o = Ok None
            /\ tr = [Makedirs (OsPath.dirname (OsPath.join outdir (relpath item)))]))
    /\ report_loop verbose [Ok None] 0 0 = (Raise TypeError, [])
    /\ forall outcomes completed ok fail,
         run_downloads (S fuel) dirs world (item :: rest) outdir retries only_domain
           verbose = Some outcomes ->
         Permutation outcomes completed ->
         exists e ls, report_loop verbose completed ok fail = (Raise e, ls).
Proof.
  intros fuel dirs world item rest outdir retries only_domain verbose Hr Hd.
  assert (E : exists o tr,
             download_one (S fuel) (dirs (url item)) (world (url item)) item outdir
               retries only_domain verbose = Some (o, tr)
             /\ gets tr = 0 /\ sleeps tr = []
             /\ (forall r, o <> returned r)
             /\ (os_makedirs (dirs (url item))
                   (OsPath.dirname (OsPath.join outdir (relpath item))) = None ->
                 o = Ok None
                 /\ tr = [Makedirs (OsPath.dirname
                                      (OsPath.join outdir (relpath item)))])).
  { unfold download_one. rewrite Hd. cbn [negb]. cbv zeta.
    destruct (os_makedirs _ _) as [msg|].
    - eexists _, _. split; [reflexivity|].
      split; [reflexivity|]. split; [reflexivity|].
      split; [intros r; discriminate | discriminate].
    - cbn [attempt_loop].
      assert (E : (0 <=? retries)%Z = false) by (apply Z.leb_gt; lia).
      rewrite E. eexists _, _. split; [reflexivity|].
      split; [reflexivity|]. split; [reflexivity|].
      split; [intros r; discriminate | now split]. }
  split; [exact E|]. split; [reflexivity|].
  intros outcomes completed ok fail Hrun Hp.
  destruct E as [o [tr [Ed [_ [_ [Ho _]]]]]].
  cbn [run_downloads] in Hrun. rewrite Ed in Hrun.
  destruct (run_downloads (S fuel) dirs world rest outdir retries only_domain verbose)
    as [os|]; [|discriminate Hrun].
  injection Hrun as <-.
  apply (report_loop_raises verbose completed o).
  - apply (Permutation_in _ Hp). now left.
  - exact Ho.
Qed.

Lemma X19_negative_retries_witness :
  (-1 < 0)%Z
  /\ check_domain "http://h/v/seg.m4s" None = true
  /\ exists o tr,
       download_one 1 (fun _ => None) (fun _ => None)
         (mkDownloadItem "http://h/v/seg.m4s" "v/seg.m4s") "out" (-1) None false
       = Some (o, tr)
       /\ gets tr = 0 /\ sleeps tr = []
       /\ (forall r, o <> returned r)
       /\ (os_makedirs (fun _ => None)
             (OsPath.dirname (OsPath.join "out" "v/seg.m4s")) = None ->
           o = Ok None
           /\ tr = [Makedirs (OsPath.dirname (OsPath.join "out" "v/seg.m4s"))]).
Proof.
  split; [lia|]. split; [reflexivity|].
  apply (proj1 (X19_negative_retries_return_none 0 (fun _ _ => None) (fun _ _ => None)
                  (mkDownloadItem "http://h/v/seg.m4s" "v/seg.m4s") [] "out"
                  (-1)%Z None false ltac:(lia) eq_refl)).
Defined.
